(** * tfmf: matrix factorisation on TensorFlow -- a shallow embedding of [tfmf/mf.py]

    The development follows the layout of the Python module: the tensors
    built by [MatrixFactorizer.TFModel.__init__], the methods of [TFModel],
    and the methods of the estimator [MatrixFactorizer].

    Numbers.  TensorFlow computes in [float32]; the embedding computes in the
    real numbers, the usual idealisation: no rounding, no overflow, no NaN.
    Index arrays are lists of [Z], dimensions are [nat].

    Tensors.  A TensorFlow variable has a static shape that no operation can
    change.  A variable of shape [[n]] is a function [nat -> R] read below
    [n], a variable of shape [[n; d]] a function [nat -> nat -> R]; the shape
    itself is kept in the model ([shape]).  Batches fed through placeholders
    of shape [[None]] are lists.

    Libraries.  What numpy.random, TensorFlow's initialisers and TensorFlow's
    optimisers compute is not part of the repository: it is taken as a
    parameter, the class [External]. *)

From Stdlib Require Import Reals Lra ZArith Lia List String Bool FunctionalExtensionality.
From stdpp Require Import base option list gmap.
Import ListNotations.

Local Open Scope R_scope.

(** * Python exceptions *)

(** The exception classes that the modelled code paths can raise, and
    [NotInitializedError], the class the specification names for calls made
    before the shape is known. *)
Inductive exn : Set :=
| AttributeError        (* attribute access on [None] *)
| TypeError             (* [None] where numpy expects an integer *)
| ValueError            (* numpy: [high <= 0]; TensorFlow: shape not fully defined *)
| IndexError            (* scipy.sparse: index out of range *)
| InvalidArgumentError  (* TensorFlow: id out of range, incompatible shapes *)
| NotInitializedError.

Inductive result (A : Type) : Type :=
| Ok (a : A)
| Raise (e : exn).
Arguments Ok {A} a.
Arguments Raise {A} e.

#[global] Instance result_ret : MRet result := fun A a => Ok a.
#[global] Instance result_bind : MBind result := fun A B f r =>
  match r with
  | Ok a => f a
  | Raise e => Raise e
  end.

#[global] Instance result_fmap : FMap result := fun A B f r =>
  match r with
  | Ok a => Ok (f a)
  | Raise e => Raise e
  end.

Fixpoint traverse {A B : Type} (f : A -> result B) (l : list A) : result (list B) :=
  match l with
  | [] => Ok []
  | x :: l' =>
      match f x with
      | Raise e => Raise e
      | Ok y => match traverse f l' with
                | Raise e => Raise e
                | Ok ys => Ok (y :: ys)
                end
      end
  end.

(** * Elementary tensor operations *)

(** [tf.reduce_sum] of a batch. *)
Definition reduce_sum (l : list R) : R := fold_right Rplus 0 l.

(** Sum of [f 0 .. f (n-1)]: [tf.reduce_sum] along an axis of static size [n]. *)
Fixpoint sum_upto (n : nat) (f : nat -> R) : R :=
  match n with
  | O => 0
  | S n' => sum_upto n' f + f n'
  end.

(** [tf.clip_by_value t lo hi] is [maximum (minimum t hi) lo]. *)
Definition clip_by_value (t lo hi : R) : R := Rmax (Rmin t hi) lo.

Definition log1p (x : R) : R := ln (1 + x).

Definition sigmoid (x : R) : R := 1 / (1 + exp (- x)).

(** [tf.nn.l2_loss t] is [sum (t ** 2) / 2]. *)
Definition l2_loss (l : list R) : R := reduce_sum (map (fun x => x * x) l) / 2.

Definition l2_loss_matrix (n d : nat) (w : nat -> nat -> R) : R :=
  sum_upto n (fun i => sum_upto d (fun j => w i j * w i j)) / 2.

(** Element-wise binary operation on two batches, with the broadcasting
    TensorFlow applies along the batch axis: equal sizes, or one of them 1. *)
Definition broadcast2 {A B C : Type} (f : A -> B -> C)
    (xs : list A) (ys : list B) : result (list C) :=
  if (length xs =? length ys)%nat then Ok (zip_with f xs ys)
  else match xs, ys with
       | [x], _ => Ok (map (f x) ys)
       | _, [y] => Ok (map (fun x => f x y) xs)
       | _, _ => Raise InvalidArgumentError
       end.

Definition in_range (n : nat) (i : Z) : bool :=
  ((0 <=? i) && (i <? Z.of_nat n))%Z.

(** [tf.nn.embedding_lookup params ids] on a variable whose first axis has
    static size [n]: a gather that rejects ids outside [[0, n)].  The ids
    are the values that the [tf.int32] placeholders hold. *)
Definition embedding_lookup {A : Type} (n : nat) (params : nat -> A)
    (ids : list Z) : result (list A) :=
  traverse (fun i => if in_range n i then Ok (params (Z.to_nat i))
                     else Raise InvalidArgumentError) ids.

(** ** [tf.losses] *)

(** The [weights] argument of a loss: a scalar or one weight per entry. *)
Inductive weights : Type :=
| Scalar (w : R)
| PerEntry (ws : list R).

Definition broadcast_weights (w : weights) (size : nat) : result (list R) :=
  match w with
  | Scalar c => Ok (repeat c size)
  | PerEntry ws =>
      if (length ws =? size)%nat then Ok ws
      else match ws with
           | [c] => Ok (repeat c size)
           | _ => Raise InvalidArgumentError
           end
  end.

Definition nonzero (x : R) : bool := if Req_dec_T x 0 then false else true.

(** [_num_present]: how many entries carry a weight different from zero. *)
Definition num_present (ws : list R) : nat := length (List.filter nonzero ws).

(** [_safe_div]: zero when the denominator is not positive. *)
Definition safe_div (num : R) (den : nat) : R :=
  match den with
  | O => 0
  | S _ => num / INR den
  end.

(** [tf.losses.compute_weighted_loss] with the default reduction
    [SUM_BY_NONZERO_WEIGHTS]. *)
Definition compute_weighted_loss (losses : list R) (w : weights) : result R :=
  ws ← broadcast_weights w (length losses);
  Ok (safe_div (reduce_sum (zip_with Rmult losses ws)) (num_present ws)).

Definition mean_squared_error (predictions labels : list R) (w : weights) : result R :=
  losses ← broadcast2 (fun p t => (p - t) * (p - t)) predictions labels;
  compute_weighted_loss losses w.

Definition epsilon : R := / 10000000.

Definition log_loss (predictions labels : list R) (w : weights) : result R :=
  losses ← broadcast2
    (fun p t => - (t * ln (p + epsilon)) - (1 - t) * ln (1 - p + epsilon))
    predictions labels;
  compute_weighted_loss losses w.

(** * The variables of the graph *)

(** [global_bias] (mu), [row_biases] (bi), [col_biases] (bj), [row_weights]
    (P) and [col_weights] (Q).  The three biases are variables of the graph
    only when [fit_intercepts] holds; otherwise no tensor reads them. *)
Record Store : Type := {
  global_bias : R;
  row_biases : nat -> R;
  col_biases : nat -> R;
  row_weights : nat -> nat -> R;
  col_weights : nat -> nat -> R
}.

(** A value fetched from the session: a scalar, a vector of static length
    or a matrix of static shape. *)
Inductive tensor : Type :=
| TScalar (x : R)
| TVector (n : nat) (v : nat -> R)
| TMatrix (n d : nat) (w : nat -> nat -> R).

(** The branches that graph construction takes in the name scopes [inputs]
    and [parameters], before the weights are created.  TensorFlow derives
    the seed of an initialiser from the graph seed and from the operations
    the graph holds when the initialiser is created, and these branches
    decide which operations those are. *)
Record Branches : Type := {
  in_implicit : bool;
  in_log_weights : bool;
  in_fit_intercepts : bool
}.

(** * What the libraries provide *)

Class External : Type := {
  (** state of numpy's global generator *)
  RandomState : Type;
  (** the entropy of the operating system, read when a seed is [None] *)
  Entropy : Type;
  urandom : Entropy -> Z * Entropy;
  (** [np.random.seed s] for an integer [s] *)
  np_seed : Z -> RandomState;
  (** [np.random.randint high size]; [None] stands for [ValueError] *)
  np_randint : nat -> nat -> RandomState -> option (list Z) * RandomState;
  (** entry [(i, j)] of the standard normal sample that the initialiser of
      the variable of the given name draws under the given graph seed, in
      the graph of a model of the given shape [(n, k, d)] built along the
      given branches: the sample is drawn for the whole tensor, so an entry
      changes with the shape *)
  standard_normal :
    Z -> Branches -> nat * nat * nat -> string -> nat -> nat -> R;
  (** slot variables of an optimiser, and one [minimize] step: learning
      rate, objective as a function of the variables, current state *)
  OptSlots : Type;
  adam_slots : OptSlots;
  ftrl_slots : OptSlots;
  adam_minimize : R -> (Store -> R) -> Store -> OptSlots -> Store * OptSlots;
  ftrl_minimize : R -> (Store -> R) -> Store -> OptSlots -> Store * OptSlots
}.

(** The contract of [np.random.randint high size] for [0 < high]: an array of
    [size] integers, each in [[0, high)]. *)
Definition randint_contract (L : External) : Prop :=
  forall (high size : nat) (s : RandomState), (0 < high)%nat ->
    exists (l : list Z) (s' : RandomState),
      np_randint high size s = (Some l, s') /\
      length l = size /\
      Forall (fun i => (0 <= i < Z.of_nat high)%Z) l.

(** The part of the process outside the estimator object. *)
Record World {L : External} : Type := {
  np_random : RandomState;
  entropy : Entropy
}.

(** * [MatrixFactorizer.TFModel] *)

Module TFModel.
Section WithExternal.
Context {L : External}.

(** The session: current values of the variables and of the optimiser's slots. *)
Record Session : Type := {
  variables : Store;
  slots : OptSlots
}.

(** The attributes set by [TFModel.__init__].  [alpha] and
    [regularization_rate] are the constants of the graph, [shape] the static
    shape [(n, k, d)] of the variables created. *)
Record t : Type := {
  shape : nat * nat * nat;
  learning_rate : R;
  alpha : R;
  regularization_rate : R;
  implicit : bool;
  loss : string;
  log_weights : option bool;
  fit_intercepts : bool;
  optimizer : string;
  random_state : option Z;
  sess : Session
}.

Definition with_sess (m : t) (s : Session) : t :=
  {| shape := shape m; learning_rate := learning_rate m; alpha := alpha m;
     regularization_rate := regularization_rate m; implicit := implicit m;
     loss := loss m; log_weights := log_weights m;
     fit_intercepts := fit_intercepts m; optimizer := optimizer m;
     random_state := random_state m; sess := s |}.

(** Truth value of [self.log_weights] in [if self.log_weights:]. *)
Definition truthy (b : option bool) : bool :=
  match b with Some true => true | _ => false end.

(** ** The tensors of the graph, as functions of the values fed and of the
    current values [vars] of the variables *)

(** name scope [inputs] *)
Definition targets (m : t) (values : list R) : list R :=
  if implicit m then map (fun v => clip_by_value v 0 1) values
  else values.

Definition data_weights (m : t) (values : list R) : weights :=
  if implicit m then
    if truthy (log_weights m)
    then PerEntry (map (fun v => 1 + alpha m * log1p v) values)
    else PerEntry (map (fun v => 1 + alpha m * v) values)
  else Scalar 1.

(** name scope [prediction] *)
Definition weights_product (m : t) (vars : Store) (row_ids col_ids : list Z)
    : result (list R) :=
  let '(n, k, d) := shape m in
  batch_row_weights ← embedding_lookup n (row_weights vars) row_ids;
  batch_col_weights ← embedding_lookup k (col_weights vars) col_ids;
  broadcast2 (fun p q => sum_upto d (fun j => p j * q j))
             batch_row_weights batch_col_weights.

Definition linear_predictor (m : t) (vars : Store) (row_ids col_ids : list Z)
    : result (list R) :=
  let '(n, k, d) := shape m in
  if fit_intercepts m then
    batch_row_biases ← embedding_lookup n (row_biases vars) row_ids;
    batch_col_biases ← embedding_lookup k (col_biases vars) col_ids;
    weights ← weights_product m vars row_ids col_ids;
    biases ← broadcast2 Rplus batch_row_biases batch_col_biases;
    broadcast2 Rplus (map (Rplus (global_bias vars)) biases) weights
  else weights_product m vars row_ids col_ids.

Definition pred (m : t) (vars : Store) (row_ids col_ids : list Z)
    : result (list R) :=
  linear ← linear_predictor m vars row_ids col_ids;
  if String.eqb (loss m) "logistic" then Ok (map sigmoid linear)
  else Ok linear.

(** name scope [loss] *)
Definition l2_weights (m : t) (vars : Store) : R :=
  let '(n, k, d) := shape m in
  l2_loss_matrix n d (row_weights vars) + l2_loss_matrix k d (col_weights vars).

Definition l2_term (m : t) (vars : Store) (row_ids col_ids : list Z) : result R :=
  let '(n, k, d) := shape m in
  if fit_intercepts m then
    batch_row_biases ← embedding_lookup n (row_biases vars) row_ids;
    batch_col_biases ← embedding_lookup k (col_biases vars) col_ids;
    Ok (regularization_rate m *
        (l2_weights m vars + (l2_loss batch_row_biases + l2_loss batch_col_biases)))
  else Ok (regularization_rate m * l2_weights m vars).

Definition loss_raw (m : t) (vars : Store) (row_ids col_ids : list Z)
    (values : list R) : result R :=
  predictions ← pred m vars row_ids col_ids;
  if String.eqb (loss m) "logistic"
  then log_loss predictions (targets m values) (data_weights m values)
  else mean_squared_error predictions (targets m values) (data_weights m values).

Definition cost (m : t) (vars : Store) (row_ids col_ids : list Z)
    (values : list R) : result R :=
  data_loss ← loss_raw m vars row_ids col_ids values;
  regularization ← l2_term m vars row_ids col_ids;
  Ok (data_loss + regularization).

(** The objective handed to [minimize]: [cost] as a function of the variables. *)
Definition objective (m : t) (row_ids col_ids : list Z) (values : list R)
    (vars : Store) : R :=
  match cost m vars row_ids col_ids values with
  | Ok c => c
  | Raise _ => 0
  end.

(** [train_step]: one [minimize] step of the configured optimiser. *)
Definition train_step (m : t) (row_ids col_ids : list Z) (values : list R)
    : Session :=
  let '(vars, sl) :=
    if String.eqb (optimizer m) "Ftrl"
    then ftrl_minimize (learning_rate m) (objective m row_ids col_ids values)
                       (variables (sess m)) (slots (sess m))
    else adam_minimize (learning_rate m) (objective m row_ids col_ids values)
                       (variables (sess m)) (slots (sess m)) in
  {| variables := vars; slots := sl |}.

(** ** Methods *)

(** The branches taken for the given arguments: [if self.implicit], inside
    it [if self.log_weights], and [if self.fit_intercepts]. *)
Definition branches (implicit_ : bool) (log_weights_ : option bool)
    (fit_intercepts_ : bool) : Branches :=
  {| in_implicit := implicit_;
     in_log_weights := implicit_ && truthy log_weights_;
     in_fit_intercepts := fit_intercepts_ |}.

(** Initial values: biases zero, weights normal with mean 0 and standard
    deviation 0.01 under the graph seed, drawn for the shapes [[n, d]] and
    [[k, d]]. *)
Definition initial_variables (graph_seed : Z) (b : Branches)
    (shape_ : nat * nat * nat) : Store :=
  {| global_bias := 0;
     row_biases := fun _ => 0;
     col_biases := fun _ => 0;
     row_weights := fun i j =>
       0 + / 100 * standard_normal graph_seed b shape_ "row_weights" i j;
     col_weights := fun i j =>
       0 + / 100 * standard_normal graph_seed b shape_ "col_weights" i j |}.

(** [tf.set_random_seed random_state]: the seed itself, or one read from the
    operating system when it is [None]. *)
Definition set_random_seed (seed : option Z) (w : World) : Z * World :=
  match seed with
  | Some s => (s, w)
  | None => let '(s, e) := urandom (entropy w) in
            (s, {| np_random := np_random w; entropy := e |})
  end.

(** [TFModel.__init__].  Variables need a fully defined shape: a dimension
    that is still [None] makes [tf.get_variable] raise. *)
Definition __init__ (shape_ : option nat * option nat * nat)
    (learning_rate_ alpha_ regularization_rate_ : R) (implicit_ : bool)
    (loss_ : string) (log_weights_ : option bool) (fit_intercepts_ : bool)
    (optimizer_ : string) (random_state_ : option Z) (w : World)
    : result t * World :=
  match shape_ with
  | (Some n, Some k, d) =>
      let '(graph_seed, w') := set_random_seed random_state_ w in
      (Ok {| shape := (n, k, d); learning_rate := learning_rate_;
             alpha := alpha_; regularization_rate := regularization_rate_;
             implicit := implicit_; loss := loss_;
             log_weights := log_weights_; fit_intercepts := fit_intercepts_;
             optimizer := optimizer_; random_state := random_state_;
             sess := {| variables :=
                          initial_variables graph_seed
                            (branches implicit_ log_weights_ fit_intercepts_)
                            (n, k, d);
                        slots := if String.eqb optimizer_ "Ftrl"
                                 then ftrl_slots else adam_slots |} |}, w')
  | _ => (Raise ValueError, w)
  end.

(** [train]: fetches [train_step] and [cost] in one run; the loss returned is
    the cost of the batch at the variables the step starts from. *)
Definition train (m : t) (rows cols : list Z) (values : list R)
    : result (R * t) :=
  loss_value ← cost m (variables (sess m)) rows cols values;
  Ok (loss_value, with_sess m (train_step m rows cols values)).

Definition predict (m : t) (rows cols : list Z) : result (list R) :=
  pred m (variables (sess m)) rows cols.

(** [coef]: the dictionary of the current values of the variables, under the
    keys the method gives them. *)
Definition coef (m : t) : gmap string tensor :=
  let '(n, k, d) := shape m in
  let vars := variables (sess m) in
  if fit_intercepts m then
    {[ "global_bias"%string := TScalar (global_bias vars);
       "row_bias"%string := TVector n (row_biases vars);
       "col_bias"%string := TVector k (col_biases vars);
       "row_weights"%string := TMatrix n d (row_weights vars);
       "col_weights"%string := TMatrix k d (col_weights vars) ]}
  else
    {[ "row_weights"%string := TMatrix n d (row_weights vars);
       "col_weights"%string := TMatrix k d (col_weights vars) ]}.

End WithExternal.
End TFModel.

(** * The sparse input matrix *)

(** A [scipy.sparse.csr_matrix]: its shape and its stored entries.  An entry
    that is not stored reads as zero. *)
Module csr_matrix.

Record t : Type := {
  shape : nat * nat;
  data : gmap (nat * nat) R
}.

(** Index [i] along an axis of length [n]; a negative index counts from the
    end, anything else out of [[-n, n)] is an [IndexError]. *)
Definition axis_index (n : nat) (i : Z) : option nat :=
  if ((0 <=? i) && (i <? Z.of_nat n))%Z then Some (Z.to_nat i)
  else if ((- Z.of_nat n <=? i) && (i <? 0))%Z then Some (Z.to_nat (i + Z.of_nat n))
  else None.

Definition at_ (X : t) (i j : nat) : R := default 0 (data X !! (i, j)).

Definition cell (X : t) (i j : Z) : result R :=
  match axis_index (fst (shape X)) i, axis_index (snd (shape X)) j with
  | Some i', Some j' => Ok (at_ X i' j')
  | _, _ => Raise IndexError
  end.

(** [X[rows, cols].A.flatten()]: the values at the co-indexed positions. *)
Definition getitem (X : t) (rows cols : list Z) : result (list R) :=
  match broadcast2 (fun i j => (i, j)) rows cols with
  | Raise _ => Raise IndexError
  | Ok positions => traverse (fun '(i, j) => cell X i j) positions
  end.

End csr_matrix.

(** * Computations that draw from numpy's generator *)

Class MonadNumpy (M : Type -> Type) `{MRet M, MBind M} : Type := {
  (** [np.random.randint high size=size] *)
  randint : nat -> nat -> M (list Z);
  throw : forall {A : Type}, exn -> M A
}.

Definition lift {M : Type -> Type} `{MonadNumpy M} {A : Type} (r : result A) : M A :=
  match r with
  | Ok a => mret a
  | Raise e => throw e
  end.

(** The body of [MatrixFactorizer._get_batch], for the value [shape] of
    [self.shape]. *)
Definition get_batch {M : Type -> Type} `{MonadNumpy M}
    (shape : option nat * option nat * nat) (data : csr_matrix.t)
    (batch_size : nat) : M (list Z * list Z * list R)%type :=
  match shape with
  | (Some n, Some k, _) =>
      batch_rows ← randint n batch_size;
      batch_cols ← randint k batch_size;
      batch_vals ← lift (csr_matrix.getitem data batch_rows batch_cols);
      mret (batch_rows, batch_cols, batch_vals)
  | (Some n, None, _) =>
      batch_rows ← randint n batch_size;
      throw TypeError
  | (None, _, _) => throw TypeError
  end.

(** ** Finite distributions *)

(** Outcomes with their probabilities: the reading of [randint] as the
    discrete uniform law that numpy documents. *)
Definition Dist (A : Type) : Type := list (result A * R).

#[global] Instance Dist_ret : MRet Dist := fun A a => [(Ok a, 1)].

(** All arrays of a given size with entries below [high]. *)
Fixpoint arrays (high size : nat) : list (list Z) :=
  match size with
  | O => [[]]
  | S size' =>
      flat_map (fun i => map (cons (Z.of_nat i)) (arrays high size')) (seq 0 high)
  end.



(** * [MatrixFactorizer] *)

Module MatrixFactorizer.
Section WithExternal.
Context {L : External}.

(** The keyword arguments of the constructor, which are also the attributes
    it stores ([float] is the identity on the reals).  No method assigns them
    again. *)
Record Hyper : Type := {
  n_components : nat;
  n_iter : nat;
  batch_size : nat;
  learning_rate : R;
  regularization_rate : R;
  alpha : R;
  implicit : bool;
  loss : string;
  log_weights : option bool;
  fit_intercepts : bool;
  warm_start : bool;
  optimizer : string;
  random_state : option Z;
  show_progress : bool
}.

(** The estimator object: the stored arguments, [self.shape], [self._tf]
    and [self.history]. *)
Record t : Type := {
  hyper : Hyper;
  shape : option nat * option nat * nat;
  _tf : option TFModel.t;
  history : list R
}.

(** The state a method runs in: the object and the rest of the process. *)
Record State : Type := {
  self : t;
  world : World
}.

(** A method: it returns or raises, and leaves a state either way. *)
Definition Py (A : Type) : Type := State -> result A * State.

#[global] Instance Py_ret : MRet Py := fun A a st => (Ok a, st).
#[global] Instance Py_bind : MBind Py := fun A B f c st =>
  match c st with
  | (Ok a, st') => f a st'
  | (Raise e, st') => (Raise e, st')
  end.

#[global] Instance Py_numpy : MonadNumpy Py := {
  randint high size := fun st =>
    let '(r, s) := np_randint high size (np_random (world st)) in
    (match r with Some l => Ok l | None => Raise ValueError end,
     {| self := self st;
        world := {| np_random := s; entropy := entropy (world st) |} |});
  throw A e := fun st => (Raise e, st)
}.

Definition gets {A : Type} (f : t -> A) : Py A := fun st => (Ok (f (self st)), st).

Definition modify (f : t -> t) : Py unit :=
  fun st => (Ok tt, {| self := f (self st); world := world st |}).

Definition set_shape (s : option nat * option nat * nat) (e : t) : t :=
  {| hyper := hyper e; shape := s; _tf := _tf e; history := history e |}.

Definition set_tf (m : option TFModel.t) (e : t) : t :=
  {| hyper := hyper e; shape := shape e; _tf := m; history := history e |}.

Definition set_history (h : list R) (e : t) : t :=
  {| hyper := hyper e; shape := shape e; _tf := _tf e; history := h |}.

(** [np.random.seed seed]: an integer seed must fit 32 unsigned bits, and
    [None] makes numpy read a seed from the operating system. *)
Definition seed_numpy (seed : option Z) (w : World) : result World :=
  match seed with
  | Some s =>
      if ((0 <=? s) && (s <? 2 ^ 32))%Z
      then Ok {| np_random := np_seed s; entropy := entropy w |}
      else Raise ValueError
  | None => let '(s, e) := urandom (entropy w) in
            Ok {| np_random := np_seed s; entropy := e |}
  end.

Definition _fresh_session : Py unit :=
  modify (fun e => set_history [] (set_tf None e)).

(** The object when [__init__] returns: the arguments stored, no shape yet,
    and the fresh session ([_tf] is [None], the history empty). *)
Definition new_object (kw : Hyper) : t :=
  let log_weights_ :=
    if implicit kw && bool_decide (log_weights kw = None) then Some true
    else log_weights kw in
  {| hyper :=
       {| n_components := n_components kw; n_iter := n_iter kw;
          batch_size := batch_size kw; learning_rate := learning_rate kw;
          regularization_rate := regularization_rate kw; alpha := alpha kw;
          implicit := implicit kw; loss := loss kw;
          log_weights := log_weights_;
          fit_intercepts := fit_intercepts kw; warm_start := warm_start kw;
          optimizer := optimizer kw; random_state := random_state kw;
          show_progress := show_progress kw |};
     shape := (None, None, n_components kw);
     _tf := None;
     history := [] |}.

(** [MatrixFactorizer.__init__] in the process state [w]: it raises when
    numpy rejects the seed. *)
Definition __init__ (kw : Hyper) (w : World) : result State :=
  w' ← seed_numpy (random_state kw) w;
  Ok {| self := new_object kw; world := w' |}.

(** [_tf_init]: the model is built from [self.shape] whatever the argument. *)
Definition _tf_init (shape_ : option (option nat * option nat * nat)) : Py unit :=
  fun st =>
    let e := self st in
    let h := hyper e in
    let '(r, w) :=
      TFModel.__init__ (shape e) (learning_rate h) (alpha h)
        (regularization_rate h) (implicit h) (loss h) (log_weights h)
        (fit_intercepts h) (optimizer h) (random_state h) (world st) in
    match r with
    | Ok m => (Ok tt, {| self := set_tf (Some m) e; world := w |})
    | Raise x => (Raise x, {| self := e; world := w |})
    end.

Definition init_with_shape (n k : nat) : Py unit :=
  d ← gets (fun e => n_components (hyper e));
  _ ← modify (set_shape (Some n, Some k, d));
  s ← gets shape;
  _tf_init (Some s).

Definition _get_batch (data : csr_matrix.t) (batch_size_ : nat)
    : Py (list Z * list Z * list R)%type :=
  s ← gets shape;
  get_batch s data batch_size_.

(** [self._tf.train rows cols values] *)
Definition tf_train (rows cols : list Z) (values : list R) : Py R :=
  fun st =>
    match _tf (self st) with
    | None => (Raise AttributeError, st)
    | Some m =>
        match TFModel.train m rows cols values with
        | Ok (loss_value, m') =>
            (Ok loss_value, {| self := set_tf (Some m') (self st); world := world st |})
        | Raise x => (Raise x, st)
        end
    end.

(** [for _ in range n: body] *)
Fixpoint for_range (n : nat) (body : Py unit) : Py unit :=
  match n with
  | O => mret tt
  | S n' => _ ← body; for_range n' body
  end.

Definition partial_fit (sparse_matrix : csr_matrix.t) : Py unit :=
  tf_is_none ← gets (fun e : t => bool_decide (_tf e = None));
  _ ← (if tf_is_none : bool
       then init_with_shape (fst (csr_matrix.shape sparse_matrix))
                            (snd (csr_matrix.shape sparse_matrix))
       else mret tt);
  iterations ← gets (fun e => n_iter (hyper e));
  for_range iterations (
    size ← gets (fun e => batch_size (hyper e));
    '(batch_X0, batch_X1, batch_y) ← _get_batch sparse_matrix size;
    loss_value ← tf_train batch_X0 batch_X1 batch_y;
    modify (fun e => set_history (history e ++ [loss_value]) e)).

Definition fit (sparse_matrix : csr_matrix.t) : Py unit :=
  warm ← gets (fun e => warm_start (hyper e));
  _ ← (if negb warm then _fresh_session else mret tt);
  partial_fit sparse_matrix.

Definition predict (rows cols : list Z) : Py (list R) :=
  fun st =>
    match _tf (self st) with
    | None => (Raise AttributeError, st)
    | Some m => (TFModel.predict m rows cols, st)
    end.

(** ** A session of calls *)

Inductive call : Type :=
| Fit (X : csr_matrix.t)
| PartialFit (X : csr_matrix.t).

Definition run_call (c : call) : Py unit :=
  match c with
  | Fit X => fit X
  | PartialFit X => partial_fit X
  end.

(** The calls in order; the first exception ends the session. *)
Fixpoint run (cs : list call) : Py unit :=
  match cs with
  | [] => mret tt
  | c :: cs' => _ ← run_call c; run cs'
  end.

(** A script: the constructor, then the calls.  It leaves the outcome and,
    when the constructor returned, the final state. *)
Definition script (kw : Hyper) (cs : list call) (w : World)
    : result unit * option State :=
  match __init__ kw w with
  | Raise e => (Raise e, None)
  | Ok st => let '(r, st') := run cs st in (r, Some st')
  end.

(** What the caller can read once a script is over: the loss history and the
    outcome of [predict]. *)
Definition observe (rows cols : list Z) (final : option State)
    : option (list R * result (list R)) :=
  (fun st => (history (self st), fst (predict rows cols st))) <$> final.

End WithExternal.
End MatrixFactorizer.

(** * Notions used in the statements *)

Definition binary (x : R) : Prop := x = 0 \/ x = 1.

Definition dot (d : nat) (p q : nat -> R) : R := sum_upto d (fun j => p j * q j).

(** Sum of the squares of all entries of an [n] x [d] matrix. *)
Definition sum_squares (n d : nat) (w : nat -> nat -> R) : R :=
  sum_upto n (fun i => sum_upto d (fun j => w i j ^ 2)).

(** Sum of the squares of the entries of a variable gathered at a batch of ids. *)
Definition sum_squares_at (b : nat -> R) (ids : list Z) : R :=
  reduce_sum (map (fun i => b (Z.to_nat i) ^ 2) ids).

Definition ids_in_range (n : nat) (ids : list Z) : Prop :=
  Forall (fun i => (0 <= i < Z.of_nat n)%Z) ids.

(** The score of the pair [(r, c)] under the variables [vars]. *)
Definition linear_score {L : External} (m : TFModel.t) (vars : Store) (r c : Z) : R :=
  let '(n, k, d) := TFModel.shape m in
  dot d (row_weights vars (Z.to_nat r)) (col_weights vars (Z.to_nat c)) +
  (if TFModel.fit_intercepts m
   then global_bias vars + row_biases vars (Z.to_nat r) + col_biases vars (Z.to_nat c)
   else 0).

(** The regularisation term in the words of the specification: the rate times
    the sum of the squares of all entries of the two weight matrices, plus
    the squares of the bias parameters when intercepts are fitted. *)
Definition stated_regularization {L : External} (m : TFModel.t) (vars : Store) : R :=
  let '(n, k, d) := TFModel.shape m in
  TFModel.regularization_rate m *
  (sum_squares n d (row_weights vars) + sum_squares k d (col_weights vars) +
   (if TFModel.fit_intercepts m
    then global_bias vars ^ 2 + sum_upto n (fun i => row_biases vars i ^ 2)
         + sum_upto k (fun j => col_biases vars j ^ 2)
    else 0)).

(** The regularisation term as the graph computes it: every [tf.nn.l2_loss]
    halves its sum, and the biases enter through the entries gathered for the
    batch. *)
Definition graph_regularization {L : External} (m : TFModel.t) (vars : Store)
    (rows cols : list Z) : R :=
  let '(n, k, d) := TFModel.shape m in
  TFModel.regularization_rate m *
  ((sum_squares n d (row_weights vars) + sum_squares k d (col_weights vars)) / 2 +
   (if TFModel.fit_intercepts m
    then (sum_squares_at (row_biases vars) rows + sum_squares_at (col_biases vars) cols) / 2
    else 0)).

(** The matrix has at least [n] rows and [k] columns. *)
Definition covers (X : csr_matrix.t) (n k : nat) : Prop :=
  (n <= fst (csr_matrix.shape X))%nat /\ (k <= snd (csr_matrix.shape X))%nat.

(** The state [st] after numpy's generator moved to [s]. *)
Definition with_np {L : External} (st : MatrixFactorizer.State) (s : RandomState)
    : MatrixFactorizer.State :=
  {| MatrixFactorizer.self := MatrixFactorizer.self st;
     MatrixFactorizer.world :=
       {| np_random := s; entropy := entropy (MatrixFactorizer.world st) |} |}.

(** The shape is fixed at [(n, k, d)]: [self.shape] holds it and [self._tf]
    is a model built for it. *)
Definition initialised {L : External} (n k d : nat) (e : MatrixFactorizer.t) : Prop :=
  MatrixFactorizer.shape e = (Some n, Some k, d) /\
  exists m : TFModel.t,
    MatrixFactorizer._tf e = Some m /\ TFModel.shape m = (n, k, d).

(** The body of the loop of [partial_fit]. *)
Definition iteration {L : External} (X : csr_matrix.t) : MatrixFactorizer.Py unit :=
  size ← MatrixFactorizer.gets
            (fun e => MatrixFactorizer.batch_size (MatrixFactorizer.hyper e));
  '(batch_X0, batch_X1, batch_y) ← MatrixFactorizer._get_batch X size;
  loss_value ← MatrixFactorizer.tf_train batch_X0 batch_X1 batch_y;
  MatrixFactorizer.modify
    (fun e => MatrixFactorizer.set_history
                (MatrixFactorizer.history e ++ [loss_value]) e).




(** The arguments [kw] with other values of [alpha] and [log_weights]. *)
Definition with_weighting (kw : MatrixFactorizer.Hyper)
    (alpha_ : R) (log_weights_ : option bool) : MatrixFactorizer.Hyper :=
  {| MatrixFactorizer.n_components := MatrixFactorizer.n_components kw;
     MatrixFactorizer.n_iter := MatrixFactorizer.n_iter kw;
     MatrixFactorizer.batch_size := MatrixFactorizer.batch_size kw;
     MatrixFactorizer.learning_rate := MatrixFactorizer.learning_rate kw;
     MatrixFactorizer.regularization_rate := MatrixFactorizer.regularization_rate kw;
     MatrixFactorizer.alpha := alpha_;
     MatrixFactorizer.implicit := MatrixFactorizer.implicit kw;
     MatrixFactorizer.loss := MatrixFactorizer.loss kw;
     MatrixFactorizer.log_weights := log_weights_;
     MatrixFactorizer.fit_intercepts := MatrixFactorizer.fit_intercepts kw;
     MatrixFactorizer.warm_start := MatrixFactorizer.warm_start kw;
     MatrixFactorizer.optimizer := MatrixFactorizer.optimizer kw;
     MatrixFactorizer.random_state := MatrixFactorizer.random_state kw;
     MatrixFactorizer.show_progress := MatrixFactorizer.show_progress kw |}.

(** The arguments [kw] with other values of [loss] and [optimizer]. *)
Definition with_loss_optimizer (kw : MatrixFactorizer.Hyper)
    (loss_ optimizer_ : string) : MatrixFactorizer.Hyper :=
  {| MatrixFactorizer.n_components := MatrixFactorizer.n_components kw;
     MatrixFactorizer.n_iter := MatrixFactorizer.n_iter kw;
     MatrixFactorizer.batch_size := MatrixFactorizer.batch_size kw;
     MatrixFactorizer.learning_rate := MatrixFactorizer.learning_rate kw;
     MatrixFactorizer.regularization_rate := MatrixFactorizer.regularization_rate kw;
     MatrixFactorizer.alpha := MatrixFactorizer.alpha kw;
     MatrixFactorizer.implicit := MatrixFactorizer.implicit kw;
     MatrixFactorizer.loss := loss_;
     MatrixFactorizer.log_weights := MatrixFactorizer.log_weights kw;
     MatrixFactorizer.fit_intercepts := MatrixFactorizer.fit_intercepts kw;
     MatrixFactorizer.warm_start := MatrixFactorizer.warm_start kw;
     MatrixFactorizer.optimizer := optimizer_;
     MatrixFactorizer.random_state := MatrixFactorizer.random_state kw;
     MatrixFactorizer.show_progress := MatrixFactorizer.show_progress kw |}.

(** * Relations between runs *)

(** Two arguments of the constructor with the same effect on the graph: they
    agree on everything except that [alpha] and [log_weights] are free in
    explicit mode, a loss is only told apart from ['logistic'], and an
    optimiser only from ['Ftrl']. *)
Definition same_graph_hyper (h1 h2 : MatrixFactorizer.Hyper) : Prop :=
  MatrixFactorizer.n_components h1 = MatrixFactorizer.n_components h2 /\
  MatrixFactorizer.n_iter h1 = MatrixFactorizer.n_iter h2 /\
  MatrixFactorizer.batch_size h1 = MatrixFactorizer.batch_size h2 /\
  MatrixFactorizer.learning_rate h1 = MatrixFactorizer.learning_rate h2 /\
  MatrixFactorizer.regularization_rate h1 = MatrixFactorizer.regularization_rate h2 /\
  MatrixFactorizer.implicit h1 = MatrixFactorizer.implicit h2 /\
  MatrixFactorizer.fit_intercepts h1 = MatrixFactorizer.fit_intercepts h2 /\
  MatrixFactorizer.warm_start h1 = MatrixFactorizer.warm_start h2 /\
  MatrixFactorizer.random_state h1 = MatrixFactorizer.random_state h2 /\
  (MatrixFactorizer.implicit h1 = true ->
   MatrixFactorizer.alpha h1 = MatrixFactorizer.alpha h2 /\
   MatrixFactorizer.log_weights h1 = MatrixFactorizer.log_weights h2) /\
  String.eqb (MatrixFactorizer.loss h1) "logistic"
    = String.eqb (MatrixFactorizer.loss h2) "logistic" /\
  String.eqb (MatrixFactorizer.optimizer h1) "Ftrl"
    = String.eqb (MatrixFactorizer.optimizer h2) "Ftrl".

Definition same_graph_model {L : External} (m1 m2 : TFModel.t) : Prop :=
  TFModel.shape m1 = TFModel.shape m2 /\
  TFModel.learning_rate m1 = TFModel.learning_rate m2 /\
  TFModel.regularization_rate m1 = TFModel.regularization_rate m2 /\
  TFModel.implicit m1 = TFModel.implicit m2 /\
  TFModel.fit_intercepts m1 = TFModel.fit_intercepts m2 /\
  TFModel.sess m1 = TFModel.sess m2 /\
  (TFModel.implicit m1 = true ->
   TFModel.alpha m1 = TFModel.alpha m2 /\
   TFModel.truthy (TFModel.log_weights m1) = TFModel.truthy (TFModel.log_weights m2)) /\
  String.eqb (TFModel.loss m1) "logistic" = String.eqb (TFModel.loss m2) "logistic" /\
  String.eqb (TFModel.optimizer m1) "Ftrl" = String.eqb (TFModel.optimizer m2) "Ftrl".

(** Two states that no call tells apart: same process state, same shape and
    history, arguments and models with the same effect on the graph. *)
Definition similar {L : External} (st1 st2 : MatrixFactorizer.State) : Prop :=
  MatrixFactorizer.world st1 = MatrixFactorizer.world st2 /\
  same_graph_hyper (MatrixFactorizer.hyper (MatrixFactorizer.self st1))
                   (MatrixFactorizer.hyper (MatrixFactorizer.self st2)) /\
  MatrixFactorizer.shape (MatrixFactorizer.self st1)
    = MatrixFactorizer.shape (MatrixFactorizer.self st2) /\
  MatrixFactorizer.history (MatrixFactorizer.self st1)
    = MatrixFactorizer.history (MatrixFactorizer.self st2) /\
  match MatrixFactorizer._tf (MatrixFactorizer.self st1),
        MatrixFactorizer._tf (MatrixFactorizer.self st2) with
  | None, None => True
  | Some m1, Some m2 => same_graph_model m1 m2
  | _, _ => False
  end.

(** Two states of a seeded estimator that differ at most in the entropy the
    operating system holds. *)
Definition same_seeded {L : External} (st1 st2 : MatrixFactorizer.State) : Prop :=
  MatrixFactorizer.self st1 = MatrixFactorizer.self st2 /\
  np_random (MatrixFactorizer.world st1) = np_random (MatrixFactorizer.world st2) /\
  MatrixFactorizer.random_state (MatrixFactorizer.hyper (MatrixFactorizer.self st1))
    <> None.

(** The computation [c] cannot tell related states apart: same outcome, and
    related states afterwards. *)
Definition respects {L : External} {A : Type}
    (rel : MatrixFactorizer.State -> MatrixFactorizer.State -> Prop)
    (c : MatrixFactorizer.Py A) : Prop :=
  forall st1 st2 : MatrixFactorizer.State,
    rel st1 st2 ->
    fst (c st1) = fst (c st2) /\ rel (snd (c st1)) (snd (c st2)).

(** The steps of the methods that touch the state, each unable to tell
    related states apart. *)
Record compatible {L : External}
    (rel : MatrixFactorizer.State -> MatrixFactorizer.State -> Prop) : Prop := {
  compat_tf_is_none :
    respects rel (MatrixFactorizer.gets
      (fun e : MatrixFactorizer.t => bool_decide (MatrixFactorizer._tf e = None)));
  compat_n_components :
    respects rel (MatrixFactorizer.gets
      (fun e => MatrixFactorizer.n_components (MatrixFactorizer.hyper e)));
  compat_n_iter :
    respects rel (MatrixFactorizer.gets
      (fun e => MatrixFactorizer.n_iter (MatrixFactorizer.hyper e)));
  compat_batch_size :
    respects rel (MatrixFactorizer.gets
      (fun e => MatrixFactorizer.batch_size (MatrixFactorizer.hyper e)));
  compat_warm_start :
    respects rel (MatrixFactorizer.gets
      (fun e => MatrixFactorizer.warm_start (MatrixFactorizer.hyper e)));
  compat_shape :
    respects rel (MatrixFactorizer.gets MatrixFactorizer.shape);
  compat_set_shape : forall s,
    respects rel (MatrixFactorizer.modify (MatrixFactorizer.set_shape s));
  compat_append : forall loss_value : R,
    respects rel (MatrixFactorizer.modify
      (fun e => MatrixFactorizer.set_history
                  (MatrixFactorizer.history e ++ [loss_value]) e));
  compat_fresh_session : respects rel MatrixFactorizer._fresh_session;
  compat_tf_init : forall s, respects rel (MatrixFactorizer._tf_init s);
  compat_randint : forall high size : nat,
    respects rel (randint (M := MatrixFactorizer.Py) high size);
  compat_tf_train : forall (rows cols : list Z) (values : list R),
    respects rel (MatrixFactorizer.tf_train rows cols values);
  compat_predict : forall rows cols : list Z,
    respects rel (MatrixFactorizer.predict rows cols)
}.

(** * A concrete instance of the libraries, and concrete inputs *)

(** A counter for the generator, a constant sample for the initialisers and
    optimisers that only count their steps: enough to run the estimator on
    concrete inputs. *)
Definition counter_randint (high size s : nat) : option (list Z) * nat :=
  match high with
  | O => (None, s)
  | S _ => (Some (map (fun i => Z.of_nat ((s + i) mod high)) (seq 0 size)),
            (s + size)%nat)
  end.

Definition counting : External := {|
  RandomState := nat;
  Entropy := nat;
  urandom := fun e => (Z.of_nat e, S e);
  np_seed := Z.abs_nat;
  np_randint := counter_randint;
  standard_normal := fun _ _ _ _ _ _ => 1;
  OptSlots := nat;
  adam_slots := O;
  ftrl_slots := O;
  adam_minimize := fun _ _ vars sl => (vars, S sl);
  ftrl_minimize := fun _ _ vars sl => (vars, S sl)
|}.

Definition world0 : @World counting :=
  @Build_World counting O O.

(** Default arguments of the constructor. *)
Definition defaults : MatrixFactorizer.Hyper :=
  {| MatrixFactorizer.n_components := 5;
     MatrixFactorizer.n_iter := 500;
     MatrixFactorizer.batch_size := 500;
     MatrixFactorizer.learning_rate := / 100;
     MatrixFactorizer.regularization_rate := 2 / 100;
     MatrixFactorizer.alpha := 1;
     MatrixFactorizer.implicit := false;
     MatrixFactorizer.loss := "squared";
     MatrixFactorizer.log_weights := None;
     MatrixFactorizer.fit_intercepts := true;
     MatrixFactorizer.warm_start := false;
     MatrixFactorizer.optimizer := "Adam";
     MatrixFactorizer.random_state := None;
     MatrixFactorizer.show_progress := true |}.

(** The arguments of the example in the docstring:
    [MatrixFactorizer(n_components=2, n_iter=100, batch_size=6,
    random_state=42, show_progress=False)]. *)
Definition docstring_arguments : MatrixFactorizer.Hyper :=
  {| MatrixFactorizer.n_components := 2;
     MatrixFactorizer.n_iter := 100;
     MatrixFactorizer.batch_size := 6;
     MatrixFactorizer.learning_rate := / 100;
     MatrixFactorizer.regularization_rate := 2 / 100;
     MatrixFactorizer.alpha := 1;
     MatrixFactorizer.implicit := false;
     MatrixFactorizer.loss := "squared";
     MatrixFactorizer.log_weights := None;
     MatrixFactorizer.fit_intercepts := true;
     MatrixFactorizer.warm_start := false;
     MatrixFactorizer.optimizer := "Adam";
     MatrixFactorizer.random_state := Some 42%Z;
     MatrixFactorizer.show_progress := false |}.

(** The default arguments in implicit mode. *)
Definition implicit_arguments : MatrixFactorizer.Hyper :=
  {| MatrixFactorizer.n_components := 5;
     MatrixFactorizer.n_iter := 500;
     MatrixFactorizer.batch_size := 500;
     MatrixFactorizer.learning_rate := / 100;
     MatrixFactorizer.regularization_rate := 2 / 100;
     MatrixFactorizer.alpha := 1;
     MatrixFactorizer.implicit := true;
     MatrixFactorizer.loss := "squared";
     MatrixFactorizer.log_weights := None;
     MatrixFactorizer.fit_intercepts := true;
     MatrixFactorizer.warm_start := false;
     MatrixFactorizer.optimizer := "Adam";
     MatrixFactorizer.random_state := None;
     MatrixFactorizer.show_progress := true |}.

(** The matrix of the example in the docstring: 3 users, 3 items. *)
Definition ratings : csr_matrix.t :=
  {| csr_matrix.shape := (3%nat, 3%nat);
     csr_matrix.data :=
       list_to_map [((0%nat, 0%nat), 1); ((0%nat, 1%nat), 1);
                    ((1%nat, 2%nat), 2); ((1%nat, 0%nat), 2);
                    ((2%nat, 1%nat), 3); ((2%nat, 2%nat), 3)] |}.

(** A 1 x 1 matrix. *)
Definition single_cell : csr_matrix.t :=
  {| csr_matrix.shape := (1%nat, 1%nat);
     csr_matrix.data := {[ (0%nat, 0%nat) := 5 ]} |}.

(** A model in implicit mode with log weights and [alpha = 1]; only the
    attributes matter here. *)
Definition implicit_model : @TFModel.t counting :=
  {| TFModel.shape := (1%nat, 1%nat, 1%nat);
     TFModel.learning_rate := / 100;
     TFModel.alpha := 1;
     TFModel.regularization_rate := 1;
     TFModel.implicit := true;
     TFModel.loss := "logistic";
     TFModel.log_weights := Some true;
     TFModel.fit_intercepts := false;
     TFModel.optimizer := "Adam";
     TFModel.random_state := None;
     TFModel.sess := @TFModel.Build_Session counting
                       (@TFModel.initial_variables counting 0
                          (TFModel.branches true (Some true) false)
                          (1%nat, 1%nat, 1%nat)) O |}.

(** A model of shape [(1, 1, 1)] with squared loss, no intercepts,
    regularisation rate 1 and both weight matrices equal to [[1]]. *)
Definition unit_model : @TFModel.t counting :=
  {| TFModel.shape := (1%nat, 1%nat, 1%nat);
     TFModel.learning_rate := / 100;
     TFModel.alpha := 1;
     TFModel.regularization_rate := 1;
     TFModel.implicit := false;
     TFModel.loss := "squared";
     TFModel.log_weights := None;
     TFModel.fit_intercepts := false;
     TFModel.optimizer := "Adam";
     TFModel.random_state := None;
     TFModel.sess := @TFModel.Build_Session counting
                       {| global_bias := 0;
                          row_biases := fun _ => 0;
                          col_biases := fun _ => 0;
                          row_weights := fun _ _ => 1;
                          col_weights := fun _ _ => 1 |} O |}.

(** An estimator holding [implicit_model], as after a call of
    [init_with_shape 1 1]. *)
Definition initialised_state : @MatrixFactorizer.State counting :=
  @MatrixFactorizer.Build_State counting
    (@MatrixFactorizer.Build_t counting defaults
       (Some 1%nat, Some 1%nat, 1%nat) (Some implicit_model) [])
    world0.

(** An estimator whose shape is fixed at 2 x 2, the generator about to
    yield the index 1. *)
Definition two_by_two_state : @MatrixFactorizer.State counting :=
  @MatrixFactorizer.Build_State counting
    (@MatrixFactorizer.Build_t counting defaults
       (Some 2%nat, Some 2%nat, 5%nat) None [])
    (@Build_World counting 1%nat 0%nat).

(** * Further notions and inputs *)

(** numpy rejects an empty range: [np.random.randint 0 size] raises
    [ValueError]. *)
Definition randint_rejects_empty (L : External) : Prop :=
  forall (size : nat) (s : RandomState),
    exists s' : RandomState, np_randint 0 size s = (None, s').

(** An id outside [[0, n)]. *)
Definition out_of_range (n : nat) (i : Z) : Prop := (i < 0 \/ Z.of_nat n <= i)%Z.

(** An id that the placeholders [row_ids] and [col_ids], of type
    [tf.int32], hold as it is: a value of 32 signed bits.  Feeding casts
    any other integer to such a value first. *)
Definition int32 (i : Z) : Prop := (- 2 ^ 31 <= i < 2 ^ 31)%Z.

(** The indicator that the docstring of the class and the comment above the
    targets give for implicit mode: [D[i,j] = 1 if R[i,j] > 0 else 0]. *)
Definition documented_indicator (v : R) : R := if Rlt_dec 0 v then 1 else 0.

(** Two arguments of the constructor that the script of the calls [cs], run
    from the process state [w], does not tell apart: same outcome of the
    constructor and of the calls, and afterwards the same loss history and
    the same outcome of [predict rows cols]. *)
Definition same_runs {L : External} (kw1 kw2 : MatrixFactorizer.Hyper)
    (cs : list MatrixFactorizer.call) (w : World) (rows cols : list Z) : Prop :=
  fst (MatrixFactorizer.script kw1 cs w) = fst (MatrixFactorizer.script kw2 cs w) /\
  MatrixFactorizer.observe rows cols (snd (MatrixFactorizer.script kw1 cs w))
  = MatrixFactorizer.observe rows cols (snd (MatrixFactorizer.script kw2 cs w)).

(** The estimator [e'] is [e] after some training: the stored arguments and
    the shape are the same, the model is the same up to its session, and the
    history is the old one followed by [losses]. *)
Definition trained_from {L : External} (e e' : MatrixFactorizer.t) (losses : list R) : Prop :=
  MatrixFactorizer.hyper e' = MatrixFactorizer.hyper e /\
  MatrixFactorizer.shape e' = MatrixFactorizer.shape e /\
  MatrixFactorizer.history e' = MatrixFactorizer.history e ++ losses /\
  match MatrixFactorizer._tf e, MatrixFactorizer._tf e' with
  | Some m, Some m' => m' = TFModel.with_sess m (TFModel.sess m')
  | None, None => True
  | _, _ => False
  end.

(** The arguments [kw] with [warm_start] and [n_iter] replaced. *)
Definition with_schedule (kw : MatrixFactorizer.Hyper) (warm_start_ : bool)
    (n_iter_ : nat) : MatrixFactorizer.Hyper :=
  {| MatrixFactorizer.n_components := MatrixFactorizer.n_components kw;
     MatrixFactorizer.n_iter := n_iter_;
     MatrixFactorizer.batch_size := MatrixFactorizer.batch_size kw;
     MatrixFactorizer.learning_rate := MatrixFactorizer.learning_rate kw;
     MatrixFactorizer.regularization_rate := MatrixFactorizer.regularization_rate kw;
     MatrixFactorizer.alpha := MatrixFactorizer.alpha kw;
     MatrixFactorizer.implicit := MatrixFactorizer.implicit kw;
     MatrixFactorizer.loss := MatrixFactorizer.loss kw;
     MatrixFactorizer.log_weights := MatrixFactorizer.log_weights kw;
     MatrixFactorizer.fit_intercepts := MatrixFactorizer.fit_intercepts kw;
     MatrixFactorizer.warm_start := warm_start_;
     MatrixFactorizer.optimizer := MatrixFactorizer.optimizer kw;
     MatrixFactorizer.random_state := MatrixFactorizer.random_state kw;
     MatrixFactorizer.show_progress := MatrixFactorizer.show_progress kw |}.

(** An estimator with [warm_start = True] that holds [unit_model]. *)
Definition warm_state : @MatrixFactorizer.State counting :=
  @MatrixFactorizer.Build_State counting
    (@MatrixFactorizer.Build_t counting (with_schedule defaults true 500)
       (Some 1%nat, Some 1%nat, 1%nat) (Some unit_model) [7])
    world0.

(** A matrix without rows. *)
Definition no_rows : csr_matrix.t :=
  {| csr_matrix.shape := (0%nat, 3%nat); csr_matrix.data := ∅ |}.

(** No weight is negative. *)
Definition weights_nonneg (w : weights) : Prop :=
  match w with
  | Scalar c => 0 <= c
  | PerEntry ws => Forall (fun x => 0 <= x) ws
  end.

(** The score of the pair [(r, c)] recomputed from a dictionary of
    coefficients by the formula of the docstring,
    [mu + bi[i] + bj[j] + P[i,:] * Q[j,:]], the intercepts counting as zero
    when the dictionary has none. *)
Definition score_from_coef (coefs : gmap string tensor) (r c : Z) : option R :=
  match coefs !! "row_weights"%string, coefs !! "col_weights"%string with
  | Some (TMatrix n d p), Some (TMatrix k _ q) =>
      if in_range n r && in_range k c then
        let intercepts :=
          match coefs !! "global_bias"%string, coefs !! "row_bias"%string,
                coefs !! "col_bias"%string with
          | Some (TScalar mu), Some (TVector _ bi), Some (TVector _ bj) =>
              mu + bi (Z.to_nat r) + bj (Z.to_nat c)
          | _, _, _ => 0
          end in
        Some (intercepts + dot d (p (Z.to_nat r)) (q (Z.to_nat c)))
      else None
  | _, _ => None
  end.

(** The confidence weight of the value [v] in implicit mode. *)
Definition confidence_weight {L : External} (m : TFModel.t) (v : R) : R :=
  1 + TFModel.alpha m * (if TFModel.truthy (TFModel.log_weights m) then log1p v else v).

(** [implicit_model] under the squared loss. *)
Definition implicit_squared_model : @TFModel.t counting :=
  {| TFModel.shape := (1%nat, 1%nat, 1%nat);
     TFModel.learning_rate := / 100;
     TFModel.alpha := 1;
     TFModel.regularization_rate := 1;
     TFModel.implicit := true;
     TFModel.loss := "squared";
     TFModel.log_weights := Some true;
     TFModel.fit_intercepts := false;
     TFModel.optimizer := "Adam";
     TFModel.random_state := None;
     TFModel.sess := @TFModel.Build_Session counting
                       (@TFModel.initial_variables counting 0
                          (TFModel.branches true (Some true) false)
                          (1%nat, 1%nat, 1%nat)) O |}.

(** * Properties *)

(** ** The definitions on concrete inputs *)

Example clip_inside : clip_by_value (/ 4) 0 1 = / 4.
Proof. unfold clip_by_value, Rmax, Rmin. repeat destruct Rle_dec; lra. Qed.

Example clip_above : clip_by_value 5 0 1 = 1.
Proof. unfold clip_by_value, Rmax, Rmin. repeat destruct Rle_dec; lra. Qed.

Example lookup_in_range :
  embedding_lookup 2 (fun i => INR i) [1%Z; 0%Z] = Ok [INR 1; INR 0].
Proof. reflexivity. Qed.

Example lookup_out_of_range :
  embedding_lookup 2 (fun i => INR i) [0%Z; 2%Z] = Raise InvalidArgumentError.
Proof. reflexivity. Qed.

Example lookup_negative :
  embedding_lookup 2 (fun i => INR i) [(-1)%Z] = Raise InvalidArgumentError.
Proof. reflexivity. Qed.

Example broadcast_one :
  broadcast2 (fun a b : nat => (a, b)) [7%nat] [1%nat; 2%nat; 3%nat]
  = Ok [(7%nat, 1%nat); (7%nat, 2%nat); (7%nat, 3%nat)].
Proof. reflexivity. Qed.

Example broadcast_mismatch :
  broadcast2 (fun a b : nat => (a, b)) [7%nat; 8%nat] [1%nat; 2%nat; 3%nat]
  = Raise InvalidArgumentError.
Proof. reflexivity. Qed.

Example axis_index_from_the_end : csr_matrix.axis_index 3 (-1) = Some 2%nat.
Proof. reflexivity. Qed.

Example arrays_2_2 :
  arrays 2 2 = [[0; 0]; [0; 1]; [1; 0]; [1; 1]]%Z.
Proof. reflexivity. Qed.

Example counter_draw :
  counter_randint 3 4 2 = (Some [2; 0; 1; 2]%Z, 6%nat).
Proof. reflexivity. Qed.

Example ratings_stored : csr_matrix.cell ratings 1 2 = Ok 2.
Proof. reflexivity. Qed.

Example ratings_absent : csr_matrix.cell ratings 1 1 = Ok 0.
Proof. reflexivity. Qed.

Example ratings_outside : csr_matrix.cell ratings 3 0 = Raise IndexError.
Proof. reflexivity. Qed.

Example predict_out_of_range :
  fst (MatrixFactorizer.predict [1%Z] [0%Z] initialised_state)
  = Raise InvalidArgumentError.
Proof. reflexivity. Qed.

Example constructor_defaults_log_weights :
  MatrixFactorizer.log_weights
    (MatrixFactorizer.hyper (@MatrixFactorizer.new_object counting implicit_arguments))
  = Some true.
Proof. reflexivity. Qed.

Example constructor_rejects_seed :
  MatrixFactorizer.__init__ (with_loss_optimizer docstring_arguments "squared" "Adam")
    world0
  = Ok {| MatrixFactorizer.self := MatrixFactorizer.new_object docstring_arguments;
          MatrixFactorizer.world := @Build_World counting 42%nat 0%nat |}
  /\ @MatrixFactorizer.seed_numpy counting (Some (-1)%Z) world0 = Raise ValueError.
Proof. split; reflexivity. Qed.

(** ** Lists, lookups and broadcasting *)

Lemma traverse_map {A B : Type} (f : A -> result B) (g : A -> B) (l : list A) :
  Forall (fun x => f x = Ok (g x)) l -> traverse f l = Ok (map g l).
Proof.
  induction 1 as [|x l Hx _ IH]; simpl; [reflexivity|].
  now rewrite Hx, IH.
Qed.

Lemma traverse_ext {A B : Type} (f g : A -> result B) (l : list A) :
  (forall x, f x = g x) -> traverse f l = traverse g l.
Proof.
  intros Hfg. induction l as [|x l IH]; simpl; [reflexivity|].
  now rewrite Hfg, IH.
Qed.

Lemma in_range_true (n : nat) (i : Z) :
  (0 <= i < Z.of_nat n)%Z -> in_range n i = true.
Proof.
  intros [H0 H1]. unfold in_range.
  apply andb_true_intro. split; [apply Z.leb_le | apply Z.ltb_lt]; assumption.
Qed.

Lemma embedding_lookup_in_range {A : Type} (n : nat) (params : nat -> A) (ids : list Z) :
  ids_in_range n ids ->
  embedding_lookup n params ids = Ok (map (fun i => params (Z.to_nat i)) ids).
Proof.
  intros H. unfold embedding_lookup. apply traverse_map.
  eapply List.Forall_impl; [|exact H].
  intros i Hi. simpl in *. now rewrite in_range_true.
Qed.

Lemma broadcast2_same_length {A B C : Type} (f : A -> B -> C) (xs : list A) (ys : list B) :
  length xs = length ys -> broadcast2 f xs ys = Ok (zip_with f xs ys).
Proof.
  intros H. unfold broadcast2. now rewrite H, Nat.eqb_refl.
Qed.

Lemma sum_upto_ext (n : nat) (f g : nat -> R) :
  (forall i, (i < n)%nat -> f i = g i) -> sum_upto n f = sum_upto n g.
Proof.
  induction n as [|n IH]; intros H; simpl; [reflexivity|].
  rewrite IH by (intros; apply H; lia). now rewrite H by lia.
Qed.

Lemma l2_loss_matrix_sum_squares (n d : nat) (w : nat -> nat -> R) :
  l2_loss_matrix n d w = sum_squares n d w / 2.
Proof.
  unfold l2_loss_matrix, sum_squares. f_equal.
  apply sum_upto_ext; intros i _. apply sum_upto_ext; intros j _. ring.
Qed.

Lemma l2_loss_gathered (b : nat -> R) (ids : list Z) :
  l2_loss (map (fun i => b (Z.to_nat i)) ids) = sum_squares_at b ids / 2.
Proof.
  unfold l2_loss, sum_squares_at. f_equal. rewrite List.map_map.
  induction ids as [|i ids IH]; cbn [map reduce_sum fold_right]; [reflexivity|].
  fold (reduce_sum (map (fun x => b (Z.to_nat x) * b (Z.to_nat x)) ids)).
  fold (reduce_sum (map (fun x => b (Z.to_nat x) ^ 2) ids)).
  rewrite IH. ring.
Qed.

(** ** Targets and confidence weights *)

Lemma clip_unit_interval (v : R) : 0 <= clip_by_value v 0 1 <= 1.
Proof.
  unfold clip_by_value, Rmax, Rmin. repeat destruct Rle_dec; lra.
Qed.

Lemma clip_zero : clip_by_value 0 0 1 = 0.
Proof.
  unfold clip_by_value, Rmax, Rmin. repeat destruct Rle_dec; lra.
Qed.

Lemma clip_above_one (v : R) : 1 <= v -> clip_by_value v 0 1 = 1.
Proof.
  intros H. unfold clip_by_value, Rmax, Rmin. repeat destruct Rle_dec; lra.
Qed.

Lemma clip_half : clip_by_value (/ 2) 0 1 = / 2.
Proof.
  unfold clip_by_value, Rmax, Rmin. repeat destruct Rle_dec; lra.
Qed.

Lemma log1p_nonneg (v : R) : 0 <= v -> 0 <= log1p v.
Proof.
  intros H. unfold log1p.
  destruct (Req_dec_T v 0) as [->|Hv].
  - rewrite Rplus_0_r, ln_1. lra.
  - rewrite <- ln_1. left. apply ln_increasing; lra.
Qed.

(** C1.  The claim fails on the code at the value 1/2.  In implicit mode
    the target computed for it is [clip 1/2 0 1 = 1/2], which is neither 0
    nor 1, where the indicator that the code documents for these targets,
    [D = 1 if R > 0 else 0], is 1. *)
Lemma C1_target_not_binary :
  TFModel.implicit implicit_model = true /\
  TFModel.targets implicit_model [/ 2] = [/ 2] /\
  ~ Forall binary (TFModel.targets implicit_model [/ 2]) /\
  map documented_indicator [/ 2] = [1].
Proof.
  split; [reflexivity|].
  assert (Ht : TFModel.targets implicit_model [/ 2] = [/ 2]).
  { unfold TFModel.targets. cbn [TFModel.implicit implicit_model map].
    now rewrite clip_half. }
  split; [exact Ht|]. split.
  - rewrite Ht. intros H. apply List.Forall_inv in H. destruct H; lra.
  - cbn [map]. unfold documented_indicator.
    destruct (Rlt_dec 0 (/ 2)) as [_|Hn]; [reflexivity | exfalso; lra].
Qed.

(** What the rest of the scope [inputs] computes in implicit mode, for
    non-negative values and a non-negative [alpha]: the target of an entry
    is [clip v 0 1], in [[0, 1]], and agrees with the documented indicator
    when the value is 0 or at least 1; the weight of the entry is
    [1 + alpha * v] without [log_weights] and [1 + alpha * log (1 + v)] with
    it, and is at least 1. *)
Lemma implicit_targets_and_weights {L : External} (m : TFModel.t) (values : list R) :
  TFModel.implicit m = true ->
  0 <= TFModel.alpha m ->
  Forall (fun v => 0 <= v) values ->
  Forall2 (fun v t => t = clip_by_value v 0 1 /\ 0 <= t <= 1 /\
                      (v = 0 \/ 1 <= v -> binary t /\ t = documented_indicator v))
          values (TFModel.targets m values) /\
  exists ws : list R,
    TFModel.data_weights m values = PerEntry ws /\
    Forall2 (fun v w =>
               (TFModel.truthy (TFModel.log_weights m) = false ->
                w = 1 + TFModel.alpha m * v) /\
               (TFModel.truthy (TFModel.log_weights m) = true ->
                w = 1 + TFModel.alpha m * ln (1 + v)) /\
               1 <= w)
            values ws.
Proof.
  intros Himp Halpha Hvalues.
  unfold TFModel.targets, TFModel.data_weights. rewrite Himp. split.
  - clear Hvalues. induction values as [|v values IH]; cbn [map]; constructor.
    + split; [reflexivity|]. split; [apply clip_unit_interval|].
      unfold documented_indicator.
      intros [->|Hv].
      * rewrite clip_zero. split; [now left|].
        destruct (Rlt_dec 0 0) as [Hlt|_]; [exfalso; lra | reflexivity].
      * rewrite clip_above_one by exact Hv. split; [now right|].
        destruct (Rlt_dec 0 v) as [_|Hn]; [reflexivity | exfalso; lra].
    + exact IH.
  - destruct (TFModel.truthy (TFModel.log_weights m)) eqn:Hlog.
    + eexists; split; [reflexivity|].
      induction Hvalues as [|v values Hv _ IH]; cbn [map]; constructor; [|exact IH].
      split; [discriminate|]. split; [reflexivity|].
      pose proof (log1p_nonneg v Hv). unfold log1p in *. nra.
    + eexists; split; [reflexivity|].
      induction Hvalues as [|v values Hv _ IH]; cbn [map]; constructor; [|exact IH].
      split; [reflexivity|]. split; [discriminate|]. nra.
Qed.

(** The run of the lemma at the values 0, 1/2 and 3 under log weights. *)
Lemma implicit_targets_and_weights_run :
  Forall2 (fun v t => t = clip_by_value v 0 1 /\ 0 <= t <= 1 /\
                      (v = 0 \/ 1 <= v -> binary t /\ t = documented_indicator v))
          [0; / 2; 3] (TFModel.targets implicit_model [0; / 2; 3]) /\
  exists ws : list R,
    TFModel.data_weights implicit_model [0; / 2; 3] = PerEntry ws /\
    Forall2 (fun v w =>
               (TFModel.truthy (TFModel.log_weights implicit_model) = false ->
                w = 1 + TFModel.alpha implicit_model * v) /\
               (TFModel.truthy (TFModel.log_weights implicit_model) = true ->
                w = 1 + TFModel.alpha implicit_model * ln (1 + v)) /\
               1 <= w)
            [0; / 2; 3] ws.
Proof.
  apply (implicit_targets_and_weights implicit_model [0; / 2; 3]).
  - reflexivity.
  - simpl. lra.
  - repeat constructor; lra.
Defined.

(** ** Prediction *)

Lemma length_zip_with_same {A B C : Type} (f : A -> B -> C) (xs : list A) (ys : list B) :
  length xs = length ys -> length (zip_with f xs ys) = length xs.
Proof.
  revert ys. induction xs as [|x xs IH]; intros [|y ys] H; simpl in *; try lia.
  now rewrite IH by lia.
Qed.

Lemma zip_with_map {A A' B B' C : Type} (f : A' -> B' -> C) (g : A -> A') (h : B -> B')
    (xs : list A) (ys : list B) :
  zip_with f (map g xs) (map h ys) = zip_with (fun x y => f (g x) (h y)) xs ys.
Proof.
  revert ys. induction xs as [|x xs IH]; intros [|y ys]; simpl; try reflexivity.
  now rewrite IH.
Qed.

Lemma weights_product_in_range {L : External} (m : TFModel.t) (vars : Store)
    (n k d : nat) (rows cols : list Z) :
  TFModel.shape m = (n, k, d) ->
  length rows = length cols ->
  ids_in_range n rows -> ids_in_range k cols ->
  TFModel.weights_product m vars rows cols =
  Ok (zip_with (fun r c => dot d (row_weights vars (Z.to_nat r))
                                 (col_weights vars (Z.to_nat c))) rows cols).
Proof.
  intros Hs Hlen Hr Hc. unfold TFModel.weights_product. rewrite Hs.
  rewrite (embedding_lookup_in_range n _ rows Hr).
  rewrite (embedding_lookup_in_range k _ cols Hc).
  cbn [mbind result_bind].
  rewrite broadcast2_same_length by (rewrite !List.length_map; exact Hlen).
  now rewrite zip_with_map.
Qed.

Lemma linear_predictor_in_range {L : External} (m : TFModel.t) (vars : Store)
    (n k d : nat) (rows cols : list Z) :
  TFModel.shape m = (n, k, d) ->
  length rows = length cols ->
  ids_in_range n rows -> ids_in_range k cols ->
  TFModel.linear_predictor m vars rows cols =
  Ok (zip_with (linear_score m vars) rows cols).
Proof.
  intros Hs Hlen Hr Hc. unfold TFModel.linear_predictor.
  rewrite (weights_product_in_range m vars n k d rows cols Hs Hlen Hr Hc).
  unfold linear_score. rewrite Hs.
  destruct (TFModel.fit_intercepts m).
  - rewrite (embedding_lookup_in_range n _ rows Hr).
    rewrite (embedding_lookup_in_range k _ cols Hc).
    cbn [mbind result_bind].
    rewrite broadcast2_same_length by (rewrite !List.length_map; exact Hlen).
    cbn [mbind result_bind].
    rewrite broadcast2_same_length
      by (rewrite List.length_map, !length_zip_with_same;
          rewrite ?List.length_map; auto).
    f_equal. clear Hr Hc. revert cols Hlen.
    induction rows as [|r rows IH]; intros [|c cols] Hlen; simpl in *;
      try reflexivity; try discriminate.
    rewrite IH by lia. f_equal. unfold dot. ring.
  - f_equal. clear Hr Hc. revert cols Hlen.
    induction rows as [|r rows IH]; intros [|c cols] Hlen; simpl in *;
      try reflexivity; try discriminate.
    rewrite IH by lia. f_equal. ring.
Qed.

(** The score of a pair: the linear score, through the sigmoid under the
    logistic loss. *)
Lemma pred_in_range {L : External} (m : TFModel.t) (vars : Store)
    (n k d : nat) (rows cols : list Z) :
  TFModel.shape m = (n, k, d) ->
  length rows = length cols ->
  ids_in_range n rows -> ids_in_range k cols ->
  TFModel.pred m vars rows cols =
  Ok (zip_with (fun r c => if String.eqb (TFModel.loss m) "logistic"
                           then sigmoid (linear_score m vars r c)
                           else linear_score m vars r c) rows cols).
Proof.
  intros Hs Hlen Hr Hc. unfold TFModel.pred.
  rewrite (linear_predictor_in_range m vars n k d rows cols Hs Hlen Hr Hc).
  cbn [mbind result_bind].
  destruct (String.eqb (TFModel.loss m) "logistic"); [|reflexivity].
  f_equal. clear Hr Hc. revert cols Hlen.
  induction rows as [|r rows IH]; intros [|c cols] Hlen; simpl in *;
    try reflexivity; try discriminate.
  now rewrite IH by lia.
Qed.

(** C2.  On an initialised estimator, for index arrays of equal length with
    all entries in range of the shape, [predict] returns one score per pair;
    the score of pair [i] is the dot product of row [rows[i]] of P and row
    [cols[i]] of Q, plus [mu + bi[rows[i]] + bj[cols[i]]] when intercepts are
    fitted, passed through the sigmoid when the loss is ['logistic'] and
    unchanged when it is ['squared'].  The state is left as it was. *)
Theorem C2_predict_scores {L : External} (st : MatrixFactorizer.State)
    (m : TFModel.t) (n k d : nat) (rows cols : list Z) :
  MatrixFactorizer._tf (MatrixFactorizer.self st) = Some m ->
  TFModel.shape m = (n, k, d) ->
  length rows = length cols ->
  ids_in_range n rows -> ids_in_range k cols ->
  exists scores : list R,
    MatrixFactorizer.predict rows cols st = (Ok scores, st) /\
    length scores = length rows /\
    forall (i : nat) (r c : Z),
      rows !! i = Some r -> cols !! i = Some c ->
      exists s : R,
        scores !! i = Some s /\
        let vars := TFModel.variables (TFModel.sess m) in
        let linear :=
          dot d (row_weights vars (Z.to_nat r)) (col_weights vars (Z.to_nat c)) +
          (if TFModel.fit_intercepts m
           then global_bias vars + row_biases vars (Z.to_nat r)
                + col_biases vars (Z.to_nat c)
           else 0) in
        (TFModel.loss m = "logistic"%string -> s = sigmoid linear) /\
        (TFModel.loss m = "squared"%string -> s = linear).
Proof.
  intros Htf Hs Hlen Hr Hc.
  eexists. split; [|split].
  - unfold MatrixFactorizer.predict, TFModel.predict. rewrite Htf.
    rewrite (pred_in_range m _ n k d rows cols Hs Hlen Hr Hc). reflexivity.
  - now apply length_zip_with_same.
  - intros i r c Hri Hci. rewrite lookup_zip_with, Hri, Hci.
    cbn [mbind option_bind]. eexists. split; [reflexivity|].
    unfold linear_score. rewrite Hs. cbn zeta. split.
    + intros ->. reflexivity.
    + intros ->. reflexivity.
Qed.

Lemma C2_predict_scores_witness :
  exists scores : list R,
    MatrixFactorizer.predict [0%Z] [0%Z] initialised_state =
      (Ok scores, initialised_state) /\
    length scores = 1%nat.
Proof.
  destruct (C2_predict_scores initialised_state implicit_model 1 1 1 [0%Z] [0%Z])
    as (scores & Hp & Hl & _).
  - reflexivity.
  - reflexivity.
  - reflexivity.
  - repeat constructor; lia.
  - repeat constructor; lia.
  - exists scores. split; [exact Hp | exact Hl].
Defined.

(** ** The loss of a training step *)

Lemma l2_term_in_range {L : External} (m : TFModel.t) (vars : Store)
    (n k d : nat) (rows cols : list Z) :
  TFModel.shape m = (n, k, d) ->
  ids_in_range n rows -> ids_in_range k cols ->
  TFModel.l2_term m vars rows cols = Ok (graph_regularization m vars rows cols).
Proof.
  intros Hs Hr Hc.
  unfold TFModel.l2_term, graph_regularization, TFModel.l2_weights. rewrite Hs.
  rewrite !l2_loss_matrix_sum_squares.
  destruct (TFModel.fit_intercepts m).
  - rewrite (embedding_lookup_in_range n _ rows Hr).
    rewrite (embedding_lookup_in_range k _ cols Hc).
    cbn [mbind result_bind]. rewrite !l2_loss_gathered. f_equal. lra.
  - f_equal. lra.
Qed.

Lemma length_targets {L : External} (m : TFModel.t) (values : list R) :
  length (TFModel.targets m values) = length values.
Proof.
  unfold TFModel.targets. destruct (TFModel.implicit m); [apply List.length_map | reflexivity].
Qed.

Lemma broadcast_data_weights {L : External} (m : TFModel.t) (values : list R) :
  exists ws : list R,
    broadcast_weights (TFModel.data_weights m values) (length values) = Ok ws.
Proof.
  unfold TFModel.data_weights, broadcast_weights.
  destruct (TFModel.implicit m); [|eexists; reflexivity].
  destruct (TFModel.truthy (TFModel.log_weights m));
    rewrite List.length_map, Nat.eqb_refl; eexists; reflexivity.
Qed.

Lemma loss_raw_in_range {L : External} (m : TFModel.t) (vars : Store)
    (n k d : nat) (rows cols : list Z) (values : list R) :
  TFModel.shape m = (n, k, d) ->
  length rows = length cols -> length values = length rows ->
  ids_in_range n rows -> ids_in_range k cols ->
  exists data_loss : R, TFModel.loss_raw m vars rows cols values = Ok data_loss.
Proof.
  intros Hs Hlen Hval Hr Hc. unfold TFModel.loss_raw.
  rewrite (pred_in_range m vars n k d rows cols Hs Hlen Hr Hc).
  cbn [mbind result_bind].
  destruct (broadcast_data_weights m values) as [ws Hws].
  destruct (String.eqb (TFModel.loss m) "logistic");
    unfold log_loss, mean_squared_error;
    rewrite broadcast2_same_length
      by (rewrite length_targets, length_zip_with_same; congruence);
    cbn [mbind result_bind]; unfold compute_weighted_loss;
    rewrite length_zip_with_same
      by (rewrite length_targets, length_zip_with_same; congruence);
    rewrite length_zip_with_same by congruence;
    rewrite <- Hval, Hws; cbn [mbind result_bind]; eexists; reflexivity.
Qed.

Lemma nonzero_one : nonzero 1 = true.
Proof. unfold nonzero. destruct (Req_dec_T 1 0); [lra | reflexivity]. Qed.

(** C3, as stated, fails: for [unit_model] on the batch [(0, 0, 1)] the data
    loss is 0 and the sum of the squares of all weights is 2, so the stated
    term is 2; the graph adds 1 and [train] returns 1. *)
Lemma C3_regularization_is_halved :
  TFModel.loss_raw unit_model (TFModel.variables (TFModel.sess unit_model))
    [0%Z] [0%Z] [1] = Ok 0 /\
  stated_regularization unit_model (TFModel.variables (TFModel.sess unit_model)) = 2 /\
  TFModel.l2_term unit_model (TFModel.variables (TFModel.sess unit_model))
    [0%Z] [0%Z] = Ok 1 /\
  fst <$> TFModel.train unit_model [0%Z] [0%Z] [1] = Ok 1 /\
  1 <> 0 + 2.
Proof.
  assert (Hl : TFModel.loss_raw unit_model (TFModel.variables (TFModel.sess unit_model))
    [0%Z] [0%Z] [1] = Ok 0).
  { unfold TFModel.loss_raw.
    rewrite (pred_in_range unit_model _ 1 1 1 [0%Z] [0%Z])
      by (try reflexivity; repeat constructor; lia).
    cbn -[Rplus Rmult Rminus Rdiv Rinv INR nonzero].
    rewrite nonzero_one. cbn [length safe_div INR]. f_equal. lra. }
  assert (Hr : TFModel.l2_term unit_model (TFModel.variables (TFModel.sess unit_model))
    [0%Z] [0%Z] = Ok 1).
  { rewrite (l2_term_in_range unit_model _ 1 1 1)
      by (try reflexivity; repeat constructor; lia).
    cbn -[Rplus Rmult Rminus Rdiv Rinv]. f_equal. lra. }
  split; [exact Hl|]. split; [|split; [exact Hr|split]].
  - cbn -[Rplus Rmult Rminus Rdiv Rinv]. lra.
  - unfold TFModel.train, TFModel.cost. rewrite Hl, Hr.
    cbn [mbind result_bind fmap result_fmap fst]. f_equal. lra.
  - lra.
Qed.

Lemma train_in_range {L : External} (m : TFModel.t) (n k d : nat)
    (rows cols : list Z) (values : list R) :
  TFModel.shape m = (n, k, d) ->
  length rows = length cols -> length values = length rows ->
  ids_in_range n rows -> ids_in_range k cols ->
  exists data_loss : R,
    TFModel.loss_raw m (TFModel.variables (TFModel.sess m)) rows cols values
      = Ok data_loss /\
    TFModel.train m rows cols values =
      Ok (data_loss
          + graph_regularization m (TFModel.variables (TFModel.sess m)) rows cols,
          TFModel.with_sess m (TFModel.train_step m rows cols values)).
Proof.
  intros Hs Hlen Hval Hr Hc.
  destruct (loss_raw_in_range m (TFModel.variables (TFModel.sess m))
              n k d rows cols values Hs Hlen Hval Hr Hc) as [data_loss Hl].
  exists data_loss. split; [exact Hl|].
  unfold TFModel.train, TFModel.cost.
  rewrite Hl, (l2_term_in_range m _ n k d rows cols Hs Hr Hc). reflexivity.
Qed.

(** C3 (amended).  For a batch of equal-length arrays with ids in range, the
    term added to the data loss is [regularization_rate] times: half the sum
    of the squares of all entries of [row_weights] and [col_weights], plus,
    when intercepts are fitted, half the sum of the squares of the row and
    column biases gathered at the ids of the batch.  [train] returns the data
    loss plus this term and installs the session that the optimiser step
    produces. *)
Theorem C3_train_loss {L : External} (m : TFModel.t) (n k d : nat)
    (rows cols : list Z) (values : list R) :
  TFModel.shape m = (n, k, d) ->
  length rows = length cols -> length values = length rows ->
  ids_in_range n rows -> ids_in_range k cols ->
  let vars := TFModel.variables (TFModel.sess m) in
  let regularization :=
    TFModel.regularization_rate m *
    ((sum_squares n d (row_weights vars) + sum_squares k d (col_weights vars)) / 2 +
     (if TFModel.fit_intercepts m
      then (sum_squares_at (row_biases vars) rows
            + sum_squares_at (col_biases vars) cols) / 2
      else 0)) in
  exists data_loss : R,
    TFModel.loss_raw m vars rows cols values = Ok data_loss /\
    TFModel.l2_term m vars rows cols = Ok regularization /\
    TFModel.train m rows cols values =
      Ok (data_loss + regularization,
          TFModel.with_sess m (TFModel.train_step m rows cols values)).
Proof.
  intros Hs Hlen Hval Hr Hc vars regularization.
  destruct (train_in_range m n k d rows cols values Hs Hlen Hval Hr Hc)
    as (data_loss & Hl & Ht).
  assert (Hreg : graph_regularization m vars rows cols = regularization).
  { unfold graph_regularization, regularization. now rewrite Hs. }
  exists data_loss. split; [exact Hl|]. split.
  - rewrite (l2_term_in_range m vars n k d rows cols Hs Hr Hc). now rewrite Hreg.
  - rewrite <- Hreg. exact Ht.
Qed.

Lemma C3_train_loss_witness :
  exists data_loss : R,
    TFModel.train unit_model [0%Z] [0%Z] [1] =
      Ok (data_loss + 1 * ((sum_squares 1 1 (fun _ _ => 1)
                            + sum_squares 1 1 (fun _ _ => 1)) / 2 + 0),
          TFModel.with_sess unit_model (TFModel.train_step unit_model [0%Z] [0%Z] [1])).
Proof.
  destruct (C3_train_loss unit_model 1 1 1 [0%Z] [0%Z] [1])
    as (data_loss & _ & _ & Ht).
  - reflexivity.
  - reflexivity.
  - reflexivity.
  - repeat constructor; lia.
  - repeat constructor; lia.
  - exists data_loss. exact Ht.
Defined.

(** ** The concrete instance honours numpy's contract *)

Lemma counting_contract : randint_contract counting.
Proof.
  intros high size s Hhigh. simpl in *.
  destruct high as [|h]; [lia|].
  eexists _, _. split; [reflexivity|]. split.
  - now rewrite List.length_map, List.length_seq.
  - apply List.Forall_map, List.Forall_forall. intros i _.
    pose proof (Nat.mod_upper_bound (s + i) (S h)). lia.
Qed.

(** ** Steps of the method monad *)

Lemma Py_bind_ok {L : External} {A B : Type} (c : MatrixFactorizer.Py A)
    (f : A -> MatrixFactorizer.Py B) (st st' : MatrixFactorizer.State) (a : A) :
  c st = (Ok a, st') -> (c ≫= f) st = f a st'.
Proof.
  intros H. unfold mbind, MatrixFactorizer.Py_bind. now rewrite H.
Qed.

Lemma Py_bind_raise {L : External} {A B : Type} (c : MatrixFactorizer.Py A)
    (f : A -> MatrixFactorizer.Py B) (st st' : MatrixFactorizer.State) (e : exn) :
  c st = (Raise e, st') -> (c ≫= f) st = (Raise e, st').
Proof.
  intros H. unfold mbind, MatrixFactorizer.Py_bind. now rewrite H.
Qed.

(** ** Reading the sparse matrix *)

Lemma axis_index_in_range (n : nat) (i : Z) :
  (0 <= i < Z.of_nat n)%Z -> csr_matrix.axis_index n i = Some (Z.to_nat i).
Proof.
  intros H. unfold csr_matrix.axis_index.
  fold (in_range n i). now rewrite in_range_true.
Qed.


Lemma getitem_in_range (X : csr_matrix.t) (rows cols : list Z) :
  length rows = length cols ->
  ids_in_range (fst (csr_matrix.shape X)) rows ->
  ids_in_range (snd (csr_matrix.shape X)) cols ->
  csr_matrix.getitem X rows cols =
  Ok (zip_with (fun i j => csr_matrix.at_ X (Z.to_nat i) (Z.to_nat j)) rows cols).
Proof.
  intros Hlen Hr Hc. unfold csr_matrix.getitem.
  rewrite broadcast2_same_length by exact Hlen.
  revert cols Hlen Hc.
  induction Hr as [|r rows Hr0 Hr IH]; intros [|c cols] Hlen Hc;
    simpl in *; try reflexivity; try discriminate.
  apply List.Forall_cons_iff in Hc as [Hc0 Hc].
  unfold csr_matrix.cell.
  rewrite (axis_index_in_range _ r Hr0), (axis_index_in_range _ c Hc0).
  now rewrite IH by (auto; lia).
Qed.



(** ** The batch sampler on numpy's generator *)

(** With the shape fixed at [(n, k, d)], the sampler draws its two index
    arrays from [[0, n)] and [[0, k)] whatever matrix it is given, and then
    reads the matrix at the positions drawn. *)
Lemma get_batch_draws {L : External} (st : MatrixFactorizer.State)
    (n k d size : nat) :
  randint_contract L ->
  MatrixFactorizer.shape (MatrixFactorizer.self st) = (Some n, Some k, d) ->
  (0 < n)%nat -> (0 < k)%nat ->
  exists (rows cols : list Z) (s : RandomState),
    length rows = size /\ length cols = size /\
    ids_in_range n rows /\ ids_in_range k cols /\
    forall data : csr_matrix.t,
      MatrixFactorizer._get_batch data size st =
      ((fun vals => (rows, cols, vals)) <$> csr_matrix.getitem data rows cols,
       with_np st s).
Proof.
  intros Hnp Hshape Hn Hk.
  destruct (Hnp n size (np_random (MatrixFactorizer.world st)) Hn)
    as (rows & s1 & Hrows & Hlr & Hir).
  destruct (Hnp k size s1 Hk) as (cols & s2 & Hcols & Hlc & Hic).
  exists rows, cols, s2. repeat split; try assumption.
  intros data. unfold MatrixFactorizer._get_batch.
  erewrite Py_bind_ok by reflexivity.
  rewrite Hshape. unfold get_batch.
  erewrite Py_bind_ok
    by (cbn [randint MatrixFactorizer.Py_numpy]; rewrite Hrows; reflexivity).
  erewrite Py_bind_ok
    by (cbn [randint MatrixFactorizer.Py_numpy MatrixFactorizer.world
             MatrixFactorizer.self np_random entropy];
        rewrite Hcols; reflexivity).
  destruct (csr_matrix.getitem data rows cols) as [vals|e]; reflexivity.
Qed.

(** ** One iteration, the loop and the two entry points *)

Lemma ids_in_range_mono (n n' : nat) (ids : list Z) :
  (n <= n')%nat -> ids_in_range n ids -> ids_in_range n' ids.
Proof.
  intros Hn. unfold ids_in_range. apply List.Forall_impl. intros i Hi. lia.
Qed.

Lemma partial_fit_unfold {L : External} (X : csr_matrix.t) :
  MatrixFactorizer.partial_fit X =
  (tf_is_none ← MatrixFactorizer.gets
                  (fun e : MatrixFactorizer.t => bool_decide (MatrixFactorizer._tf e = None));
   _ ← (if tf_is_none : bool
        then MatrixFactorizer.init_with_shape (fst (csr_matrix.shape X))
                                              (snd (csr_matrix.shape X))
        else mret tt);
   iterations ← MatrixFactorizer.gets
                  (fun e => MatrixFactorizer.n_iter (MatrixFactorizer.hyper e));
   MatrixFactorizer.for_range iterations (iteration X)).
Proof. reflexivity. Qed.

Lemma iteration_ok {L : External} (X : csr_matrix.t) (st : MatrixFactorizer.State)
    (n k d : nat) :
  randint_contract L ->
  initialised n k d (MatrixFactorizer.self st) ->
  (0 < n)%nat -> (0 < k)%nat -> covers X n k ->
  exists (st' : MatrixFactorizer.State) (loss_value : R),
    iteration X st = (Ok tt, st') /\
    initialised n k d (MatrixFactorizer.self st') /\
    MatrixFactorizer.hyper (MatrixFactorizer.self st')
      = MatrixFactorizer.hyper (MatrixFactorizer.self st) /\
    MatrixFactorizer.history (MatrixFactorizer.self st')
      = MatrixFactorizer.history (MatrixFactorizer.self st) ++ [loss_value].
Proof.
  intros Hnp (Hshape & m & Htf & Hm) Hn Hk [Hcn Hck].
  destruct (get_batch_draws st n k d
              (MatrixFactorizer.batch_size
                 (MatrixFactorizer.hyper (MatrixFactorizer.self st)))
              Hnp Hshape Hn Hk)
    as (rows & cols & s & Hlr & Hlc & Hir & Hic & Hbatch).
  pose proof (getitem_in_range X rows cols (eq_trans Hlr (eq_sym Hlc))
                (ids_in_range_mono _ _ _ Hcn Hir)
                (ids_in_range_mono _ _ _ Hck Hic)) as Hget.
  set (vals := zip_with (fun i j => csr_matrix.at_ X (Z.to_nat i) (Z.to_nat j))
                        rows cols) in *.
  assert (Hlv : length vals = length rows).
  { unfold vals. apply length_zip_with_same. congruence. }
  destruct (train_in_range m n k d rows cols vals Hm
              (eq_trans Hlr (eq_sym Hlc)) Hlv Hir Hic)
    as (data_loss & _ & Htrain).
  eexists _, _. split; [|split; [|split]].
  - unfold iteration.
    erewrite Py_bind_ok by reflexivity.
    erewrite Py_bind_ok by (rewrite Hbatch, Hget; reflexivity).
    cbn beta iota.
    erewrite Py_bind_ok
      by (unfold MatrixFactorizer.tf_train;
          cbn [with_np MatrixFactorizer.self]; rewrite Htf, Htrain; reflexivity).
    reflexivity.
  - split; [exact Hshape|]. eexists. split; [reflexivity|exact Hm].
  - reflexivity.
  - reflexivity.
Qed.

(** [n] iterations append [n] losses and keep everything else in place. *)
Lemma for_range_iteration {L : External} (X : csr_matrix.t) (n k d : nat)
    (iterations : nat) :
  randint_contract L ->
  (0 < n)%nat -> (0 < k)%nat -> covers X n k ->
  forall st : MatrixFactorizer.State,
    initialised n k d (MatrixFactorizer.self st) ->
    exists (st' : MatrixFactorizer.State) (losses : list R),
      MatrixFactorizer.for_range iterations (iteration X) st = (Ok tt, st') /\
      initialised n k d (MatrixFactorizer.self st') /\
      MatrixFactorizer.hyper (MatrixFactorizer.self st')
        = MatrixFactorizer.hyper (MatrixFactorizer.self st) /\
      MatrixFactorizer.history (MatrixFactorizer.self st')
        = MatrixFactorizer.history (MatrixFactorizer.self st) ++ losses /\
      length losses = iterations.
Proof.
  intros Hnp Hn Hk Hcov.
  induction iterations as [|i IH]; intros st Hinit.
  - exists st, []. split; [reflexivity|]. split; [exact Hinit|].
    split; [reflexivity|]. split; [|reflexivity].
    now rewrite List.app_nil_r.
  - destruct (iteration_ok X st n k d Hnp Hinit Hn Hk Hcov)
      as (st1 & l & Hstep & Hinit1 & Hhyper1 & Hhist1).
    destruct (IH st1 Hinit1) as (st2 & ls & Hloop & Hinit2 & Hhyper2 & Hhist2 & Hlen).
    exists st2, (l :: ls). split; [|split; [|split; [|split]]].
    + cbn [MatrixFactorizer.for_range].
      erewrite Py_bind_ok by exact Hstep. exact Hloop.
    + exact Hinit2.
    + congruence.
    + rewrite Hhist2, Hhist1, <- List.app_assoc. reflexivity.
    + simpl. now rewrite Hlen.
Qed.

Lemma init_with_shape_ok {L : External} (n k : nat) (st : MatrixFactorizer.State) :
  exists st' : MatrixFactorizer.State,
    MatrixFactorizer.init_with_shape n k st = (Ok tt, st') /\
    initialised n k
      (MatrixFactorizer.n_components (MatrixFactorizer.hyper (MatrixFactorizer.self st)))
      (MatrixFactorizer.self st') /\
    MatrixFactorizer.hyper (MatrixFactorizer.self st')
      = MatrixFactorizer.hyper (MatrixFactorizer.self st) /\
    MatrixFactorizer.history (MatrixFactorizer.self st')
      = MatrixFactorizer.history (MatrixFactorizer.self st).
Proof.
  unfold MatrixFactorizer.init_with_shape.
  erewrite Py_bind_ok by reflexivity.
  erewrite Py_bind_ok by reflexivity.
  erewrite Py_bind_ok by reflexivity.
  unfold MatrixFactorizer._tf_init, TFModel.__init__.
  cbn [MatrixFactorizer.self MatrixFactorizer.world MatrixFactorizer.set_shape
       MatrixFactorizer.shape MatrixFactorizer.hyper].
  destruct (TFModel.set_random_seed _ _) as [graph_seed w'].
  eexists. split; [reflexivity|]. split; [|split; reflexivity].
  split; [reflexivity|]. eexists. split; reflexivity.
Qed.

Lemma partial_fit_warm {L : External} (X : csr_matrix.t) (st : MatrixFactorizer.State)
    (n k d : nat) :
  randint_contract L ->
  initialised n k d (MatrixFactorizer.self st) ->
  (0 < n)%nat -> (0 < k)%nat -> covers X n k ->
  exists (st' : MatrixFactorizer.State) (losses : list R),
    MatrixFactorizer.partial_fit X st = (Ok tt, st') /\
    initialised n k d (MatrixFactorizer.self st') /\
    MatrixFactorizer.hyper (MatrixFactorizer.self st')
      = MatrixFactorizer.hyper (MatrixFactorizer.self st) /\
    MatrixFactorizer.history (MatrixFactorizer.self st')
      = MatrixFactorizer.history (MatrixFactorizer.self st) ++ losses /\
    length losses
      = MatrixFactorizer.n_iter (MatrixFactorizer.hyper (MatrixFactorizer.self st)).
Proof.
  intros Hnp Hinit Hn Hk Hcov.
  destruct (for_range_iteration X n k d
              (MatrixFactorizer.n_iter (MatrixFactorizer.hyper (MatrixFactorizer.self st)))
              Hnp Hn Hk Hcov st Hinit) as (st' & losses & Hloop & H').
  exists st', losses. split; [|exact H'].
  rewrite partial_fit_unfold.
  erewrite Py_bind_ok by reflexivity.
  destruct Hinit as (_ & m & Htf & _). rewrite Htf.
  rewrite bool_decide_eq_false_2 by discriminate.
  erewrite Py_bind_ok by reflexivity.
  erewrite Py_bind_ok by reflexivity.
  exact Hloop.
Qed.

Lemma partial_fit_fresh {L : External} (X : csr_matrix.t) (st : MatrixFactorizer.State) :
  randint_contract L ->
  MatrixFactorizer._tf (MatrixFactorizer.self st) = None ->
  (0 < fst (csr_matrix.shape X))%nat -> (0 < snd (csr_matrix.shape X))%nat ->
  exists (st' : MatrixFactorizer.State) (losses : list R),
    MatrixFactorizer.partial_fit X st = (Ok tt, st') /\
    initialised (fst (csr_matrix.shape X)) (snd (csr_matrix.shape X))
      (MatrixFactorizer.n_components (MatrixFactorizer.hyper (MatrixFactorizer.self st)))
      (MatrixFactorizer.self st') /\
    MatrixFactorizer.hyper (MatrixFactorizer.self st')
      = MatrixFactorizer.hyper (MatrixFactorizer.self st) /\
    MatrixFactorizer.history (MatrixFactorizer.self st')
      = MatrixFactorizer.history (MatrixFactorizer.self st) ++ losses /\
    length losses
      = MatrixFactorizer.n_iter (MatrixFactorizer.hyper (MatrixFactorizer.self st)).
Proof.
  intros Hnp Htf Hn Hk.
  destruct (init_with_shape_ok (fst (csr_matrix.shape X)) (snd (csr_matrix.shape X)) st)
    as (st1 & Hinit & Hready & Hhyper1 & Hhist1).
  destruct (for_range_iteration X _ _ _
              (MatrixFactorizer.n_iter (MatrixFactorizer.hyper (MatrixFactorizer.self st)))
              Hnp Hn Hk (conj (le_n _) (le_n _)) st1 Hready)
    as (st' & losses & Hloop & Hready' & Hhyper' & Hhist' & Hlen).
  exists st', losses. split; [|split; [exact Hready'|split; [congruence|split]]].
  - rewrite partial_fit_unfold.
    erewrite Py_bind_ok by reflexivity.
    rewrite Htf. rewrite bool_decide_eq_true_2 by reflexivity.
    erewrite Py_bind_ok by exact Hinit.
    erewrite Py_bind_ok by reflexivity.
    rewrite Hhyper1. exact Hloop.
  - congruence.
  - exact Hlen.
Qed.

Lemma fit_fresh {L : External} (X : csr_matrix.t) (st : MatrixFactorizer.State) :
  randint_contract L ->
  MatrixFactorizer.warm_start (MatrixFactorizer.hyper (MatrixFactorizer.self st)) = false ->
  (0 < fst (csr_matrix.shape X))%nat -> (0 < snd (csr_matrix.shape X))%nat ->
  exists (st' : MatrixFactorizer.State) (losses : list R),
    MatrixFactorizer.fit X st = (Ok tt, st') /\
    initialised (fst (csr_matrix.shape X)) (snd (csr_matrix.shape X))
      (MatrixFactorizer.n_components (MatrixFactorizer.hyper (MatrixFactorizer.self st)))
      (MatrixFactorizer.self st') /\
    MatrixFactorizer.hyper (MatrixFactorizer.self st')
      = MatrixFactorizer.hyper (MatrixFactorizer.self st) /\
    MatrixFactorizer.history (MatrixFactorizer.self st') = losses /\
    length losses
      = MatrixFactorizer.n_iter (MatrixFactorizer.hyper (MatrixFactorizer.self st)).
Proof.
  intros Hnp Hwarm Hn Hk.
  set (st1 := {| MatrixFactorizer.self :=
                   MatrixFactorizer.set_history []
                     (MatrixFactorizer.set_tf None (MatrixFactorizer.self st));
                 MatrixFactorizer.world := MatrixFactorizer.world st |}).
  destruct (partial_fit_fresh X st1 Hnp eq_refl Hn Hk)
    as (st' & losses & Hpf & H').
  exists st', losses. split; [|exact H'].
  unfold MatrixFactorizer.fit.
  erewrite Py_bind_ok by reflexivity.
  rewrite Hwarm. cbn [negb].
  erewrite Py_bind_ok by reflexivity.
  exact Hpf.
Qed.

(** Successive [partial_fit] calls on matrices of one shape. *)
Lemma run_partial_fits {L : External} (n k d : nat) (Xs : list csr_matrix.t) :
  randint_contract L ->
  (0 < n)%nat -> (0 < k)%nat ->
  Forall (fun X => csr_matrix.shape X = (n, k)) Xs ->
  forall st : MatrixFactorizer.State,
    MatrixFactorizer._tf (MatrixFactorizer.self st) = None /\
      d = MatrixFactorizer.n_components (MatrixFactorizer.hyper (MatrixFactorizer.self st))
    \/ initialised n k d (MatrixFactorizer.self st) ->
    exists (st' : MatrixFactorizer.State) (losses : list R),
      MatrixFactorizer.run (map MatrixFactorizer.PartialFit Xs) st = (Ok tt, st') /\
      MatrixFactorizer.history (MatrixFactorizer.self st')
        = MatrixFactorizer.history (MatrixFactorizer.self st) ++ losses /\
      length losses
        = (length Xs
           * MatrixFactorizer.n_iter (MatrixFactorizer.hyper (MatrixFactorizer.self st)))%nat.
Proof.
  intros Hnp Hn Hk HXs.
  induction HXs as [|X Xs HX _ IH]; intros st Hst.
  - exists st, []. split; [reflexivity|]. split; [|reflexivity].
    now rewrite List.app_nil_r.
  - assert (Hstep : exists (st1 : MatrixFactorizer.State) (ls : list R),
      MatrixFactorizer.partial_fit X st = (Ok tt, st1) /\
      initialised n k d (MatrixFactorizer.self st1) /\
      MatrixFactorizer.hyper (MatrixFactorizer.self st1)
        = MatrixFactorizer.hyper (MatrixFactorizer.self st) /\
      MatrixFactorizer.history (MatrixFactorizer.self st1)
        = MatrixFactorizer.history (MatrixFactorizer.self st) ++ ls /\
      length ls
        = MatrixFactorizer.n_iter (MatrixFactorizer.hyper (MatrixFactorizer.self st))).
    { destruct Hst as [[Htf ->]|Hinit].
      - destruct (partial_fit_fresh X st Hnp Htf) as (st1 & ls & H1);
          [rewrite HX; exact Hn | rewrite HX; exact Hk |].
        rewrite HX in H1. exists st1, ls. exact H1.
      - apply (partial_fit_warm X st n k d Hnp Hinit Hn Hk).
        unfold covers. rewrite HX. split; apply le_n. }
    destruct Hstep as (st1 & ls & Hpf & Hinit1 & Hhyper1 & Hhist1 & Hlen1).
    destruct (IH st1 (or_intror Hinit1)) as (st' & losses & Hrun & Hhist & Hlen).
    exists st', (ls ++ losses). split; [|split].
    + cbn [map MatrixFactorizer.run MatrixFactorizer.run_call].
      erewrite Py_bind_ok by exact Hpf. exact Hrun.
    + rewrite Hhist, Hhist1, <- List.app_assoc. reflexivity.
    + rewrite List.length_app, Hlen, Hlen1, Hhyper1. simpl. lia.
Qed.

(** ** History *)

Lemma init_returns {L : External} (kw : MatrixFactorizer.Hyper) (w : World)
    (st : MatrixFactorizer.State) :
  MatrixFactorizer.__init__ kw w = Ok st ->
  MatrixFactorizer.self st = MatrixFactorizer.new_object kw.
Proof.
  unfold MatrixFactorizer.__init__.
  destruct (MatrixFactorizer.seed_numpy _ w) as [w'|e]; cbn [mbind result_bind];
    [|discriminate].
  intros H. injection H as <-. reflexivity.
Qed.

(** C4.  Each completed training step appends one loss: [k] successive
    [partial_fit] calls on a new estimator, each of [n_iter = m] iterations,
    leave a history of length [k * m]; and a [fit] call with
    [warm_start = false] leaves a history of length [n_iter] whatever the
    state it starts from.  The calls return: the matrices have a non-empty
    shape and numpy's generator honours its contract. *)
Theorem C4_history_length {L : External} :
  randint_contract L ->
  (forall (kw : MatrixFactorizer.Hyper) (w : World) (st : MatrixFactorizer.State)
          (n k : nat) (Xs : list csr_matrix.t),
      MatrixFactorizer.__init__ kw w = Ok st ->
      (0 < n)%nat -> (0 < k)%nat ->
      Forall (fun X => csr_matrix.shape X = (n, k)) Xs ->
      exists st' : MatrixFactorizer.State,
        MatrixFactorizer.run (map MatrixFactorizer.PartialFit Xs) st = (Ok tt, st') /\
        length (MatrixFactorizer.history (MatrixFactorizer.self st'))
          = (length Xs * MatrixFactorizer.n_iter kw)%nat) /\
  (forall (st : MatrixFactorizer.State) (X : csr_matrix.t),
      MatrixFactorizer.warm_start (MatrixFactorizer.hyper (MatrixFactorizer.self st))
        = false ->
      (0 < fst (csr_matrix.shape X))%nat -> (0 < snd (csr_matrix.shape X))%nat ->
      exists st' : MatrixFactorizer.State,
        MatrixFactorizer.fit X st = (Ok tt, st') /\
        length (MatrixFactorizer.history (MatrixFactorizer.self st'))
          = MatrixFactorizer.n_iter (MatrixFactorizer.hyper (MatrixFactorizer.self st))).
Proof.
  intros Hnp. split.
  - intros kw w st n k Xs Hinit Hn Hk HXs.
    apply init_returns in Hinit.
    destruct (run_partial_fits n k (MatrixFactorizer.n_components kw) Xs Hnp Hn Hk HXs st)
      as (st' & losses & Hrun & Hhist & Hlen).
    { left. rewrite Hinit. split; reflexivity. }
    exists st'. split; [exact Hrun|].
    rewrite Hhist, Hinit, List.length_app, Hlen, Hinit. reflexivity.
  - intros st X Hwarm Hn Hk.
    destruct (fit_fresh X st Hnp Hwarm Hn Hk) as (st' & losses & Hfit & _ & _ & Hhist & Hlen).
    exists st'. split; [exact Hfit|]. now rewrite Hhist.
Qed.

(** Three [partial_fit] calls after the constructor with the arguments of
    the docstring, and a [fit] call on an estimator already initialised. *)
Lemma C4_history_length_witness :
  (exists st' : @MatrixFactorizer.State counting,
      MatrixFactorizer.run
        (map MatrixFactorizer.PartialFit [ratings; ratings; ratings])
        {| MatrixFactorizer.self := MatrixFactorizer.new_object docstring_arguments;
           MatrixFactorizer.world := @Build_World counting 42%nat 0%nat |}
      = (Ok tt, st') /\
      length (MatrixFactorizer.history (MatrixFactorizer.self st')) = (3 * 100)%nat) /\
  (exists st' : @MatrixFactorizer.State counting,
      MatrixFactorizer.fit ratings initialised_state = (Ok tt, st') /\
      length (MatrixFactorizer.history (MatrixFactorizer.self st')) = 500%nat).
Proof.
  destruct (@C4_history_length counting counting_contract) as [Hpartial Hfit].
  split.
  - apply (Hpartial docstring_arguments world0 _ 3%nat 3%nat [ratings; ratings; ratings]).
    + reflexivity.
    + lia.
    + lia.
    + repeat constructor.
  - apply (Hfit initialised_state ratings).
    + reflexivity.
    + simpl. lia.
    + simpl. lia.
Defined.

(** ** Calls before the shape is fixed *)

(** C8, as stated, fails: on a new estimator [predict] raises
    [AttributeError], the failure of [self._tf.predict] on [None]; the code
    has no [NotInitializedError]. *)
Lemma C8_predict_raises_attribute_error :
  MatrixFactorizer.observe [0%Z] [0%Z]
    (snd (@MatrixFactorizer.script counting defaults [] world0))
    = Some ([], Raise AttributeError) /\
  MatrixFactorizer.observe [0%Z] [0%Z]
    (snd (@MatrixFactorizer.script counting defaults [] world0))
    <> Some ([], Raise NotInitializedError).
Proof.
  split; [reflexivity | discriminate].
Qed.

(** C8 (amended).  A new estimator holds no model; on an estimator that holds
    no model (new, or with its session reset) [predict] raises
    [AttributeError] and returns no scores, and the state is unchanged. *)
Theorem C8_predict_before_shape {L : External} :
  (forall (kw : MatrixFactorizer.Hyper) (w : World) (st : MatrixFactorizer.State),
      MatrixFactorizer.__init__ kw w = Ok st ->
      MatrixFactorizer._tf (MatrixFactorizer.self st) = None) /\
  (forall (st : MatrixFactorizer.State) (rows cols : list Z),
      MatrixFactorizer._tf (MatrixFactorizer.self st) = None ->
      MatrixFactorizer.predict rows cols st = (Raise AttributeError, st)).
Proof.
  split.
  - intros kw w st Hinit. now rewrite (init_returns kw w st Hinit).
  - intros st rows cols Htf. unfold MatrixFactorizer.predict. now rewrite Htf.
Qed.

Lemma C8_predict_before_shape_witness :
  let st := {| MatrixFactorizer.self := MatrixFactorizer.new_object defaults;
               MatrixFactorizer.world := @Build_World counting 0%nat 1%nat |} in
  MatrixFactorizer.__init__ defaults world0 = Ok st /\
  MatrixFactorizer.predict [0%Z; 1%Z] [2%Z; 0%Z] st = (Raise AttributeError, st).
Proof.
  intros st. split; [reflexivity|].
  apply (proj2 (@C8_predict_before_shape counting)).
  apply (proj1 (@C8_predict_before_shape counting) defaults world0 st).
  reflexivity.
Defined.

(** ** The sampler and the shape of its argument *)




(** On [two_by_two_state] the sampler asks the 1 x 1 matrix for row 1. *)
Example sampler_leaves_small_matrix :
  fst (MatrixFactorizer._get_batch single_cell 1 two_by_two_state)
  = Raise IndexError.
Proof. reflexivity. Qed.

(** ** Runs that cannot be told apart *)

Section Simulation.
Context {L : External}.
Variable rel : MatrixFactorizer.State -> MatrixFactorizer.State -> Prop.

Lemma respects_ret {A : Type} (a : A) :
  respects rel (mret a : MatrixFactorizer.Py A).
Proof. intros st1 st2 H. split; [reflexivity | exact H]. Qed.

Lemma respects_throw {A : Type} (e : exn) :
  respects rel (throw e : MatrixFactorizer.Py A).
Proof. intros st1 st2 H. split; [reflexivity | exact H]. Qed.

Lemma respects_lift {A : Type} (r : result A) :
  respects rel (lift r : MatrixFactorizer.Py A).
Proof. destruct r; [apply respects_ret | apply respects_throw]. Qed.

Lemma respects_bind {A B : Type} (c : MatrixFactorizer.Py A)
    (f : A -> MatrixFactorizer.Py B) :
  respects rel c -> (forall a, respects rel (f a)) -> respects rel (c ≫= f).
Proof.
  intros Hc Hf st1 st2 H.
  destruct (Hc st1 st2 H) as [Hres Hrel].
  unfold mbind, MatrixFactorizer.Py_bind.
  destruct (c st1) as [[a1|e1] st1'], (c st2) as [[a2|e2] st2'];
    simpl in Hres, Hrel; try discriminate.
  - injection Hres as <-. now apply Hf.
  - injection Hres as <-. split; [reflexivity | exact Hrel].
Qed.

Hypothesis Hrel : compatible rel.

Lemma respects_init_with_shape (n k : nat) :
  respects rel (MatrixFactorizer.init_with_shape n k).
Proof.
  unfold MatrixFactorizer.init_with_shape.
  apply respects_bind; [apply (compat_n_components rel Hrel)|]. intros d.
  apply respects_bind; [apply (compat_set_shape rel Hrel)|]. intros _.
  apply respects_bind; [apply (compat_shape rel Hrel)|]. intros s.
  apply (compat_tf_init rel Hrel).
Qed.

Lemma respects_get_batch (data : csr_matrix.t) (size : nat) :
  respects rel (MatrixFactorizer._get_batch data size).
Proof.
  unfold MatrixFactorizer._get_batch.
  apply respects_bind; [apply (compat_shape rel Hrel)|].
  intros [[[n|] [k|]] d]; unfold get_batch.
  - apply respects_bind; [apply (compat_randint rel Hrel)|]. intros rows.
    apply respects_bind; [apply (compat_randint rel Hrel)|]. intros cols.
    apply respects_bind; [apply respects_lift|]. intros vals.
    apply respects_ret.
  - apply respects_bind; [apply (compat_randint rel Hrel)|]. intros rows.
    apply respects_throw.
  - apply respects_throw.
  - apply respects_throw.
Qed.

Lemma respects_iteration (X : csr_matrix.t) : respects rel (iteration X).
Proof.
  unfold iteration.
  apply respects_bind; [apply (compat_batch_size rel Hrel)|]. intros size.
  apply respects_bind; [apply respects_get_batch|]. intros [[rows cols] vals].
  apply respects_bind; [apply (compat_tf_train rel Hrel)|]. intros loss_value.
  apply (compat_append rel Hrel).
Qed.

Lemma respects_for_range (n : nat) (body : MatrixFactorizer.Py unit) :
  respects rel body -> respects rel (MatrixFactorizer.for_range n body).
Proof.
  intros Hbody. induction n as [|n IH]; cbn [MatrixFactorizer.for_range].
  - apply respects_ret.
  - apply respects_bind; [exact Hbody|]. intros _. exact IH.
Qed.

Lemma respects_partial_fit (X : csr_matrix.t) :
  respects rel (MatrixFactorizer.partial_fit X).
Proof.
  rewrite partial_fit_unfold.
  apply respects_bind; [apply (compat_tf_is_none rel Hrel)|]. intros [|].
  - apply respects_bind; [apply respects_init_with_shape|]. intros _.
    apply respects_bind; [apply (compat_n_iter rel Hrel)|]. intros iterations.
    apply respects_for_range, respects_iteration.
  - apply respects_bind; [apply respects_ret|]. intros _.
    apply respects_bind; [apply (compat_n_iter rel Hrel)|]. intros iterations.
    apply respects_for_range, respects_iteration.
Qed.

Lemma respects_fit (X : csr_matrix.t) : respects rel (MatrixFactorizer.fit X).
Proof.
  unfold MatrixFactorizer.fit.
  apply respects_bind; [apply (compat_warm_start rel Hrel)|]. intros [|]; cbn [negb].
  - apply respects_bind; [apply respects_ret|]. intros _. apply respects_partial_fit.
  - apply respects_bind; [apply (compat_fresh_session rel Hrel)|]. intros _.
    apply respects_partial_fit.
Qed.

Lemma respects_run (cs : list MatrixFactorizer.call) :
  respects rel (MatrixFactorizer.run cs).
Proof.
  induction cs as [|c cs IH]; cbn [MatrixFactorizer.run].
  - apply respects_ret.
  - apply respects_bind; [|intros _; exact IH].
    destruct c; [apply respects_fit | apply respects_partial_fit].
Qed.

End Simulation.

(** *** Seeded runs and the entropy of the operating system *)

Lemma same_seeded_gets {L : External} {A : Type} (f : MatrixFactorizer.t -> A) :
  respects same_seeded (MatrixFactorizer.gets f).
Proof.
  intros st1 st2 (Hself & Hnp & Hseed). unfold MatrixFactorizer.gets. simpl.
  rewrite Hself. split; [reflexivity|]. split; [exact Hself|]. split; assumption.
Qed.

Lemma same_seeded_modify {L : External} (f : MatrixFactorizer.t -> MatrixFactorizer.t) :
  (forall e, MatrixFactorizer.hyper (f e) = MatrixFactorizer.hyper e) ->
  respects same_seeded (MatrixFactorizer.modify f).
Proof.
  intros Hf st1 st2 (Hself & Hnp & Hseed). unfold MatrixFactorizer.modify.
  split; [reflexivity|]. unfold same_seeded.
  cbn [fst snd MatrixFactorizer.self MatrixFactorizer.world].
  split; [now rewrite Hself|]. split; [exact Hnp|].
  now rewrite Hf.
Qed.

Lemma same_seeded_compatible {L : External} : compatible same_seeded.
Proof.
  constructor; try (intros; apply same_seeded_gets);
    try (intros; apply same_seeded_modify; reflexivity).
  - (* _tf_init *)
    intros s st1 st2 (Hself & Hnp & Hseed).
    unfold MatrixFactorizer._tf_init, TFModel.__init__. rewrite <- Hself.
    destruct (MatrixFactorizer.random_state
                (MatrixFactorizer.hyper (MatrixFactorizer.self st1)))
      as [seed|] eqn:Hrs; [|contradiction].
    destruct (MatrixFactorizer.shape (MatrixFactorizer.self st1)) as [[[n|] [k|]] d];
      cbn [TFModel.set_random_seed fst snd MatrixFactorizer.self
           MatrixFactorizer.world MatrixFactorizer.set_tf MatrixFactorizer.hyper].
      all: (split; [reflexivity|]); unfold same_seeded;
      cbn [fst snd MatrixFactorizer.self
           MatrixFactorizer.world MatrixFactorizer.set_tf MatrixFactorizer.hyper].
      all: (split; [reflexivity|]);
      (split; [exact Hnp|]). all: rewrite Hrs; discriminate.
  - (* randint *)
    intros high size st1 st2 (Hself & Hnp & Hseed).
    cbn [randint MatrixFactorizer.Py_numpy]. rewrite <- Hnp, <- Hself.
    destruct (np_randint high size (np_random (MatrixFactorizer.world st1)))
      as [[l|] s]; simpl; (split; [reflexivity|]);
      (split; [reflexivity|]); (split; [reflexivity|]); exact Hseed.
  - (* tf_train *)
    intros rows cols values st1 st2 (Hself & Hnp & Hseed).
    unfold MatrixFactorizer.tf_train. rewrite <- Hself.
    destruct (MatrixFactorizer._tf (MatrixFactorizer.self st1)) as [m|].
    + destruct (TFModel.train m rows cols values) as [[l m']|e]; simpl;
        (split; [reflexivity|]).
      * split; [reflexivity|]. split; assumption.
      * split; [exact Hself|]. split; assumption.
    + simpl. split; [reflexivity|]. split; [exact Hself|]. split; assumption.
  - (* predict *)
    intros rows cols st1 st2 (Hself & Hnp & Hseed).
    unfold MatrixFactorizer.predict. rewrite <- Hself.
    destruct (MatrixFactorizer._tf (MatrixFactorizer.self st1)) as [m|]; simpl;
      (split; [reflexivity|]); (split; [exact Hself|]); split; assumption.
Qed.

(** ** Determinism under a fixed seed *)

(** The constructor seeds numpy's generator from [random_state]: with an
    integer seed, the states it yields in two processes differ at most in
    the entropy left. *)
Lemma new_object_same_seeded {L : External} (kw : MatrixFactorizer.Hyper) (seed : Z)
    (w1 w2 : World) :
  MatrixFactorizer.random_state kw = Some seed ->
  same_seeded
    {| MatrixFactorizer.self := MatrixFactorizer.new_object kw;
       MatrixFactorizer.world := {| np_random := np_seed seed; entropy := entropy w1 |} |}
    {| MatrixFactorizer.self := MatrixFactorizer.new_object kw;
       MatrixFactorizer.world := {| np_random := np_seed seed; entropy := entropy w2 |} |}.
Proof.
  intros Hseed. split; [reflexivity|]. split; [reflexivity|].
  cbn [MatrixFactorizer.self MatrixFactorizer.new_object MatrixFactorizer.hyper
       MatrixFactorizer.random_state].
  rewrite Hseed. discriminate.
Qed.

(** C5.  With an integer [random_state], a run -- the constructor followed
    by any sequence of [fit] and [partial_fit] calls -- gives the same
    outcome and the same loss history in any two processes, whatever the
    state of numpy's generator and of the operating system's entropy before
    the constructor was called. *)
Theorem C5_seeded_runs_agree {L : External} (kw : MatrixFactorizer.Hyper)
    (seed : Z) (cs : list MatrixFactorizer.call) (w1 w2 : World) :
  MatrixFactorizer.random_state kw = Some seed ->
  fst (MatrixFactorizer.script kw cs w1) = fst (MatrixFactorizer.script kw cs w2) /\
  (fun st => MatrixFactorizer.history (MatrixFactorizer.self st))
    <$> snd (MatrixFactorizer.script kw cs w1)
  = (fun st => MatrixFactorizer.history (MatrixFactorizer.self st))
    <$> snd (MatrixFactorizer.script kw cs w2).
Proof.
  intros Hseed.
  unfold MatrixFactorizer.script, MatrixFactorizer.__init__, MatrixFactorizer.seed_numpy.
  rewrite Hseed.
  destruct ((0 <=? seed) && (seed <? 2 ^ 32))%Z; cbn [mbind result_bind];
    [|split; reflexivity].
  destruct (respects_run same_seeded same_seeded_compatible cs _ _
              (new_object_same_seeded kw seed w1 w2 Hseed)) as (Hres & Hself & _).
  destruct (MatrixFactorizer.run cs _) as [r1 st1], (MatrixFactorizer.run cs _) as [r2 st2].
  cbn [fst snd] in *. split; [exact Hres|].
  cbn [fmap option_fmap option_map]. now rewrite Hself.
Qed.

(** The scenario of the docstring, in two different process states. *)
Lemma C5_seeded_runs_agree_witness :
  let kw := docstring_arguments in
  let cs := [MatrixFactorizer.PartialFit ratings; MatrixFactorizer.Fit ratings] in
  let w := @Build_World counting 7%nat 3%nat in
  fst (MatrixFactorizer.script kw cs world0) = fst (MatrixFactorizer.script kw cs w) /\
  (fun st => MatrixFactorizer.history (MatrixFactorizer.self st))
    <$> snd (MatrixFactorizer.script kw cs world0)
  = (fun st => MatrixFactorizer.history (MatrixFactorizer.self st))
    <$> snd (MatrixFactorizer.script kw cs w).
Proof.
  intros kw cs w.
  apply (C5_seeded_runs_agree kw 42 cs world0 w). reflexivity.
Defined.

(** *** Arguments with the same effect on the graph *)

Lemma pred_same_graph {L : External} (m1 m2 : TFModel.t) (vars : Store)
    (rows cols : list Z) :
  same_graph_model m1 m2 ->
  TFModel.pred m1 vars rows cols = TFModel.pred m2 vars rows cols.
Proof.
  intros (Hs & _ & _ & _ & Hfi & _ & _ & Hloss & _).
  unfold TFModel.pred, TFModel.linear_predictor, TFModel.weights_product.
  now rewrite Hs, Hfi, Hloss.
Qed.

Lemma inputs_same_graph {L : External} (m1 m2 : TFModel.t) (values : list R) :
  same_graph_model m1 m2 ->
  TFModel.targets m1 values = TFModel.targets m2 values /\
  TFModel.data_weights m1 values = TFModel.data_weights m2 values.
Proof.
  intros (_ & _ & _ & Himp & _ & _ & Hw & _ & _).
  unfold TFModel.targets, TFModel.data_weights. rewrite <- Himp.
  destruct (TFModel.implicit m1); [|split; reflexivity].
  destruct (Hw eq_refl) as [Ha Hlog]. rewrite Ha, Hlog. split; reflexivity.
Qed.

Lemma cost_same_graph {L : External} (m1 m2 : TFModel.t) (vars : Store)
    (rows cols : list Z) (values : list R) :
  same_graph_model m1 m2 ->
  TFModel.cost m1 vars rows cols values = TFModel.cost m2 vars rows cols values.
Proof.
  intros H. pose proof (pred_same_graph m1 m2 vars rows cols H) as Hpred.
  destruct (inputs_same_graph m1 m2 values H) as [Ht Hw].
  destruct H as (Hs & _ & Hreg & _ & Hfi & _ & _ & Hloss & _).
  unfold TFModel.cost, TFModel.loss_raw, TFModel.l2_term, TFModel.l2_weights.
  now rewrite Hpred, Ht, Hw, Hs, Hreg, Hfi, Hloss.
Qed.

Lemma train_step_same_graph {L : External} (m1 m2 : TFModel.t)
    (rows cols : list Z) (values : list R) :
  same_graph_model m1 m2 ->
  TFModel.train_step m1 rows cols values = TFModel.train_step m2 rows cols values.
Proof.
  intros H.
  assert (Hobj : TFModel.objective m1 rows cols values
                 = TFModel.objective m2 rows cols values).
  { apply functional_extensionality. intros vars. unfold TFModel.objective.
    now rewrite (cost_same_graph m1 m2 vars rows cols values H). }
  destruct H as (_ & Hlr & _ & _ & _ & Hsess & _ & _ & Hopt).
  unfold TFModel.train_step. now rewrite Hobj, Hlr, Hsess, Hopt.
Qed.

Lemma with_sess_same_graph {L : External} (m1 m2 : TFModel.t) (s : TFModel.Session) :
  same_graph_model m1 m2 ->
  same_graph_model (TFModel.with_sess m1 s) (TFModel.with_sess m2 s).
Proof.
  intros (Hs & Hlr & Hreg & Himp & Hfi & _ & Hw & Hloss & Hopt).
  unfold same_graph_model, TFModel.with_sess. simpl. repeat split; auto; apply Hw; auto.
Qed.

Lemma similar_gets {L : External} {A : Type} (f : MatrixFactorizer.t -> A) :
  (forall st1 st2, similar st1 st2 ->
     f (MatrixFactorizer.self st1) = f (MatrixFactorizer.self st2)) ->
  respects similar (MatrixFactorizer.gets f).
Proof.
  intros Hf st1 st2 H. unfold MatrixFactorizer.gets. cbn [fst snd].
  split; [f_equal; now apply Hf | exact H].
Qed.

Lemma branches_same_graph (h1 h2 : MatrixFactorizer.Hyper) :
  same_graph_hyper h1 h2 ->
  TFModel.branches (MatrixFactorizer.implicit h1) (MatrixFactorizer.log_weights h1)
                   (MatrixFactorizer.fit_intercepts h1)
  = TFModel.branches (MatrixFactorizer.implicit h2) (MatrixFactorizer.log_weights h2)
                     (MatrixFactorizer.fit_intercepts h2).
Proof.
  intros (_ & _ & _ & _ & _ & Himp & Hfi & _ & _ & Hwt & _).
  unfold TFModel.branches. rewrite <- Himp, <- Hfi.
  destruct (MatrixFactorizer.implicit h1); [|reflexivity].
  destruct (Hwt eq_refl) as [_ Hl]. rewrite Hl. reflexivity.
Qed.

Lemma similar_compatible {L : External} : compatible similar.
Proof.
  constructor.
  - apply similar_gets. intros st1 st2 (_ & _ & _ & _ & Htf).
    destruct (MatrixFactorizer._tf (MatrixFactorizer.self st1)),
             (MatrixFactorizer._tf (MatrixFactorizer.self st2));
      try contradiction; reflexivity.
  - apply similar_gets. intros st1 st2 (_ & Hh & _). apply Hh.
  - apply similar_gets. intros st1 st2 (_ & Hh & _). apply Hh.
  - apply similar_gets. intros st1 st2 (_ & Hh & _). apply Hh.
  - apply similar_gets. intros st1 st2 (_ & Hh & _). apply Hh.
  - apply similar_gets. intros st1 st2 (_ & _ & Hs & _). exact Hs.
  - intros s st1 st2 (Hw & Hh & Hs & Hhist & Htf).
    split; [reflexivity|]. unfold similar. simpl. auto.
  - intros l st1 st2 (Hw & Hh & Hs & Hhist & Htf).
    split; [reflexivity|]. unfold similar. simpl. rewrite Hhist. auto.
  - intros st1 st2 (Hw & Hh & Hs & Hhist & Htf).
    split; [reflexivity|]. unfold similar. simpl. auto.
  - (* _tf_init *)
    intros s st1 st2 (Hw & Hh & Hs & Hhist & Htf).
    pose proof Hh as (Hnc & Hni & Hbs & Hlr & Hreg & Himp & Hfi & Hws & Hrs
                      & Hwt & Hloss & Hopt).
    unfold MatrixFactorizer._tf_init, TFModel.__init__.
    rewrite <- Hs, <- Hw, <- Hrs.
    destruct (MatrixFactorizer.shape (MatrixFactorizer.self st1))
      as [[[n|] [k|]] d] eqn:Hshape;
      pose proof (eq_trans Hshape Hs) as Hs';
      try (split; [reflexivity|]; unfold similar; simpl; auto).
    destruct (TFModel.set_random_seed _ _) as [graph_seed w'].
    rewrite (branches_same_graph _ _ Hh).
    split; [reflexivity|]. unfold similar. simpl.
    split; [reflexivity|]. split; [exact Hh|]. split; [exact Hs'|].
    split; [exact Hhist|].
    unfold same_graph_model. simpl. rewrite Hopt.
    repeat split; auto; destruct (Hwt ltac:(assumption)) as [Ha Hl]; congruence.
  - (* randint *)
    intros high size st1 st2 (Hw & Hh & Hs & Hhist & Htf).
    cbn [randint MatrixFactorizer.Py_numpy]. rewrite <- Hw.
    destruct (np_randint high size (np_random (MatrixFactorizer.world st1)))
      as [[l|] s]; simpl; (split; [reflexivity|]); unfold similar; simpl; auto.
  - (* tf_train *)
    intros rows cols values st1 st2 (Hw & Hh & Hs & Hhist & Htf).
    unfold MatrixFactorizer.tf_train.
    destruct (MatrixFactorizer._tf (MatrixFactorizer.self st1)) as [m1|] eqn:H1,
             (MatrixFactorizer._tf (MatrixFactorizer.self st2)) as [m2|] eqn:H2;
      try contradiction.
    + unfold TFModel.train.
      rewrite (cost_same_graph m1 m2 _ rows cols values Htf).
      rewrite (train_step_same_graph m1 m2 rows cols values Htf).
      pose proof Htf as (_ & _ & _ & _ & _ & Hsess & _). rewrite Hsess.
      destruct (TFModel.cost m2 _ rows cols values) as [c|e];
        cbn [mbind result_bind fst snd]; (split; [reflexivity|]).
      * unfold similar. simpl. repeat (split; [assumption|]).
        apply with_sess_same_graph. exact Htf.
      * unfold similar. rewrite H1, H2. repeat (split; [assumption|]).
        exact Htf.
    + split; [reflexivity|]. unfold similar. cbn [fst snd]. rewrite H1, H2. auto.
  - (* predict *)
    intros rows cols st1 st2 (Hw & Hh & Hs & Hhist & Htf).
    unfold MatrixFactorizer.predict.
    destruct (MatrixFactorizer._tf (MatrixFactorizer.self st1)) as [m1|] eqn:H1,
             (MatrixFactorizer._tf (MatrixFactorizer.self st2)) as [m2|] eqn:H2;
      try contradiction.
    + unfold TFModel.predict. cbn [fst snd].
      pose proof Htf as (_ & _ & _ & _ & _ & Hsess & _). rewrite Hsess.
      rewrite (pred_same_graph m1 m2 _ rows cols Htf).
      split; [reflexivity|]. unfold similar. rewrite H1, H2. auto.
    + split; [reflexivity|]. unfold similar. cbn [fst snd]. rewrite H1, H2. auto.
Qed.

Lemma new_object_similar {L : External} (kw1 kw2 : MatrixFactorizer.Hyper) (w : World) :
  same_graph_hyper kw1 kw2 ->
  similar {| MatrixFactorizer.self := MatrixFactorizer.new_object kw1;
             MatrixFactorizer.world := w |}
          {| MatrixFactorizer.self := MatrixFactorizer.new_object kw2;
             MatrixFactorizer.world := w |}.
Proof.
  intros (Hnc & Hni & Hbs & Hlr & Hreg & Himp & Hfi & Hws & Hrs & Hwt & Hloss & Hopt).
  unfold similar, MatrixFactorizer.new_object.
  cbn [MatrixFactorizer.self MatrixFactorizer.world MatrixFactorizer.hyper
       MatrixFactorizer.shape MatrixFactorizer.history MatrixFactorizer._tf].
  rewrite Hnc. split; [reflexivity|]. split; [|auto].
  unfold same_graph_hyper.
  cbn [MatrixFactorizer.n_components MatrixFactorizer.n_iter MatrixFactorizer.batch_size
       MatrixFactorizer.learning_rate MatrixFactorizer.regularization_rate
       MatrixFactorizer.alpha MatrixFactorizer.implicit MatrixFactorizer.loss
       MatrixFactorizer.log_weights MatrixFactorizer.fit_intercepts
       MatrixFactorizer.warm_start MatrixFactorizer.optimizer
       MatrixFactorizer.random_state].
  repeat (split; [first [assumption | reflexivity]|]). split; [|split; assumption].
  intros Hi. destruct (Hwt Hi) as [Ha Ht]. split; [exact Ha|].
  now rewrite <- Himp, Ht.
Qed.

(** Scripts with arguments of the same effect on the graph leave the same
    outcome, the same history and the same scores. *)
Lemma similar_scripts {L : External} (kw1 kw2 : MatrixFactorizer.Hyper)
    (cs : list MatrixFactorizer.call) (w : World) (rows cols : list Z) :
  same_graph_hyper kw1 kw2 ->
  fst (MatrixFactorizer.script kw1 cs w) = fst (MatrixFactorizer.script kw2 cs w) /\
  MatrixFactorizer.observe rows cols (snd (MatrixFactorizer.script kw1 cs w))
  = MatrixFactorizer.observe rows cols (snd (MatrixFactorizer.script kw2 cs w)).
Proof.
  intros H.
  pose proof H as (_ & _ & _ & _ & _ & _ & _ & _ & Hrs & _).
  unfold MatrixFactorizer.script, MatrixFactorizer.__init__. rewrite <- Hrs.
  destruct (MatrixFactorizer.seed_numpy _ w) as [w'|e]; cbn [mbind result_bind];
    [|split; reflexivity].
  destruct (respects_run similar similar_compatible cs _ _
              (new_object_similar kw1 kw2 w' H)) as [Hres Hsim].
  destruct (compat_predict similar similar_compatible rows cols _ _ Hsim) as [Hpred _].
  destruct Hsim as (_ & _ & _ & Hhist & _).
  destruct (MatrixFactorizer.run cs _) as [r1 st1], (MatrixFactorizer.run cs _) as [r2 st2].
  cbn [fst snd] in *. split; [exact Hres|].
  unfold MatrixFactorizer.observe. cbn [fmap option_fmap option_map].
  now rewrite Hhist, Hpred.
Qed.

(** ** Explicit mode ignores the weighting arguments *)

(** C10.  In explicit mode ([implicit = false]) the target of an entry is
    its value and the weight is the constant 1, so [alpha] and
    [log_weights] are not observable: two scripts whose constructor
    arguments differ only there, run in the same process state, go through
    any sequence of [fit] and [partial_fit] calls with the same outcome and
    the same loss history, and [predict] then returns the same scores. *)
Theorem C10_weighting_unobservable_when_explicit {L : External}
    (kw : MatrixFactorizer.Hyper) (alpha_ : R) (log_weights_ : option bool)
    (w : World) (cs : list MatrixFactorizer.call) (rows cols : list Z) :
  MatrixFactorizer.implicit kw = false ->
  let run1 := MatrixFactorizer.script kw cs w in
  let run2 := MatrixFactorizer.script (with_weighting kw alpha_ log_weights_) cs w in
  (forall (m : TFModel.t) (values : list R),
      TFModel.implicit m = false ->
      TFModel.targets m values = values /\ TFModel.data_weights m values = Scalar 1) /\
  fst run1 = fst run2 /\
  MatrixFactorizer.observe rows cols (snd run1)
  = MatrixFactorizer.observe rows cols (snd run2).
Proof.
  intros Himp run1 run2. split.
  - intros m values Hm. unfold TFModel.targets, TFModel.data_weights.
    rewrite Hm. split; reflexivity.
  - apply similar_scripts.
    unfold same_graph_hyper, with_weighting. simpl. rewrite Himp.
    repeat (split; [reflexivity|]). split; [discriminate|]. split; reflexivity.
Qed.

Lemma C10_weighting_unobservable_when_explicit_witness :
  let run1 := @MatrixFactorizer.script counting defaults
                [MatrixFactorizer.Fit ratings] world0 in
  let run2 := @MatrixFactorizer.script counting (with_weighting defaults 7 (Some true))
                [MatrixFactorizer.Fit ratings] world0 in
  (forall (m : @TFModel.t counting) (values : list R),
      TFModel.implicit m = false ->
      TFModel.targets m values = values /\ TFModel.data_weights m values = Scalar 1) /\
  fst run1 = fst run2 /\
  MatrixFactorizer.observe [0%Z] [1%Z] (snd run1)
  = MatrixFactorizer.observe [0%Z] [1%Z] (snd run2).
Proof.
  apply (C10_weighting_unobservable_when_explicit defaults 7 (Some true) world0
           [MatrixFactorizer.Fit ratings] [0%Z] [1%Z]).
  reflexivity.
Defined.

(** ** Names of losses and optimisers *)

Lemma script_fit_returns {L : External} (kw : MatrixFactorizer.Hyper) (w : World)
    (st : MatrixFactorizer.State) (X : csr_matrix.t) :
  randint_contract L ->
  MatrixFactorizer.__init__ kw w = Ok st ->
  MatrixFactorizer.warm_start kw = false ->
  (0 < fst (csr_matrix.shape X))%nat -> (0 < snd (csr_matrix.shape X))%nat ->
  fst (MatrixFactorizer.script kw [MatrixFactorizer.Fit X] w) = Ok tt /\
  (fun st' => length (MatrixFactorizer.history (MatrixFactorizer.self st')))
    <$> snd (MatrixFactorizer.script kw [MatrixFactorizer.Fit X] w)
  = Some (MatrixFactorizer.n_iter kw).
Proof.
  intros Hnp Hinit Hwarm Hn Hk.
  unfold MatrixFactorizer.script. rewrite Hinit.
  pose proof (init_returns kw w st Hinit) as Hself.
  destruct (fit_fresh X st Hnp) as (st' & losses & Hfit & _ & _ & Hhist & Hlen);
    [now rewrite Hself | exact Hn | exact Hk |].
  cbn [MatrixFactorizer.run MatrixFactorizer.run_call].
  erewrite Py_bind_ok by exact Hfit.
  cbn [mret MatrixFactorizer.Py_ret fst snd fmap option_fmap option_map].
  split; [reflexivity|]. rewrite Hhist, Hlen, Hself. reflexivity.
Qed.

(** C7, as stated, fails: with [loss = 'hinge'] and [optimizer = 'SGD'] the
    constructor returns and the first [fit] returns normally, 500 losses in
    the history. *)
Lemma C7_unknown_names_are_accepted :
  fst (@MatrixFactorizer.script counting
         (with_loss_optimizer defaults "hinge" "SGD")
         [MatrixFactorizer.Fit ratings] world0) = Ok tt /\
  (fun st' => length (MatrixFactorizer.history (MatrixFactorizer.self st')))
    <$> snd (@MatrixFactorizer.script counting
               (with_loss_optimizer defaults "hinge" "SGD")
               [MatrixFactorizer.Fit ratings] world0)
  = Some 500%nat.
Proof.
  eapply (script_fit_returns (with_loss_optimizer defaults "hinge" "SGD") world0).
  - exact counting_contract.
  - reflexivity.
  - reflexivity.
  - simpl. lia.
  - simpl. lia.
Qed.

(** C7 (amended).  The names are never validated, and each is only told
    apart from one value.  A loss other than ['logistic'] is the squared
    loss, whatever the optimiser; an optimiser other than ['Ftrl'] is Adam,
    whatever the loss; and with both, the estimator is the one of
    ['squared'] and ['Adam'].  In each case the script run with such a name
    goes exactly as the one run with the name it stands for: same outcome of
    the constructor and of the calls, same loss history, same scores from
    [predict]. *)
Theorem C7_unknown_names_fall_back {L : External}
    (kw : MatrixFactorizer.Hyper) (loss_ optimizer_ : string)
    (w : World) (cs : list MatrixFactorizer.call) (rows cols : list Z) :
  (loss_ <> "logistic"%string ->
   same_runs (with_loss_optimizer kw loss_ optimizer_)
             (with_loss_optimizer kw "squared" optimizer_) cs w rows cols) /\
  (optimizer_ <> "Ftrl"%string ->
   same_runs (with_loss_optimizer kw loss_ optimizer_)
             (with_loss_optimizer kw loss_ "Adam") cs w rows cols) /\
  (loss_ <> "logistic"%string -> optimizer_ <> "Ftrl"%string ->
   same_runs (with_loss_optimizer kw loss_ optimizer_)
             (with_loss_optimizer kw "squared" "Adam") cs w rows cols).
Proof.
  assert (Hgen : forall l1 o1 l2 o2 : string,
             String.eqb l1 "logistic" = String.eqb l2 "logistic" ->
             String.eqb o1 "Ftrl" = String.eqb o2 "Ftrl" ->
             same_runs (with_loss_optimizer kw l1 o1)
                       (with_loss_optimizer kw l2 o2) cs w rows cols).
  { intros l1 o1 l2 o2 Hl Ho. apply similar_scripts.
    unfold same_graph_hyper, with_loss_optimizer. simpl.
    repeat (split; [reflexivity|]). split; [auto|].
    split; assumption. }
  split; [|split].
  - intros Hloss. apply Hgen; [|reflexivity].
    apply String.eqb_neq in Hloss. now rewrite Hloss.
  - intros Hopt. apply Hgen; [reflexivity|].
    apply String.eqb_neq in Hopt. now rewrite Hopt.
  - intros Hloss Hopt.
    apply String.eqb_neq in Hloss, Hopt. apply Hgen.
    + now rewrite Hloss.
    + now rewrite Hopt.
Qed.

(** The theorem at ['hinge'] with ['Ftrl'], at ['logistic'] with ['SGD'] and
    at ['hinge'] with ['SGD']. *)
Lemma C7_unknown_names_fall_back_witness :
  @same_runs counting
    (with_loss_optimizer defaults "hinge" "Ftrl")
    (with_loss_optimizer defaults "squared" "Ftrl")
    [MatrixFactorizer.Fit ratings] world0 [0%Z] [1%Z] /\
  @same_runs counting
    (with_loss_optimizer defaults "logistic" "SGD")
    (with_loss_optimizer defaults "logistic" "Adam")
    [MatrixFactorizer.Fit ratings] world0 [0%Z] [1%Z] /\
  @same_runs counting
    (with_loss_optimizer defaults "hinge" "SGD")
    (with_loss_optimizer defaults "squared" "Adam")
    [MatrixFactorizer.Fit ratings] world0 [0%Z] [1%Z].
Proof.
  pose proof (@C7_unknown_names_fall_back counting defaults "hinge" "Ftrl" world0
                [MatrixFactorizer.Fit ratings] [0%Z] [1%Z]) as (Hloss & _ & _).
  pose proof (@C7_unknown_names_fall_back counting defaults "logistic" "SGD" world0
                [MatrixFactorizer.Fit ratings] [0%Z] [1%Z]) as (_ & Hopt & _).
  pose proof (@C7_unknown_names_fall_back counting defaults "hinge" "SGD" world0
                [MatrixFactorizer.Fit ratings] [0%Z] [1%Z]) as (_ & _ & Hboth).
  split; [|split].
  - exact (Hloss ltac:(discriminate)).
  - exact (Hopt ltac:(discriminate)).
  - exact (Hboth ltac:(discriminate) ltac:(discriminate)).
Defined.

(** ** The law of the batch sampler *)






















(** * Further properties of the code *)

(** ** Fixing the shape *)

Lemma init_with_shape_returns {L : External} (n k : nat)
    (st : MatrixFactorizer.State) :
  exists (m : TFModel.t) (w' : World),
    MatrixFactorizer.init_with_shape n k st =
      (Ok tt,
       {| MatrixFactorizer.self :=
            {| MatrixFactorizer.hyper := MatrixFactorizer.hyper (MatrixFactorizer.self st);
               MatrixFactorizer.shape :=
                 (Some n, Some k,
                  MatrixFactorizer.n_components
                    (MatrixFactorizer.hyper (MatrixFactorizer.self st)));
               MatrixFactorizer._tf := Some m;
               MatrixFactorizer.history :=
                 MatrixFactorizer.history (MatrixFactorizer.self st) |};
          MatrixFactorizer.world := w' |}) /\
    TFModel.shape m
      = (n, k, MatrixFactorizer.n_components
                 (MatrixFactorizer.hyper (MatrixFactorizer.self st))) /\
    global_bias (TFModel.variables (TFModel.sess m)) = 0 /\
    (forall i, row_biases (TFModel.variables (TFModel.sess m)) i = 0) /\
    (forall j, col_biases (TFModel.variables (TFModel.sess m)) j = 0) /\
    np_random w' = np_random (MatrixFactorizer.world st) /\
    (forall seed : Z,
        MatrixFactorizer.random_state (MatrixFactorizer.hyper (MatrixFactorizer.self st))
          = Some seed ->
        w' = MatrixFactorizer.world st /\
        TFModel.variables (TFModel.sess m)
        = TFModel.initial_variables seed
            (TFModel.branches (TFModel.implicit m) (TFModel.log_weights m)
                              (TFModel.fit_intercepts m))
            (TFModel.shape m)).
Proof.
  unfold MatrixFactorizer.init_with_shape.
  erewrite Py_bind_ok by reflexivity.
  erewrite Py_bind_ok by reflexivity.
  erewrite Py_bind_ok by reflexivity.
  unfold MatrixFactorizer._tf_init, TFModel.__init__, TFModel.set_random_seed.
  cbn [MatrixFactorizer.self MatrixFactorizer.world MatrixFactorizer.set_shape
       MatrixFactorizer.shape MatrixFactorizer.hyper MatrixFactorizer.set_tf
       MatrixFactorizer._tf MatrixFactorizer.history].
  destruct (MatrixFactorizer.random_state
              (MatrixFactorizer.hyper (MatrixFactorizer.self st))) as [seed|].
  - eexists _, _. split; [reflexivity|].
    do 5 (split; [reflexivity|]).
    intros seed' Hseed. injection Hseed as <-. split; reflexivity.
  - destruct (urandom (entropy (MatrixFactorizer.world st))) as [s e].
    eexists _, _. split; [reflexivity|].
    do 5 (split; [reflexivity|]).
    intros seed' Hseed. discriminate.
Qed.

(** X1.  For all sizes [n] and [k], [init_with_shape n k] returns.  It
    stores the shape [(n, k, n_components)] and replaces whatever model the
    estimator held by a new one of that shape whose three biases are zero;
    the stored arguments, the loss history and numpy's generator are left as
    they were.  With an integer [random_state] the process state is
    untouched, and the model built does not depend on the state of the
    estimator: every estimator with the same stored arguments gets the same
    model for the same sizes. *)
Theorem X1_init_with_shape_rebuilds {L : External} (n k : nat)
    (st : MatrixFactorizer.State) :
  exists (m : TFModel.t) (w' : World),
    MatrixFactorizer.init_with_shape n k st =
      (Ok tt,
       {| MatrixFactorizer.self :=
            {| MatrixFactorizer.hyper := MatrixFactorizer.hyper (MatrixFactorizer.self st);
               MatrixFactorizer.shape :=
                 (Some n, Some k,
                  MatrixFactorizer.n_components
                    (MatrixFactorizer.hyper (MatrixFactorizer.self st)));
               MatrixFactorizer._tf := Some m;
               MatrixFactorizer.history :=
                 MatrixFactorizer.history (MatrixFactorizer.self st) |};
          MatrixFactorizer.world := w' |}) /\
    TFModel.shape m
      = (n, k, MatrixFactorizer.n_components
                 (MatrixFactorizer.hyper (MatrixFactorizer.self st))) /\
    global_bias (TFModel.variables (TFModel.sess m)) = 0 /\
    (forall i, row_biases (TFModel.variables (TFModel.sess m)) i = 0) /\
    (forall j, col_biases (TFModel.variables (TFModel.sess m)) j = 0) /\
    np_random w' = np_random (MatrixFactorizer.world st) /\
    (forall seed : Z,
        MatrixFactorizer.random_state (MatrixFactorizer.hyper (MatrixFactorizer.self st))
          = Some seed ->
        w' = MatrixFactorizer.world st /\
        forall st2 : MatrixFactorizer.State,
          MatrixFactorizer.hyper (MatrixFactorizer.self st2)
            = MatrixFactorizer.hyper (MatrixFactorizer.self st) ->
          MatrixFactorizer._tf
            (MatrixFactorizer.self (snd (MatrixFactorizer.init_with_shape n k st2)))
          = Some m).
Proof.
  unfold MatrixFactorizer.init_with_shape.
  erewrite Py_bind_ok by reflexivity.
  erewrite Py_bind_ok by reflexivity.
  erewrite Py_bind_ok by reflexivity.
  unfold MatrixFactorizer._tf_init, TFModel.__init__, TFModel.set_random_seed.
  cbn [MatrixFactorizer.self MatrixFactorizer.world MatrixFactorizer.set_shape
       MatrixFactorizer.shape MatrixFactorizer.hyper MatrixFactorizer.set_tf
       MatrixFactorizer._tf MatrixFactorizer.history].
  destruct (MatrixFactorizer.random_state
              (MatrixFactorizer.hyper (MatrixFactorizer.self st))) as [seed|] eqn:Hrs.
  - eexists _, _. split; [reflexivity|].
    do 5 (split; [reflexivity|]).
    intros seed' Hseed. split; [reflexivity|].
    intros st2 Hh.
    erewrite Py_bind_ok by reflexivity.
    erewrite Py_bind_ok by reflexivity.
    erewrite Py_bind_ok by reflexivity.
    cbn [MatrixFactorizer.self MatrixFactorizer.world MatrixFactorizer.set_shape
         MatrixFactorizer.shape MatrixFactorizer.hyper MatrixFactorizer.set_tf
         MatrixFactorizer._tf MatrixFactorizer.history].
    rewrite Hh, Hrs. reflexivity.
  - destruct (urandom (entropy (MatrixFactorizer.world st))) as [s e].
    eexists _, _. split; [reflexivity|].
    do 5 (split; [reflexivity|]).
    intros seed' Hseed. discriminate.
Qed.

Lemma X1_init_with_shape_rebuilds_witness :
  exists (m : @TFModel.t counting) (w' : World),
    MatrixFactorizer.init_with_shape 2 3 warm_state =
      (Ok tt,
       {| MatrixFactorizer.self :=
            {| MatrixFactorizer.hyper := with_schedule defaults true 500;
               MatrixFactorizer.shape := (Some 2%nat, Some 3%nat, 5%nat);
               MatrixFactorizer._tf := Some m;
               MatrixFactorizer.history := [7] |};
          MatrixFactorizer.world := w' |}) /\
    TFModel.shape m = (2%nat, 3%nat, 5%nat) /\
    global_bias (TFModel.variables (TFModel.sess m)) = 0.
Proof.
  destruct (X1_init_with_shape_rebuilds 2 3 warm_state)
    as (m & w' & Hinit & Hshape & Hmu & _).
  exists m, w'. repeat split; assumption.
Defined.

(** X2.  The model that [init_with_shape] builds on a new estimator carries
    the arguments of the constructor: shape [(n, k, n_components)], learning
    rate, [alpha], regularisation rate, [implicit], loss, optimiser,
    [fit_intercepts] and seed.  In implicit mode an unset [log_weights]
    reaches the model as [True], so the weights of the entries are
    [1 + alpha * log (1 + v)] unless [log_weights=False] was passed, in which
    case they are [1 + alpha * v]. *)
Theorem X2_model_carries_constructor_arguments {L : External}
    (kw : MatrixFactorizer.Hyper) (w : World) (st st' : MatrixFactorizer.State)
    (n k : nat) :
  MatrixFactorizer.__init__ kw w = Ok st ->
  MatrixFactorizer.init_with_shape n k st = (Ok tt, st') ->
  exists m : TFModel.t,
    MatrixFactorizer._tf (MatrixFactorizer.self st') = Some m /\
    TFModel.shape m = (n, k, MatrixFactorizer.n_components kw) /\
    TFModel.learning_rate m = MatrixFactorizer.learning_rate kw /\
    TFModel.alpha m = MatrixFactorizer.alpha kw /\
    TFModel.regularization_rate m = MatrixFactorizer.regularization_rate kw /\
    TFModel.implicit m = MatrixFactorizer.implicit kw /\
    TFModel.loss m = MatrixFactorizer.loss kw /\
    TFModel.optimizer m = MatrixFactorizer.optimizer kw /\
    TFModel.fit_intercepts m = MatrixFactorizer.fit_intercepts kw /\
    TFModel.random_state m = MatrixFactorizer.random_state kw /\
    (MatrixFactorizer.implicit kw = false ->
     TFModel.log_weights m = MatrixFactorizer.log_weights kw /\
     forall values, TFModel.data_weights m values = Scalar 1) /\
    (MatrixFactorizer.implicit kw = true ->
     MatrixFactorizer.log_weights kw <> Some false ->
     forall values,
       TFModel.data_weights m values
       = PerEntry (map (fun v => 1 + MatrixFactorizer.alpha kw * log1p v) values)) /\
    (MatrixFactorizer.implicit kw = true ->
     MatrixFactorizer.log_weights kw = Some false ->
     forall values,
       TFModel.data_weights m values
       = PerEntry (map (fun v => 1 + MatrixFactorizer.alpha kw * v) values)).
Proof.
  intros Hnew Hinit. apply init_returns in Hnew.
  destruct (init_with_shape_returns n k st) as (m & w' & Hinit' & _).
  rewrite Hinit in Hinit'. injection Hinit' as ->.
  revert Hinit. unfold MatrixFactorizer.init_with_shape.
  erewrite Py_bind_ok by reflexivity.
  erewrite Py_bind_ok by reflexivity.
  erewrite Py_bind_ok by reflexivity.
  unfold MatrixFactorizer._tf_init, TFModel.__init__.
  cbn [MatrixFactorizer.self MatrixFactorizer.world MatrixFactorizer.set_shape
       MatrixFactorizer.shape MatrixFactorizer.hyper MatrixFactorizer.set_tf
       MatrixFactorizer._tf MatrixFactorizer.history].
  destruct (TFModel.set_random_seed _ _) as [graph_seed w''].
  rewrite Hnew. intros Heq. injection Heq as Hm _.
  exists m. split; [reflexivity|]. subst m.
  unfold TFModel.data_weights.
  cbn [TFModel.shape TFModel.learning_rate TFModel.alpha TFModel.regularization_rate
       TFModel.implicit TFModel.loss TFModel.optimizer TFModel.fit_intercepts
       TFModel.random_state TFModel.log_weights
       MatrixFactorizer.new_object MatrixFactorizer.hyper
       MatrixFactorizer.n_components MatrixFactorizer.learning_rate
       MatrixFactorizer.alpha MatrixFactorizer.regularization_rate
       MatrixFactorizer.implicit MatrixFactorizer.loss MatrixFactorizer.optimizer
       MatrixFactorizer.fit_intercepts MatrixFactorizer.random_state
       MatrixFactorizer.log_weights].
  do 9 (split; [reflexivity|]).
  split; [|split].
  - intros ->. cbn [andb]. split; reflexivity.
  - intros -> Hlog. cbn [andb]. intros values.
    destruct (MatrixFactorizer.log_weights kw) as [[|]|]; try reflexivity.
    contradiction.
  - intros -> ->. reflexivity.
Qed.

Lemma X2_model_carries_constructor_arguments_witness :
  exists (st' : @MatrixFactorizer.State counting) (m : TFModel.t),
    MatrixFactorizer._tf (MatrixFactorizer.self st') = Some m /\
    TFModel.shape m = (2%nat, 3%nat, 5%nat) /\
    forall values,
      TFModel.data_weights m values = PerEntry (map (fun v => 1 + 1 * log1p v) values).
Proof.
  pose (st := {| MatrixFactorizer.self := MatrixFactorizer.new_object implicit_arguments;
                 MatrixFactorizer.world := @Build_World counting 0%nat 1%nat |}).
  destruct (init_with_shape_returns 2 3 st) as (m0 & w' & Hinit & _).
  destruct (X2_model_carries_constructor_arguments implicit_arguments world0 st _ 2 3
              eq_refl Hinit)
    as (m & Htf & Hshape & _ & _ & _ & _ & _ & _ & _ & _ & _ & Hlog & _).
  eexists _, m. split; [exact Htf|]. split; [exact Hshape|].
  apply Hlog; [reflexivity | discriminate].
Defined.

(** X3.  An untrained model scores a pair by the dot product of its initial
    weight rows alone, whether or not intercepts are fitted: the intercepts
    start at zero.  Under the logistic loss the dot product goes through the
    sigmoid. *)
Theorem X3_untrained_scores {L : External} (st st' : MatrixFactorizer.State)
    (n k : nat) (rows cols : list Z) :
  MatrixFactorizer.init_with_shape n k st = (Ok tt, st') ->
  length rows = length cols ->
  ids_in_range n rows -> ids_in_range k cols ->
  exists (m : TFModel.t) (scores : list R),
    MatrixFactorizer._tf (MatrixFactorizer.self st') = Some m /\
    MatrixFactorizer.predict rows cols st' = (Ok scores, st') /\
    length scores = length rows /\
    forall (i : nat) (r c : Z),
      rows !! i = Some r -> cols !! i = Some c ->
      let vars := TFModel.variables (TFModel.sess m) in
      let z := dot (MatrixFactorizer.n_components
                      (MatrixFactorizer.hyper (MatrixFactorizer.self st)))
                   (row_weights vars (Z.to_nat r)) (col_weights vars (Z.to_nat c)) in
      scores !! i = Some (if String.eqb (TFModel.loss m) "logistic" then sigmoid z else z).
Proof.
  intros Hinit Hlen Hr Hc.
  destruct (init_with_shape_returns n k st)
    as (m & w' & Hinit' & Hshape & Hmu & Hbi & Hbj & _).
  rewrite Hinit in Hinit'. injection Hinit' as ->.
  exists m. eexists. split; [reflexivity|]. split; [|split].
  - unfold MatrixFactorizer.predict, TFModel.predict.
    cbn [MatrixFactorizer.self MatrixFactorizer._tf].
    rewrite (pred_in_range m _ n k _ rows cols Hshape Hlen Hr Hc). reflexivity.
  - now apply length_zip_with_same.
  - intros i r c Hri Hci. cbn zeta. rewrite lookup_zip_with, Hri, Hci.
    cbn [mbind option_bind]. f_equal.
    assert (Hlin : linear_score m (TFModel.variables (TFModel.sess m)) r c
                   = dot (MatrixFactorizer.n_components
                            (MatrixFactorizer.hyper (MatrixFactorizer.self st)))
                         (row_weights (TFModel.variables (TFModel.sess m)) (Z.to_nat r))
                         (col_weights (TFModel.variables (TFModel.sess m)) (Z.to_nat c))).
    { unfold linear_score. rewrite Hshape, Hmu, Hbi, Hbj.
      destruct (TFModel.fit_intercepts m); lra. }
    now rewrite Hlin.
Qed.

Lemma X3_untrained_scores_witness :
  exists (st' : @MatrixFactorizer.State counting) (scores : list R),
    MatrixFactorizer.init_with_shape 2 3 warm_state = (Ok tt, st') /\
    MatrixFactorizer.predict [1%Z; 0%Z] [2%Z; 2%Z] st' = (Ok scores, st') /\
    length scores = 2%nat.
Proof.
  destruct (init_with_shape_returns 2 3 warm_state) as (m0 & w' & Hinit & _).
  destruct (X3_untrained_scores warm_state _ 2 3 [1%Z; 0%Z] [2%Z; 2%Z] Hinit eq_refl)
    as (m & scores & _ & Hpred & Hlen & _).
  - repeat constructor; lia.
  - repeat constructor; lia.
  - eexists _, scores. split; [exact Hinit|]. split; [exact Hpred | exact Hlen].
Defined.

(** ** What training keeps *)

Lemma get_batch_keeps_self {L : External} (data : csr_matrix.t) (size : nat)
    (st : MatrixFactorizer.State) :
  MatrixFactorizer.self (snd (MatrixFactorizer._get_batch data size st))
  = MatrixFactorizer.self st.
Proof.
  unfold MatrixFactorizer._get_batch.
  erewrite Py_bind_ok by reflexivity.
  unfold get_batch.
  destruct (MatrixFactorizer.shape (MatrixFactorizer.self st)) as [[[n|] [k|]] d];
    try reflexivity.
  - unfold mbind, MatrixFactorizer.Py_bind. cbn [randint MatrixFactorizer.Py_numpy].
    destruct (np_randint n size _) as [[rows|] s1]; [|reflexivity].
    cbn [MatrixFactorizer.self MatrixFactorizer.world np_random entropy].
    destruct (np_randint k size s1) as [[cols|] s2]; [|reflexivity].
    destruct (csr_matrix.getitem data rows cols); reflexivity.
  - unfold mbind, MatrixFactorizer.Py_bind. cbn [randint MatrixFactorizer.Py_numpy].
    destruct (np_randint n size _) as [[rows|] s1]; reflexivity.
Qed.

Lemma with_sess_with_sess {L : External} (m : TFModel.t) (s1 s2 : TFModel.Session) :
  TFModel.with_sess (TFModel.with_sess m s1) s2 = TFModel.with_sess m s2.
Proof. reflexivity. Qed.

Lemma with_sess_sess {L : External} (m : TFModel.t) :
  TFModel.with_sess m (TFModel.sess m) = m.
Proof. destruct m. reflexivity. Qed.

Lemma trained_from_refl {L : External} (e : MatrixFactorizer.t) : trained_from e e [].
Proof.
  unfold trained_from. rewrite List.app_nil_r. repeat (split; [reflexivity|]).
  destruct (MatrixFactorizer._tf e) as [m|]; [|exact I].
  symmetry. apply with_sess_sess.
Qed.

Lemma trained_from_trans {L : External} (e e1 e2 : MatrixFactorizer.t)
    (l1 l2 : list R) :
  trained_from e e1 l1 -> trained_from e1 e2 l2 -> trained_from e e2 (l1 ++ l2).
Proof.
  intros (Hh1 & Hs1 & Hl1 & Hm1) (Hh2 & Hs2 & Hl2 & Hm2).
  unfold trained_from. split; [congruence|]. split; [congruence|].
  split; [rewrite Hl2, Hl1; now rewrite List.app_assoc|].
  destruct (MatrixFactorizer._tf e) as [m|], (MatrixFactorizer._tf e1) as [m1|],
           (MatrixFactorizer._tf e2) as [m2|]; try contradiction; try exact I.
  rewrite Hm2, Hm1. reflexivity.
Qed.

(** [self._tf.train] either returns a loss and installs a model that differs
    from the old one by its session only, or raises and changes nothing. *)
Lemma tf_train_cases {L : External} (rows cols : list Z) (vals : list R)
    (st : MatrixFactorizer.State) :
  (exists (l : R) (m m' : TFModel.t),
      MatrixFactorizer._tf (MatrixFactorizer.self st) = Some m /\
      m' = TFModel.with_sess m (TFModel.sess m') /\
      MatrixFactorizer.tf_train rows cols vals st
      = (Ok l, {| MatrixFactorizer.self :=
                    MatrixFactorizer.set_tf (Some m') (MatrixFactorizer.self st);
                  MatrixFactorizer.world := MatrixFactorizer.world st |})) \/
  (exists e : exn, MatrixFactorizer.tf_train rows cols vals st = (Raise e, st)).
Proof.
  unfold MatrixFactorizer.tf_train.
  destruct (MatrixFactorizer._tf (MatrixFactorizer.self st)) as [m|];
    [|right; eexists; reflexivity].
  destruct (TFModel.train m rows cols vals) as [[l m']|e] eqn:Htrain;
    [|right; eexists; reflexivity].
  left. exists l, m, m'. split; [reflexivity|]. split; [|reflexivity].
  unfold TFModel.train in Htrain.
  destruct (TFModel.cost m _ rows cols vals); cbn [mbind result_bind] in Htrain;
    [|discriminate].
  injection Htrain as _ <-. reflexivity.
Qed.

(** One iteration either appends one loss and replaces the session, or raises
    and leaves the estimator object as it was. *)
Lemma iteration_cases {L : External} (X : csr_matrix.t) (st : MatrixFactorizer.State) :
  (exists (l : R) (st' : MatrixFactorizer.State),
      iteration X st = (Ok tt, st') /\
      trained_from (MatrixFactorizer.self st) (MatrixFactorizer.self st') [l]) \/
  (exists (e : exn) (st' : MatrixFactorizer.State),
      iteration X st = (Raise e, st') /\
      MatrixFactorizer.self st' = MatrixFactorizer.self st).
Proof.
  unfold iteration.
  erewrite Py_bind_ok by reflexivity.
  pose proof (get_batch_keeps_self X
                (MatrixFactorizer.batch_size
                   (MatrixFactorizer.hyper (MatrixFactorizer.self st))) st) as Hself.
  destruct (MatrixFactorizer._get_batch X _ st) as [[[[rows cols] vals]|e] st1] eqn:Hb;
    cbn [snd] in Hself.
  - erewrite Py_bind_ok by exact Hb. cbn beta iota.
    destruct (tf_train_cases rows cols vals st1)
      as [(l & m & m' & Htf & Hm' & Htrain)|(e & Htrain)].
    + left. erewrite Py_bind_ok by exact Htrain.
      eexists l, _. split; [reflexivity|].
      unfold trained_from.
      cbn [MatrixFactorizer.self MatrixFactorizer.set_history MatrixFactorizer.set_tf
           MatrixFactorizer.hyper MatrixFactorizer.shape MatrixFactorizer.history
           MatrixFactorizer._tf].
      rewrite Hself in *. rewrite Htf. repeat (split; [reflexivity|]). exact Hm'.
    + right. erewrite Py_bind_raise by exact Htrain.
      exists e, st1. split; [reflexivity | exact Hself].
  - right. exists e, st1. erewrite Py_bind_raise by exact Hb.
    split; [reflexivity | exact Hself].
Qed.

(** The loop appends one loss per completed iteration and stops at the first
    exception. *)
Lemma for_range_cases {L : External} (X : csr_matrix.t) (n : nat) :
  forall st : MatrixFactorizer.State,
  exists losses : list R,
    trained_from (MatrixFactorizer.self st)
      (MatrixFactorizer.self (snd (MatrixFactorizer.for_range n (iteration X) st)))
      losses /\
    (fst (MatrixFactorizer.for_range n (iteration X) st) = Ok tt ->
     length losses = n) /\
    (forall e, fst (MatrixFactorizer.for_range n (iteration X) st) = Raise e ->
     (length losses < n)%nat).
Proof.
  induction n as [|n IH]; intros st.
  - exists []. split; [apply trained_from_refl|]. split; [reflexivity|].
    intros e He. discriminate.
  - cbn [MatrixFactorizer.for_range].
    destruct (iteration_cases X st) as [(l & st1 & Hit & Htr)|(e & st1 & Hit & Hself)].
    + erewrite Py_bind_ok by exact Hit.
      destruct (IH st1) as (losses & Htr' & Hok & Hraise).
      exists (l :: losses). split; [|split].
      * exact (trained_from_trans _ _ _ [l] losses Htr Htr').
      * intros H. simpl. now rewrite Hok.
      * intros e H. simpl. specialize (Hraise e H). lia.
    + erewrite Py_bind_raise by exact Hit.
      exists []. cbn [fst snd]. split; [|split].
      * rewrite Hself. apply trained_from_refl.
      * discriminate.
      * intros _ _. simpl. lia.
Qed.

(** X4.  [partial_fit] only ever appends to the loss history, whatever the
    state, the matrix and the outcome: afterwards the history is the old one
    followed by one loss per completed iteration -- [n_iter] of them when
    the call returns, fewer when it raises -- and the stored arguments are
    unchanged. *)
Theorem X4_partial_fit_extends_history {L : External} (X : csr_matrix.t)
    (st : MatrixFactorizer.State) :
  exists losses : list R,
    MatrixFactorizer.history
      (MatrixFactorizer.self (snd (MatrixFactorizer.partial_fit X st)))
    = MatrixFactorizer.history (MatrixFactorizer.self st) ++ losses /\
    MatrixFactorizer.hyper
      (MatrixFactorizer.self (snd (MatrixFactorizer.partial_fit X st)))
    = MatrixFactorizer.hyper (MatrixFactorizer.self st) /\
    (fst (MatrixFactorizer.partial_fit X st) = Ok tt ->
     length losses
     = MatrixFactorizer.n_iter (MatrixFactorizer.hyper (MatrixFactorizer.self st))) /\
    (forall e : exn,
        fst (MatrixFactorizer.partial_fit X st) = Raise e ->
        (length losses
         < MatrixFactorizer.n_iter (MatrixFactorizer.hyper (MatrixFactorizer.self st)))%nat).
Proof.
  rewrite partial_fit_unfold.
  erewrite Py_bind_ok by reflexivity.
  destruct (bool_decide _).
  - destruct (init_with_shape_returns (fst (csr_matrix.shape X))
                (snd (csr_matrix.shape X)) st) as (m & w' & Hinit & _).
    erewrite Py_bind_ok by exact Hinit.
    erewrite Py_bind_ok by reflexivity.
    cbn [MatrixFactorizer.self MatrixFactorizer.hyper].
    match goal with
    | |- context [MatrixFactorizer.for_range ?n (iteration X) ?s] =>
        destruct (for_range_cases X n s) as (losses & (Hh & _ & Hl & _) & Hok & Hraise)
    end.
    exists losses. split; [exact Hl|]. split; [exact Hh|]. split; assumption.
  - erewrite Py_bind_ok by reflexivity.
    erewrite Py_bind_ok by reflexivity.
    destruct (for_range_cases X
                (MatrixFactorizer.n_iter (MatrixFactorizer.hyper (MatrixFactorizer.self st)))
                st) as (losses & (Hh & _ & Hl & _) & Hok & Hraise).
    exists losses. split; [exact Hl|]. split; [exact Hh|]. split; assumption.
Qed.

(** On [two_by_two_state] the first batch leaves the 1 x 1 matrix: the call
    raises and the history gains fewer than [n_iter] losses. *)
Lemma X4_partial_fit_extends_history_witness :
  exists losses : list R,
    MatrixFactorizer.history
      (MatrixFactorizer.self (snd (MatrixFactorizer.partial_fit single_cell warm_state)))
    = [7] ++ losses /\
    (fst (MatrixFactorizer.partial_fit single_cell warm_state) = Ok tt ->
     length losses = 500%nat).
Proof.
  destruct (X4_partial_fit_extends_history single_cell warm_state)
    as (losses & Hhist & _ & Hok & _).
  exists losses. split; [exact Hhist | exact Hok].
Defined.

(** X5.  Once the estimator holds a model, [partial_fit] never rebuilds it
    and never changes the shape, whatever the shape of the matrix passed and
    whether the call returns or raises: afterwards [self.shape] is the same
    and the model has the same attributes, with a session that training has
    replaced. *)
Theorem X5_partial_fit_keeps_shape {L : External} (X : csr_matrix.t)
    (st : MatrixFactorizer.State) (m : TFModel.t) :
  MatrixFactorizer._tf (MatrixFactorizer.self st) = Some m ->
  MatrixFactorizer.shape
    (MatrixFactorizer.self (snd (MatrixFactorizer.partial_fit X st)))
  = MatrixFactorizer.shape (MatrixFactorizer.self st) /\
  exists s : TFModel.Session,
    MatrixFactorizer._tf
      (MatrixFactorizer.self (snd (MatrixFactorizer.partial_fit X st)))
    = Some (TFModel.with_sess m s).
Proof.
  intros Htf. rewrite partial_fit_unfold.
  erewrite Py_bind_ok by reflexivity.
  rewrite Htf, bool_decide_eq_false_2 by discriminate.
  erewrite Py_bind_ok by reflexivity.
  erewrite Py_bind_ok by reflexivity.
  destruct (for_range_cases X
              (MatrixFactorizer.n_iter (MatrixFactorizer.hyper (MatrixFactorizer.self st)))
              st) as (losses & (_ & Hs & _ & Hm) & _).
  split; [exact Hs|].
  rewrite Htf in Hm.
  destruct (MatrixFactorizer._tf
              (MatrixFactorizer.self
                 (snd (MatrixFactorizer.for_range _ (iteration X) st)))) as [m'|];
    [|contradiction].
  exists (TFModel.sess m'). now rewrite Hm.
Qed.

Lemma X5_partial_fit_keeps_shape_witness :
  MatrixFactorizer.shape
    (MatrixFactorizer.self (snd (MatrixFactorizer.partial_fit ratings warm_state)))
  = (Some 1%nat, Some 1%nat, 1%nat) /\
  exists s : TFModel.Session,
    MatrixFactorizer._tf
      (MatrixFactorizer.self (snd (MatrixFactorizer.partial_fit ratings warm_state)))
    = Some (TFModel.with_sess unit_model s).
Proof.
  apply (X5_partial_fit_keeps_shape ratings warm_state unit_model). reflexivity.
Defined.

(** ** Warm and cold starts *)

(** X6.  With [warm_start = True], [fit] is [partial_fit]: on an estimator
    that holds a model it keeps the model and the history and trains on,
    appending [n_iter] losses to the losses of the earlier calls. *)
Theorem X6_warm_fit_continues {L : External} (X : csr_matrix.t)
    (st : MatrixFactorizer.State) (n k d : nat) :
  randint_contract L ->
  MatrixFactorizer.warm_start (MatrixFactorizer.hyper (MatrixFactorizer.self st)) = true ->
  initialised n k d (MatrixFactorizer.self st) ->
  (0 < n)%nat -> (0 < k)%nat -> covers X n k ->
  MatrixFactorizer.fit X st = MatrixFactorizer.partial_fit X st /\
  exists (st' : MatrixFactorizer.State) (losses : list R),
    MatrixFactorizer.fit X st = (Ok tt, st') /\
    initialised n k d (MatrixFactorizer.self st') /\
    MatrixFactorizer.history (MatrixFactorizer.self st')
      = MatrixFactorizer.history (MatrixFactorizer.self st) ++ losses /\
    length losses
      = MatrixFactorizer.n_iter (MatrixFactorizer.hyper (MatrixFactorizer.self st)).
Proof.
  intros Hnp Hwarm Hinit Hn Hk Hcov.
  assert (Heq : MatrixFactorizer.fit X st = MatrixFactorizer.partial_fit X st).
  { unfold MatrixFactorizer.fit.
    erewrite Py_bind_ok by reflexivity. rewrite Hwarm. cbn [negb].
    erewrite Py_bind_ok by reflexivity. reflexivity. }
  split; [exact Heq|]. rewrite Heq.
  destruct (partial_fit_warm X st n k d Hnp Hinit Hn Hk Hcov)
    as (st' & losses & Hpf & Hinit' & _ & Hhist & Hlen).
  exists st', losses. split; [exact Hpf|]. split; [exact Hinit'|].
  split; [exact Hhist | exact Hlen].
Qed.

Lemma counting_initialised_warm_state : initialised 1 1 1 (MatrixFactorizer.self warm_state).
Proof. split; [reflexivity|]. exists unit_model. split; reflexivity. Qed.

Lemma X6_warm_fit_continues_witness :
  exists (st' : @MatrixFactorizer.State counting) (losses : list R),
    MatrixFactorizer.fit ratings warm_state = (Ok tt, st') /\
    MatrixFactorizer.history (MatrixFactorizer.self st') = [7] ++ losses /\
    length losses = 500%nat.
Proof.
  destruct (X6_warm_fit_continues ratings warm_state 1 1 1 counting_contract eq_refl
              counting_initialised_warm_state)
    as (_ & st' & losses & Hfit & _ & Hhist & Hlen).
  - lia.
  - lia.
  - split; simpl; lia.
  - exists st', losses. repeat split; assumption.
Defined.

Lemma init_with_shape_forgets {L : External} (n k : nat)
    (st1 st2 : MatrixFactorizer.State) :
  MatrixFactorizer.hyper (MatrixFactorizer.self st1)
    = MatrixFactorizer.hyper (MatrixFactorizer.self st2) ->
  MatrixFactorizer.history (MatrixFactorizer.self st1)
    = MatrixFactorizer.history (MatrixFactorizer.self st2) ->
  MatrixFactorizer.world st1 = MatrixFactorizer.world st2 ->
  MatrixFactorizer.init_with_shape n k st1 = MatrixFactorizer.init_with_shape n k st2.
Proof.
  intros Hh Hl Hw.
  unfold MatrixFactorizer.init_with_shape.
  do 3 (erewrite Py_bind_ok by reflexivity).
  symmetry. do 3 (erewrite Py_bind_ok by reflexivity). symmetry.
  unfold MatrixFactorizer._tf_init.
  cbn [MatrixFactorizer.self MatrixFactorizer.world MatrixFactorizer.set_shape
       MatrixFactorizer.shape MatrixFactorizer.hyper MatrixFactorizer.set_tf
       MatrixFactorizer._tf MatrixFactorizer.history].
  rewrite Hh, Hw. unfold TFModel.__init__.
  destruct (TFModel.set_random_seed _ _) as [graph_seed w'].
  unfold MatrixFactorizer.set_tf, MatrixFactorizer.set_shape.
  cbn [MatrixFactorizer.hyper MatrixFactorizer.shape MatrixFactorizer.history].
  now rewrite Hh, Hl.
Qed.

(** X7.  With [warm_start = False], [fit] erases the previous solution: its
    outcome and the state it leaves depend on the stored arguments and on
    the process state only, not on the shape, the model or the history the
    estimator had before. *)
Theorem X7_cold_fit_forgets {L : External} (X : csr_matrix.t)
    (st1 st2 : MatrixFactorizer.State) :
  MatrixFactorizer.warm_start (MatrixFactorizer.hyper (MatrixFactorizer.self st1)) = false ->
  MatrixFactorizer.hyper (MatrixFactorizer.self st1)
    = MatrixFactorizer.hyper (MatrixFactorizer.self st2) ->
  MatrixFactorizer.world st1 = MatrixFactorizer.world st2 ->
  MatrixFactorizer.fit X st1 = MatrixFactorizer.fit X st2.
Proof.
  intros Hwarm Hh Hw.
  unfold MatrixFactorizer.fit.
  erewrite Py_bind_ok by reflexivity. rewrite Hwarm. cbn [negb].
  erewrite Py_bind_ok by reflexivity.
  symmetry.
  erewrite Py_bind_ok by reflexivity. rewrite <- Hh, Hwarm. cbn [negb].
  erewrite Py_bind_ok by reflexivity.
  symmetry.
  rewrite partial_fit_unfold.
  erewrite Py_bind_ok by reflexivity.
  symmetry. erewrite Py_bind_ok by reflexivity. symmetry.
  cbn [MatrixFactorizer.self MatrixFactorizer.set_history MatrixFactorizer.set_tf
       MatrixFactorizer._tf].
  rewrite bool_decide_eq_true_2 by reflexivity.
  unfold mbind at 1 3, MatrixFactorizer.Py_bind at 1 3.
  rewrite (init_with_shape_forgets _ _ _
             {| MatrixFactorizer.self :=
                  MatrixFactorizer.set_history []
                    (MatrixFactorizer.set_tf None (MatrixFactorizer.self st2));
                MatrixFactorizer.world := MatrixFactorizer.world st2 |});
    [reflexivity | exact Hh | reflexivity | exact Hw].
Qed.

Lemma X7_cold_fit_forgets_witness :
  MatrixFactorizer.fit ratings initialised_state
  = MatrixFactorizer.fit ratings
      {| MatrixFactorizer.self := MatrixFactorizer.new_object defaults;
         MatrixFactorizer.world := world0 |}.
Proof.
  apply X7_cold_fit_forgets; reflexivity.
Defined.

(** ** Edge cases of the training loop *)

(** X8.  With [n_iter = 0] nothing is sampled and nothing is trained: on an
    estimator that holds a model [partial_fit] returns with the state
    untouched, and on one that holds none it does exactly what
    [init_with_shape] does for the shape of the matrix. *)
Theorem X8_no_iterations {L : External} (X : csr_matrix.t)
    (st : MatrixFactorizer.State) :
  MatrixFactorizer.n_iter (MatrixFactorizer.hyper (MatrixFactorizer.self st)) = 0%nat ->
  (MatrixFactorizer._tf (MatrixFactorizer.self st) <> None ->
   MatrixFactorizer.partial_fit X st = (Ok tt, st)) /\
  (MatrixFactorizer._tf (MatrixFactorizer.self st) = None ->
   MatrixFactorizer.partial_fit X st
   = MatrixFactorizer.init_with_shape (fst (csr_matrix.shape X))
       (snd (csr_matrix.shape X)) st).
Proof.
  intros Hiter. split; intros Htf; rewrite partial_fit_unfold;
    erewrite Py_bind_ok by reflexivity.
  - rewrite bool_decide_eq_false_2 by exact Htf.
    erewrite Py_bind_ok by reflexivity.
    erewrite Py_bind_ok by reflexivity.
    rewrite Hiter. reflexivity.
  - rewrite bool_decide_eq_true_2 by exact Htf.
    destruct (init_with_shape_returns (fst (csr_matrix.shape X))
                (snd (csr_matrix.shape X)) st) as (m & w' & Hinit & _).
    erewrite Py_bind_ok by exact Hinit.
    erewrite Py_bind_ok by reflexivity.
    cbn [MatrixFactorizer.self MatrixFactorizer.hyper].
    rewrite Hiter, Hinit. reflexivity.
Qed.

Lemma X8_no_iterations_witness :
  let st := {| MatrixFactorizer.self :=
                 @MatrixFactorizer.new_object counting (with_schedule defaults false 0);
               MatrixFactorizer.world := world0 |} in
  MatrixFactorizer.partial_fit no_rows st = MatrixFactorizer.init_with_shape 0 3 st.
Proof.
  intros st.
  apply (proj2 (X8_no_iterations no_rows st eq_refl)). reflexivity.
Defined.

Lemma counting_rejects_empty : randint_rejects_empty counting.
Proof. intros size s. exists s. reflexivity. Qed.

(** X9.  A matrix without rows is accepted when the shape is fixed and
    rejected by the first batch: with [n_iter > 0], [partial_fit] on a new
    estimator raises numpy's [ValueError], appends no loss, and leaves the
    estimator holding a model for zero rows. *)
Theorem X9_matrix_without_rows {L : External} (X : csr_matrix.t)
    (st : MatrixFactorizer.State) :
  randint_rejects_empty L ->
  MatrixFactorizer._tf (MatrixFactorizer.self st) = None ->
  fst (csr_matrix.shape X) = 0%nat ->
  (0 < MatrixFactorizer.n_iter (MatrixFactorizer.hyper (MatrixFactorizer.self st)))%nat ->
  exists st' : MatrixFactorizer.State,
    MatrixFactorizer.partial_fit X st = (Raise ValueError, st') /\
    MatrixFactorizer.history (MatrixFactorizer.self st')
      = MatrixFactorizer.history (MatrixFactorizer.self st) /\
    initialised 0 (snd (csr_matrix.shape X))
      (MatrixFactorizer.n_components (MatrixFactorizer.hyper (MatrixFactorizer.self st)))
      (MatrixFactorizer.self st').
Proof.
  intros Hempty Htf Hrows Hiter.
  destruct (init_with_shape_returns (fst (csr_matrix.shape X))
              (snd (csr_matrix.shape X)) st) as (m & w' & Hinit & Hshape & _).
  rewrite Hrows in *.
  destruct (Hempty (MatrixFactorizer.batch_size
                      (MatrixFactorizer.hyper (MatrixFactorizer.self st)))
                   (np_random w')) as [s' Hdraw].
  eexists. split; [|split].
  - rewrite partial_fit_unfold.
    erewrite Py_bind_ok by reflexivity.
    rewrite Htf, bool_decide_eq_true_2 by reflexivity.
    rewrite Hrows.
    erewrite Py_bind_ok by exact Hinit.
    erewrite Py_bind_ok by reflexivity.
    cbn [MatrixFactorizer.self MatrixFactorizer.hyper].
    destruct (MatrixFactorizer.n_iter (MatrixFactorizer.hyper (MatrixFactorizer.self st)))
      as [|iterations]; [lia|].
    cbn [MatrixFactorizer.for_range].
    erewrite Py_bind_raise; [reflexivity|].
    unfold iteration.
    erewrite Py_bind_ok by reflexivity.
    erewrite Py_bind_raise; [reflexivity|].
    unfold MatrixFactorizer._get_batch.
    erewrite Py_bind_ok by reflexivity.
    cbn [MatrixFactorizer.self MatrixFactorizer.shape get_batch].
    erewrite Py_bind_raise; [reflexivity|].
    cbn [randint MatrixFactorizer.Py_numpy MatrixFactorizer.self MatrixFactorizer.world
         MatrixFactorizer.hyper MatrixFactorizer.batch_size].
    rewrite Hdraw. reflexivity.
  - reflexivity.
  - split; [reflexivity|]. exists m. split; [reflexivity | exact Hshape].
Qed.

Lemma X9_matrix_without_rows_witness :
  exists st' : @MatrixFactorizer.State counting,
    MatrixFactorizer.partial_fit no_rows
      {| MatrixFactorizer.self := MatrixFactorizer.new_object defaults;
         MatrixFactorizer.world := world0 |}
    = (Raise ValueError, st') /\
    MatrixFactorizer.history (MatrixFactorizer.self st') = [] /\
    initialised 0 3 5 (MatrixFactorizer.self st').
Proof.
  apply (X9_matrix_without_rows no_rows
           {| MatrixFactorizer.self := MatrixFactorizer.new_object defaults;
              MatrixFactorizer.world := world0 |} counting_rejects_empty).
  - reflexivity.
  - reflexivity.
  - simpl. lia.
Defined.

(** ** Ids out of range *)

Lemma in_range_false (n : nat) (i : Z) : out_of_range n i -> in_range n i = false.
Proof.
  intros [H|H]; unfold in_range.
  - destruct (Z.leb_spec 0 i); [lia | reflexivity].
  - destruct (Z.ltb_spec i (Z.of_nat n)); [lia | apply andb_false_r].
Qed.

Lemma embedding_lookup_raises {A : Type} (n : nat) (params : nat -> A)
    (ids : list Z) (e : exn) :
  embedding_lookup n params ids = Raise e -> e = InvalidArgumentError.
Proof.
  unfold embedding_lookup.
  induction ids as [|i ids IH]; cbn [traverse]; [discriminate|].
  destruct (in_range n i); [|congruence].
  destruct (traverse _ ids); [discriminate|].
  intros H. apply IH. congruence.
Qed.

Lemma embedding_lookup_out_of_range {A : Type} (n : nat) (params : nat -> A)
    (ids : list Z) :
  Exists (out_of_range n) ids ->
  embedding_lookup n params ids = Raise InvalidArgumentError.
Proof.
  unfold embedding_lookup.
  induction 1 as [i ids Hi|i ids _ IH]; cbn [traverse].
  - now rewrite (in_range_false n i Hi).
  - destruct (in_range n i); [|reflexivity]. now rewrite IH.
Qed.

Lemma pred_out_of_range {L : External} (m : TFModel.t) (vars : Store) (n k d : nat)
    (rows cols : list Z) :
  TFModel.shape m = (n, k, d) ->
  Exists (out_of_range n) rows \/ Exists (out_of_range k) cols ->
  TFModel.pred m vars rows cols = Raise InvalidArgumentError.
Proof.
  intros Hs Hbad.
  assert (Hw : TFModel.weights_product m vars rows cols = Raise InvalidArgumentError).
  { unfold TFModel.weights_product. rewrite Hs.
    destruct (embedding_lookup n (row_weights vars) rows) as [brw|e] eqn:Hrows;
      cbn [mbind result_bind].
    - destruct Hbad as [Hbad|Hbad].
      + rewrite (embedding_lookup_out_of_range n _ rows Hbad) in Hrows. discriminate.
      + now rewrite (embedding_lookup_out_of_range k _ cols Hbad).
    - now rewrite (embedding_lookup_raises n _ rows e Hrows). }
  unfold TFModel.pred, TFModel.linear_predictor. rewrite Hs.
  destruct (TFModel.fit_intercepts m).
  - destruct (embedding_lookup n (row_biases vars) rows) as [brb|e] eqn:Hrows;
      cbn [mbind result_bind].
    + destruct Hbad as [Hbad|Hbad].
      * rewrite (embedding_lookup_out_of_range n _ rows Hbad) in Hrows. discriminate.
      * now rewrite (embedding_lookup_out_of_range k _ cols Hbad).
    + now rewrite (embedding_lookup_raises n _ rows e Hrows).
  - now rewrite Hw.
Qed.

(** X10.  For ids that are values of 32 signed bits, as the placeholders
    hold them, an id below zero or not below the size of its axis is
    rejected before anything is computed: [predict] raises TensorFlow's
    [InvalidArgumentError] and leaves the state as it was, and [train] with
    such a batch raises the same error, so no optimiser step is taken. *)
Theorem X10_ids_out_of_range {L : External} (st : MatrixFactorizer.State)
    (m : TFModel.t) (n k d : nat) (rows cols : list Z) :
  MatrixFactorizer._tf (MatrixFactorizer.self st) = Some m ->
  TFModel.shape m = (n, k, d) ->
  Forall int32 rows -> Forall int32 cols ->
  Exists (out_of_range n) rows \/ Exists (out_of_range k) cols ->
  MatrixFactorizer.predict rows cols st = (Raise InvalidArgumentError, st) /\
  forall values : list R,
    TFModel.train m rows cols values = Raise InvalidArgumentError /\
    MatrixFactorizer.tf_train rows cols values st = (Raise InvalidArgumentError, st).
Proof.
  intros Htf Hs _ _ Hbad. split.
  - unfold MatrixFactorizer.predict, TFModel.predict. rewrite Htf.
    now rewrite (pred_out_of_range m _ n k d rows cols Hs Hbad).
  - intros values.
    assert (Ht : TFModel.train m rows cols values = Raise InvalidArgumentError).
    { unfold TFModel.train, TFModel.cost, TFModel.loss_raw.
      now rewrite (pred_out_of_range m _ n k d rows cols Hs Hbad). }
    split; [exact Ht|].
    unfold MatrixFactorizer.tf_train. now rewrite Htf, Ht.
Qed.

Lemma X10_ids_out_of_range_witness :
  MatrixFactorizer.predict [0%Z; (-1)%Z] [0%Z; 0%Z] initialised_state
  = (Raise InvalidArgumentError, initialised_state).
Proof.
  apply (X10_ids_out_of_range initialised_state implicit_model 1 1 1
           [0%Z; (-1)%Z] [0%Z; 0%Z]).
  - reflexivity.
  - reflexivity.
  - repeat constructor; unfold int32; lia.
  - repeat constructor; unfold int32; lia.
  - left. apply Exists_cons_tl, Exists_cons_hd. left. lia.
Defined.

(** ** The range of the scores and of the losses *)

Lemma sigmoid_range (x : R) : 0 < sigmoid x < 1.
Proof.
  unfold sigmoid. pose proof (exp_pos (- x)) as He. split.
  - apply Rdiv_lt_0_compat; lra.
  - apply (Rmult_lt_reg_r (1 + exp (- x))); [lra|].
    unfold Rdiv. rewrite Rmult_assoc, Rinv_l by lra. lra.
Qed.

(** X11.  Under the logistic loss every score that [predict] returns lies
    between 0 and 1, bounds included. *)
Theorem X11_logistic_scores_are_probabilities {L : External}
    (st : MatrixFactorizer.State) (m : TFModel.t) (n k d : nat) (rows cols : list Z) :
  MatrixFactorizer._tf (MatrixFactorizer.self st) = Some m ->
  TFModel.loss m = "logistic"%string ->
  TFModel.shape m = (n, k, d) ->
  length rows = length cols ->
  ids_in_range n rows -> ids_in_range k cols ->
  exists scores : list R,
    MatrixFactorizer.predict rows cols st = (Ok scores, st) /\
    Forall (fun s => 0 <= s <= 1) scores.
Proof.
  intros Htf Hloss Hs Hlen Hr Hc.
  eexists. split.
  - unfold MatrixFactorizer.predict, TFModel.predict. rewrite Htf.
    rewrite (pred_in_range m _ n k d rows cols Hs Hlen Hr Hc). reflexivity.
  - rewrite Hloss. cbn [String.eqb Ascii.eqb Bool.eqb andb].
    clear. revert cols.
    induction rows as [|r rows IH]; intros [|c cols]; cbn [zip_with]; constructor.
    + pose proof (sigmoid_range (linear_score m (TFModel.variables (TFModel.sess m)) r c)).
      lra.
    + apply IH.
Qed.

Lemma X11_logistic_scores_are_probabilities_witness :
  exists scores : list R,
    MatrixFactorizer.predict [0%Z] [0%Z] initialised_state
      = (Ok scores, initialised_state) /\
    Forall (fun s => 0 <= s <= 1) scores.
Proof.
  apply (X11_logistic_scores_are_probabilities initialised_state implicit_model 1 1 1
           [0%Z] [0%Z]); try reflexivity; repeat constructor; lia.
Defined.

Lemma reduce_sum_nonneg (l : list R) :
  Forall (fun x => 0 <= x) l -> 0 <= reduce_sum l.
Proof.
  unfold reduce_sum. induction 1 as [|x l Hx _ IH]; cbn [fold_right]; lra.
Qed.

Lemma sum_upto_nonneg (n : nat) (f : nat -> R) :
  (forall i, 0 <= f i) -> 0 <= sum_upto n f.
Proof.
  intros H. induction n as [|n IH]; cbn [sum_upto]; [lra|].
  specialize (H n). lra.
Qed.

Lemma safe_div_nonneg (x : R) (n : nat) : 0 <= x -> 0 <= safe_div x n.
Proof.
  intros H. destruct n as [|n]; cbn [safe_div]; [lra|].
  apply Rmult_le_pos; [exact H|].
  left. apply Rinv_0_lt_compat, lt_0_INR. lia.
Qed.

Lemma sum_squares_nonneg (n d : nat) (w : nat -> nat -> R) : 0 <= sum_squares n d w.
Proof.
  unfold sum_squares. apply sum_upto_nonneg. intros i.
  apply sum_upto_nonneg. intros j. apply pow2_ge_0.
Qed.

Lemma sum_squares_at_nonneg (b : nat -> R) (ids : list Z) : 0 <= sum_squares_at b ids.
Proof.
  unfold sum_squares_at. apply reduce_sum_nonneg. apply List.Forall_map.
  apply List.Forall_forall. intros i _. apply pow2_ge_0.
Qed.

Lemma broadcast2_Forall {A B C : Type} (P : C -> Prop) (f : A -> B -> C)
    (xs : list A) (ys : list B) (l : list C) :
  (forall a b, P (f a b)) -> broadcast2 f xs ys = Ok l -> Forall P l.
Proof.
  intros Hf. unfold broadcast2.
  destruct (length xs =? length ys)%nat.
  - intros H. injection H as <-. revert ys.
    induction xs as [|x xs IH]; intros [|y ys]; cbn [zip_with]; constructor.
    + apply Hf.
    + apply IH.
  - destruct xs as [|x [|x' xs]].
    + destruct ys as [|y [|y' ys]]; try discriminate.
      intros H. injection H as <-. constructor.
    + intros H. injection H as <-. apply List.Forall_forall.
      intros z Hz. apply List.in_map_iff in Hz as (b & <- & _). apply Hf.
    + destruct ys as [|y [|y' ys]]; try discriminate.
      intros H. injection H as <-.
      change (Forall P (map (fun a => f a y) (x :: x' :: xs))).
      apply List.Forall_forall.
      intros z Hz. apply List.in_map_iff in Hz as (a & <- & _). apply Hf.
Qed.

Lemma zip_with_mult_nonneg (l ws : list R) :
  Forall (fun x => 0 <= x) l -> Forall (fun x => 0 <= x) ws ->
  Forall (fun x => 0 <= x) (zip_with Rmult l ws).
Proof.
  intros Hl. revert ws. induction Hl as [|x l Hx _ IH]; intros ws Hws;
    cbn [zip_with]; [constructor|].
  destruct Hws as [|w ws Hw Hws]; constructor.
  - now apply Rmult_le_pos.
  - now apply IH.
Qed.

Lemma compute_weighted_loss_nonneg (losses : list R) (w : weights) (c : R) :
  Forall (fun x => 0 <= x) losses -> weights_nonneg w ->
  compute_weighted_loss losses w = Ok c -> 0 <= c.
Proof.
  intros Hl Hw. unfold compute_weighted_loss.
  destruct (broadcast_weights w (length losses)) as [ws|e] eqn:Hb;
    cbn [mbind result_bind]; [|discriminate].
  intros H. injection H as <-.
  apply safe_div_nonneg, reduce_sum_nonneg, zip_with_mult_nonneg; [exact Hl|].
  unfold broadcast_weights in Hb. destruct w as [x|ws'].
  - injection Hb as <-. apply List.Forall_forall. intros y Hy.
    apply List.repeat_spec in Hy. subst y. exact Hw.
  - destruct (length ws' =? length losses)%nat.
    + injection Hb as <-. exact Hw.
    + destruct ws' as [|x [|]]; try discriminate. injection Hb as <-.
      apply List.Forall_forall. intros y Hy.
      apply List.repeat_spec in Hy. subst y. now apply List.Forall_inv in Hw.
Qed.

Lemma data_weights_nonneg {L : External} (m : TFModel.t) (values : list R) :
  (TFModel.implicit m = true ->
   0 <= TFModel.alpha m /\ Forall (fun v => 0 <= v) values) ->
  weights_nonneg (TFModel.data_weights m values).
Proof.
  intros H. unfold TFModel.data_weights.
  destruct (TFModel.implicit m); [|simpl; lra].
  destruct (H eq_refl) as [Ha Hv].
  destruct (TFModel.truthy (TFModel.log_weights m)); cbn [weights_nonneg];
    apply List.Forall_map; (eapply List.Forall_impl; [|exact Hv]); intros v Hv0.
  - pose proof (log1p_nonneg v Hv0). nra.
  - nra.
Qed.

(** X12.  Under the squared loss with a non-negative regularisation rate,
    the loss that a training step returns is never negative; in implicit
    mode this holds for a non-negative [alpha] and non-negative values. *)
Theorem X12_squared_loss_nonnegative {L : External} (m : TFModel.t) (n k d : nat)
    (rows cols : list Z) (values : list R) :
  TFModel.loss m <> "logistic"%string ->
  0 <= TFModel.regularization_rate m ->
  (TFModel.implicit m = true ->
   0 <= TFModel.alpha m /\ Forall (fun v => 0 <= v) values) ->
  TFModel.shape m = (n, k, d) ->
  length rows = length cols -> length values = length rows ->
  ids_in_range n rows -> ids_in_range k cols ->
  exists loss_value : R,
    TFModel.train m rows cols values
      = Ok (loss_value, TFModel.with_sess m (TFModel.train_step m rows cols values)) /\
    0 <= loss_value.
Proof.
  intros Hloss Hreg Himp Hs Hlen Hval Hr Hc.
  destruct (train_in_range m n k d rows cols values Hs Hlen Hval Hr Hc)
    as (data_loss & Hraw & Htrain).
  eexists. split; [exact Htrain|].
  assert (Hdata : 0 <= data_loss).
  { unfold TFModel.loss_raw in Hraw.
    destruct (TFModel.pred m _ rows cols) as [predictions|e];
      cbn [mbind result_bind] in Hraw; [|discriminate].
    apply String.eqb_neq in Hloss. rewrite Hloss in Hraw.
    unfold mean_squared_error in Hraw.
    destruct (broadcast2 _ predictions (TFModel.targets m values)) as [losses|e] eqn:Hb;
      cbn [mbind result_bind] in Hraw; [|discriminate].
    eapply compute_weighted_loss_nonneg; [| |exact Hraw].
    - eapply broadcast2_Forall; [|exact Hb]. intros p t. exact (Rle_0_sqr (p - t)).
    - now apply data_weights_nonneg. }
  assert (Hl2 : 0 <= graph_regularization m (TFModel.variables (TFModel.sess m)) rows cols).
  { unfold graph_regularization. rewrite Hs.
    pose proof (sum_squares_nonneg n d (row_weights (TFModel.variables (TFModel.sess m)))).
    pose proof (sum_squares_nonneg k d (col_weights (TFModel.variables (TFModel.sess m)))).
    pose proof (sum_squares_at_nonneg (row_biases (TFModel.variables (TFModel.sess m))) rows).
    pose proof (sum_squares_at_nonneg (col_biases (TFModel.variables (TFModel.sess m))) cols).
    apply Rmult_le_pos; [exact Hreg|].
    set (a := sum_squares n d _) in *. set (b := sum_squares k d _) in *.
    set (a' := sum_squares_at _ rows) in *. set (b' := sum_squares_at _ cols) in *.
    destruct (TFModel.fit_intercepts m); lra. }
  lra.
Qed.

Lemma X12_squared_loss_nonnegative_witness :
  exists loss_value : R,
    TFModel.train unit_model [0%Z] [0%Z] [1]
      = Ok (loss_value,
            TFModel.with_sess unit_model (TFModel.train_step unit_model [0%Z] [0%Z] [1])) /\
    0 <= loss_value.
Proof.
  apply (X12_squared_loss_nonnegative unit_model 1 1 1 [0%Z] [0%Z] [1]);
    try reflexivity.
  - discriminate.
  - simpl. lra.
  - discriminate.
  - repeat constructor; lia.
  - repeat constructor; lia.
Defined.

(** ** The value of the loss *)

(** X13.  On an empty batch the data loss is zero, and so are the bias
    terms: [train] returns [regularization_rate] times half the sum of the
    squares of the two weight matrices, under either loss and in either
    mode. *)
Theorem X13_empty_batch {L : External} (m : TFModel.t) (n k d : nat) :
  TFModel.shape m = (n, k, d) ->
  TFModel.train m [] [] []
  = Ok (TFModel.regularization_rate m *
        ((sum_squares n d (row_weights (TFModel.variables (TFModel.sess m)))
          + sum_squares k d (col_weights (TFModel.variables (TFModel.sess m)))) / 2),
        TFModel.with_sess m (TFModel.train_step m [] [] [])).
Proof.
  intros Hs.
  unfold TFModel.train, TFModel.cost, TFModel.loss_raw, TFModel.pred,
    TFModel.linear_predictor, TFModel.weights_product, TFModel.l2_term,
    TFModel.l2_weights, TFModel.targets, TFModel.data_weights.
  rewrite Hs, !l2_loss_matrix_sum_squares.
  set (a := sum_squares n d _). set (b := sum_squares k d _).
  destruct (TFModel.fit_intercepts m), (String.eqb (TFModel.loss m) "logistic"),
    (TFModel.implicit m), (TFModel.truthy (TFModel.log_weights m));
    cbn -[Rplus Rmult Rdiv Rinv l2_loss]; do 2 f_equal;
    unfold l2_loss, reduce_sum; cbn [map fold_right]; field.
Qed.

Lemma X13_empty_batch_witness :
  TFModel.train unit_model [] [] []
  = Ok (1 * ((sum_squares 1 1 (fun _ _ => 1) + sum_squares 1 1 (fun _ _ => 1)) / 2),
        TFModel.with_sess unit_model (TFModel.train_step unit_model [] [] [])).
Proof.
  apply (X13_empty_batch unit_model 1 1 1). reflexivity.
Defined.

Lemma nonzero_ge_one (x : R) : 1 <= x -> nonzero x = true.
Proof.
  intros H. unfold nonzero. destruct (Req_dec_T x 0); [lra | reflexivity].
Qed.

Lemma num_present_all (ws : list R) :
  Forall (fun w => 1 <= w) ws -> num_present ws = length ws.
Proof.
  unfold num_present. induction 1 as [|w ws Hw _ IH]; cbn [List.filter]; [reflexivity|].
  rewrite (nonzero_ge_one w Hw). cbn [length]. now rewrite IH.
Qed.

Lemma zip_with_zip_with_map {A : Type} (g : R -> R -> R) (t w : A -> R)
    (preds : list R) (values : list A) :
  zip_with Rmult (zip_with g preds (map t values)) (map w values)
  = zip_with (fun p v => g p (t v) * w v) preds values.
Proof.
  revert values. induction preds as [|p preds IH]; intros [|v values];
    cbn [zip_with map]; try reflexivity.
  now rewrite IH.
Qed.

Lemma safe_div_positive (x : R) (n : nat) : (0 < n)%nat -> safe_div x n = x / INR n.
Proof. intros H. destruct n; [lia | reflexivity]. Qed.

(** X14.  In explicit mode under the squared loss, the data loss of a
    non-empty batch is the plain mean of the squared differences between the
    scores and the values sampled, zeros included. *)
Theorem X14_explicit_loss_is_mean_squared_error {L : External} (m : TFModel.t)
    (vars : Store) (n k d : nat) (rows cols : list Z) (values : list R) :
  TFModel.implicit m = false ->
  TFModel.loss m <> "logistic"%string ->
  TFModel.shape m = (n, k, d) ->
  length rows = length cols -> length values = length rows ->
  ids_in_range n rows -> ids_in_range k cols ->
  values <> [] ->
  TFModel.loss_raw m vars rows cols values
  = Ok (reduce_sum
          (zip_with (fun s v => (s - v) * (s - v))
                    (zip_with (linear_score m vars) rows cols) values)
        / INR (length values)).
Proof.
  intros Himp Hloss Hs Hlen Hval Hr Hc Hne.
  unfold TFModel.loss_raw.
  rewrite (pred_in_range m vars n k d rows cols Hs Hlen Hr Hc).
  apply String.eqb_neq in Hloss. rewrite Hloss. cbn [mbind result_bind].
  unfold TFModel.targets, TFModel.data_weights. rewrite Himp.
  unfold mean_squared_error.
  rewrite broadcast2_same_length by (rewrite length_zip_with_same; congruence).
  cbn [mbind result_bind]. unfold compute_weighted_loss.
  assert (Hll : length (zip_with (fun p t => (p - t) * (p - t))
                  (zip_with (fun r c => linear_score m vars r c) rows cols) values)
                = length values).
  { rewrite !length_zip_with_same; rewrite ?length_zip_with_same; congruence. }
  rewrite Hll. cbn [broadcast_weights mbind result_bind].
  rewrite num_present_all
    by (apply List.Forall_forall; intros y Hy; apply List.repeat_spec in Hy; lra).
  rewrite List.repeat_length.
  rewrite safe_div_positive by (destruct values; [contradiction | simpl; lia]).
  do 2 f_equal.
  rewrite <- (List.map_const 1 values).
  rewrite <- (List.map_id values) at 1.
  rewrite zip_with_zip_with_map. f_equal.
  change (zip_with (fun r c => linear_score m vars r c) rows cols)
    with (zip_with (linear_score m vars) rows cols).
  clear. revert values.
  generalize (zip_with (linear_score m vars) rows cols).
  induction l as [|p l IH]; intros [|v values]; cbn [zip_with]; try reflexivity.
  rewrite IH. f_equal. ring.
Qed.

Lemma X14_explicit_loss_is_mean_squared_error_witness :
  TFModel.loss_raw unit_model (TFModel.variables (TFModel.sess unit_model))
    [0%Z; 0%Z] [0%Z; 0%Z] [3; 0]
  = Ok (reduce_sum
          (zip_with (fun s v => (s - v) * (s - v))
                    (zip_with (linear_score unit_model
                                 (TFModel.variables (TFModel.sess unit_model)))
                              [0%Z; 0%Z] [0%Z; 0%Z]) [3; 0])
        / INR 2).
Proof.
  apply (X14_explicit_loss_is_mean_squared_error unit_model _ 1 1 1
           [0%Z; 0%Z] [0%Z; 0%Z] [3; 0]); try reflexivity; try discriminate;
    repeat constructor; lia.
Defined.

(** X15.  In implicit mode under the squared loss, for non-negative values
    and a non-negative [alpha], the data loss of a non-empty batch is the
    sum of the squared differences between the scores and the clipped
    values, each multiplied by the confidence weight of its entry, divided
    by the size of the batch -- not by the sum of the weights. *)
Theorem X15_implicit_loss_divides_by_batch_size {L : External} (m : TFModel.t)
    (vars : Store) (n k d : nat) (rows cols : list Z) (values : list R) :
  TFModel.implicit m = true ->
  TFModel.loss m <> "logistic"%string ->
  0 <= TFModel.alpha m -> Forall (fun v => 0 <= v) values ->
  TFModel.shape m = (n, k, d) ->
  length rows = length cols -> length values = length rows ->
  ids_in_range n rows -> ids_in_range k cols ->
  values <> [] ->
  TFModel.loss_raw m vars rows cols values
  = Ok (reduce_sum
          (zip_with (fun s v => (s - clip_by_value v 0 1) * (s - clip_by_value v 0 1)
                                * confidence_weight m v)
                    (zip_with (linear_score m vars) rows cols) values)
        / INR (length values)).
Proof.
  intros Himp Hloss Halpha Hvalues Hs Hlen Hval Hr Hc Hne.
  assert (Hw : TFModel.data_weights m values = PerEntry (map (confidence_weight m) values)).
  { unfold TFModel.data_weights, confidence_weight. rewrite Himp.
    destruct (TFModel.truthy (TFModel.log_weights m)); reflexivity. }
  assert (Hone : Forall (fun w => 1 <= w) (map (confidence_weight m) values)).
  { apply List.Forall_map. eapply List.Forall_impl; [|exact Hvalues].
    intros v Hv. unfold confidence_weight.
    destruct (TFModel.truthy (TFModel.log_weights m)).
    - pose proof (log1p_nonneg v Hv). nra.
    - nra. }
  unfold TFModel.loss_raw.
  rewrite (pred_in_range m vars n k d rows cols Hs Hlen Hr Hc).
  apply String.eqb_neq in Hloss. rewrite Hloss. cbn [mbind result_bind].
  rewrite Hw. unfold TFModel.targets. rewrite Himp.
  unfold mean_squared_error.
  rewrite broadcast2_same_length
    by (rewrite List.length_map, length_zip_with_same; congruence).
  cbn [mbind result_bind]. unfold compute_weighted_loss.
  assert (Hll : length (zip_with (fun p t => (p - t) * (p - t))
                  (zip_with (fun r c => linear_score m vars r c) rows cols)
                  (map (fun v => clip_by_value v 0 1) values))
                = length values).
  { rewrite length_zip_with_same;
      rewrite ?List.length_map, length_zip_with_same; congruence. }
  rewrite Hll. cbn [broadcast_weights].
  rewrite List.length_map, Nat.eqb_refl. cbn [mbind result_bind].
  rewrite (num_present_all _ Hone), List.length_map.
  rewrite safe_div_positive by (destruct values; [contradiction | simpl; lia]).
  rewrite zip_with_zip_with_map. reflexivity.
Qed.

Lemma X15_implicit_loss_divides_by_batch_size_witness :
  TFModel.loss_raw implicit_squared_model
    (TFModel.variables (TFModel.sess implicit_squared_model))
    [0%Z; 0%Z] [0%Z; 0%Z] [3; 0]
  = Ok (reduce_sum
          (zip_with (fun s v => (s - clip_by_value v 0 1) * (s - clip_by_value v 0 1)
                                * confidence_weight implicit_squared_model v)
                    (zip_with (linear_score implicit_squared_model
                                 (TFModel.variables (TFModel.sess implicit_squared_model)))
                              [0%Z; 0%Z] [0%Z; 0%Z]) [3; 0])
        / INR 2).
Proof.
  apply (X15_implicit_loss_divides_by_batch_size implicit_squared_model _ 1 1 1
           [0%Z; 0%Z] [0%Z; 0%Z] [3; 0]); try reflexivity; try discriminate.
  - simpl. lra.
  - repeat constructor; lra.
  - repeat constructor; lia.
  - repeat constructor; lia.
Defined.

(** ** The coefficients *)

Lemma coef_entries {L : External} (m : TFModel.t) (n k d : nat) :
  TFModel.shape m = (n, k, d) ->
  let vars := TFModel.variables (TFModel.sess m) in
  TFModel.coef m !! "row_weights"%string = Some (TMatrix n d (row_weights vars)) /\
  TFModel.coef m !! "col_weights"%string = Some (TMatrix k d (col_weights vars)) /\
  TFModel.coef m !! "global_bias"%string
    = (if TFModel.fit_intercepts m then Some (TScalar (global_bias vars)) else None) /\
  TFModel.coef m !! "row_bias"%string
    = (if TFModel.fit_intercepts m then Some (TVector n (row_biases vars)) else None) /\
  TFModel.coef m !! "col_bias"%string
    = (if TFModel.fit_intercepts m then Some (TVector k (col_biases vars)) else None) /\
  size (TFModel.coef m) = (if TFModel.fit_intercepts m then 5 else 2)%nat.
Proof.
  intros Hs vars. unfold TFModel.coef. rewrite Hs. fold vars.
  destruct (TFModel.fit_intercepts m); repeat split; reflexivity.
Qed.

(** X16.  The dictionary that [coef] returns is enough to recompute
    [predict]: for ids in range, the score of a pair is the value of the
    docstring's formula [mu + bi[i] + bj[j] + P[i,:] * Q[j,:]] on the
    entries of the dictionary (through the sigmoid under the logistic loss).
    The dictionary holds the three intercepts exactly when [fit_intercepts]
    is set, under the keys ['global_bias'], ['row_bias'] and ['col_bias'];
    without them the intercepts count as zero. *)
Theorem X16_coef_recomputes_predict {L : External} (m : TFModel.t) (n k d : nat)
    (rows cols : list Z) :
  TFModel.shape m = (n, k, d) ->
  length rows = length cols ->
  ids_in_range n rows -> ids_in_range k cols ->
  (exists scores : list R,
      TFModel.predict m rows cols = Ok scores /\
      forall (i : nat) (r c : Z),
        rows !! i = Some r -> cols !! i = Some c ->
        scores !! i
        = (fun z => if String.eqb (TFModel.loss m) "logistic" then sigmoid z else z)
            <$> score_from_coef (TFModel.coef m) r c) /\
  (TFModel.fit_intercepts m = true ->
   size (TFModel.coef m) = 5%nat /\
   TFModel.coef m !! "global_bias"%string
     = Some (TScalar (global_bias (TFModel.variables (TFModel.sess m)))) /\
   TFModel.coef m !! "row_bias"%string
     = Some (TVector n (row_biases (TFModel.variables (TFModel.sess m)))) /\
   TFModel.coef m !! "col_bias"%string
     = Some (TVector k (col_biases (TFModel.variables (TFModel.sess m))))) /\
  (TFModel.fit_intercepts m = false ->
   size (TFModel.coef m) = 2%nat /\
   TFModel.coef m !! "global_bias"%string = None /\
   TFModel.coef m !! "row_bias"%string = None /\
   TFModel.coef m !! "col_bias"%string = None).
Proof.
  intros Hs Hlen Hr Hc.
  destruct (coef_entries m n k d Hs) as (Hp & Hq & Hmu & Hbi & Hbj & Hsize).
  split; [|split].
  - eexists. split.
    + unfold TFModel.predict.
      apply (pred_in_range m _ n k d rows cols Hs Hlen Hr Hc).
    + intros i r c Hri Hci. rewrite lookup_zip_with, Hri, Hci.
      cbn [mbind option_bind].
      pose proof (Forall_lookup_1 _ _ _ _ Hr Hri) as Hrr.
      pose proof (Forall_lookup_1 _ _ _ _ Hc Hci) as Hcc.
      unfold score_from_coef. rewrite Hp, Hq, Hmu, Hbi, Hbj.
      rewrite (in_range_true n r Hrr), (in_range_true k c Hcc). cbn [andb].
      unfold linear_score. rewrite Hs.
      cbn [fmap option_fmap option_map]. f_equal.
      cbn beta.
      destruct (TFModel.fit_intercepts m), (String.eqb (TFModel.loss m) "logistic");
        try apply (f_equal sigmoid); lra.
  - intros Hfit. rewrite Hfit in *. repeat split; assumption.
  - intros Hfit. rewrite Hfit in *. repeat split; assumption.
Qed.

Lemma X16_coef_recomputes_predict_witness :
  size (TFModel.coef unit_model) = 2%nat /\
  TFModel.coef unit_model !! "global_bias"%string = None /\
  TFModel.coef unit_model !! "row_bias"%string = None /\
  TFModel.coef unit_model !! "col_bias"%string = None.
Proof.
  destruct (X16_coef_recomputes_predict unit_model 1 1 1 [0%Z] [0%Z] eq_refl eq_refl)
    as (_ & _ & Hnone).
  - repeat constructor; lia.
  - repeat constructor; lia.
  - apply Hnone. reflexivity.
Defined.

(** ** The first call *)

(** X17.  On a new estimator there is no session to erase, so [fit] and
    [partial_fit] are the same call, whatever [warm_start] is. *)
Theorem X17_first_fit_is_partial_fit {L : External} (kw : MatrixFactorizer.Hyper)
    (w : World) (st : MatrixFactorizer.State) (X : csr_matrix.t) :
  MatrixFactorizer.__init__ kw w = Ok st ->
  MatrixFactorizer.fit X st = MatrixFactorizer.partial_fit X st.
Proof.
  intros Hinit. apply init_returns in Hinit.
  destruct st as [e w']. cbn [MatrixFactorizer.self] in Hinit. subst e.
  unfold MatrixFactorizer.fit.
  erewrite Py_bind_ok by reflexivity.
  destruct (MatrixFactorizer.warm_start _); cbn [negb];
    erewrite Py_bind_ok by reflexivity; reflexivity.
Qed.

Lemma X17_first_fit_is_partial_fit_witness :
  let st := {| MatrixFactorizer.self := MatrixFactorizer.new_object docstring_arguments;
               MatrixFactorizer.world := @Build_World counting 42%nat 0%nat |} in
  MatrixFactorizer.fit ratings st = MatrixFactorizer.partial_fit ratings st.
Proof.
  intros st.
  apply (X17_first_fit_is_partial_fit docstring_arguments world0 st ratings).
  reflexivity.
Defined.
